(** * movebank-api-doc: the fetcher's credentials, command line,
      timestamp normalizer and per-entity fetch loop, and the viewer's
      clock, distance, day/night, filtering and playback logic.

    Sources embedded here:
    - [fetch_movebank_data.py]: [MovebankDataFetcher.__init__],
      [call_api], the [get_*] wrappers, [fetch_all_study_data],
      [_convert_timestamp], [main];
    - [gps_viewer.py]: [haversine_distance], [calculate_sunrise_sunset],
      [is_daytime], [convert_to_kenyan_time], [on_animal_selected],
      [calculate_total_distance], [GPSViewer.filter_data],
      [on_position_changed], [update_map_preview_animated], the marker
      sampling of [generate_map], [toggle_animation], [reset_animation],
      [animate_step].

    Conventions.  Python [str] values are modelled as [string] (code points
    0..255); Python [int] as [Z]; a Python call that may raise returns a
    [Py.result].  Binary64 arithmetic whose rounding is visible in an integer
    result (the slider-to-index computation) uses the kernel's primitive
    floats; the haversine formula, which needs sin, cos and asin, is stated
    over the real numbers. *)

From Stdlib Require Import ZArith List String Ascii Bool Lia.
From Stdlib Require Import Floats DecimalString.
From Stdlib Require DecimalZ DecimalPos.
From Stdlib Require Import Sorting.Sorted Sorting.Permutation Sorting.Mergesort Orders.
From Stdlib Require Import Reals Lra.
Import ListNotations.

#[local] Open Scope string_scope.
#[local] Open Scope Z_scope.

(* ================================================================== *)
(** * A fragment of the Python runtime *)
(* ================================================================== *)

Module Py.

(** The exception classes the two scripts can meet.  [BaseOnly] stands for
    the classes that derive from [BaseException] but not from [Exception]
    ([KeyboardInterrupt], [SystemExit]): [except Exception] lets them
    through, a bare [except:] does not. *)
Inductive exn : Type :=
| ImportError
| ValueError
| TypeError
| IndexError
| KeyError
| ZeroDivisionError
| OverflowError
| OtherException
| BaseOnly.

Definition is_Exception (e : exn) : bool :=
  match e with BaseOnly => false | _ => true end.

Inductive result (A : Type) : Type :=
| Ok (a : A)
| Raise (e : exn).
Arguments Ok {A} a.
Arguments Raise {A} e.

Definition bind {A B} (m : result A) (k : A -> result B) : result B :=
  match m with
  | Ok a => k a
  | Raise e => Raise e
  end.

(** [try: body  except: handler] (a bare except clause). *)
Definition try_except {A} (body : result A) (handler : result A) : result A :=
  match body with
  | Ok a => Ok a
  | Raise _ => handler
  end.

(** [try: body  except E: handler] for a class test [E]. *)
Definition try_except_if {A} (body : result A) (E : exn -> bool)
           (handler : exn -> result A) : result A :=
  match body with
  | Ok a => Ok a
  | Raise e => if E e then handler e else Raise e
  end.

Definition is_ok {A} (m : result A) : bool :=
  match m with Ok _ => true | Raise _ => false end.

(** ** Strings *)

Definition code (c : ascii) : Z := Z.of_nat (nat_of_ascii c).

(** [\d] of the [re] module on a [str] pattern: the decimal digits
    (category Nd); below U+0100 these are 0-9 only. *)
Definition is_decimal (c : ascii) : bool :=
  (48 <=? code c) && (code c <=? 57).

(** [str.isdigit] on one character: below U+0100 the decimal digits and
    the superscripts U+00B2, U+00B3, U+00B9. *)
Definition isdigit_char (c : ascii) : bool :=
  is_decimal c || (code c =? 178) || (code c =? 179) || (code c =? 185).

(** [\s] of the [re] module on a [str] pattern ([str.isspace]), below
    U+0100. *)
Definition is_space (c : ascii) : bool :=
  ((9 <=? code c) && (code c <=? 13))
  || ((28 <=? code c) && (code c <=? 32))
  || (code c =? 133) || (code c =? 160).

Fixpoint all_chars (p : ascii -> bool) (s : string) : bool :=
  match s with
  | EmptyString => true
  | String c s' => p c && all_chars p s'
  end.

(** [s.isdigit()]: every character is a digit and there is at least one. *)
Definition isdigit (s : string) : bool :=
  match s with
  | EmptyString => false
  | _ => all_chars isdigit_char s
  end.

(** [s.replace(c, '')] for a one-character [c]. *)
Fixpoint remove_char (c : ascii) (s : string) : string :=
  match s with
  | EmptyString => EmptyString
  | String c' s' =>
      if Ascii.eqb c' c then remove_char c s' else String c' (remove_char c s')
  end.

(** [s.count(c)] for a one-character [c]. *)
Fixpoint count (c : ascii) (s : string) : nat :=
  match s with
  | EmptyString => O
  | String c' s' => ((if Ascii.eqb c' c then 1 else 0) + count c s')%nat
  end.

Fixpoint repeat_char (c : ascii) (n : nat) : string :=
  match n with
  | O => EmptyString
  | S n' => String c (repeat_char c n')
  end.

(** [s.ljust(width, fill)]: pads on the right, never truncates. *)
Definition ljust (width : nat) (fill : ascii) (s : string) : string :=
  s ++ repeat_char fill (width - String.length s).


(** [int(s)] on a capture of [strptime]: decimal digits after optional
    blanks. *)
Definition digit_val (c : ascii) : Z := code c - 48.

Fixpoint int_acc (acc : Z) (s : string) : Z :=
  match s with
  | EmptyString => acc
  | String c s' => int_acc (if is_decimal c then 10 * acc + digit_val c else acc) s'
  end.

Definition int_of_str (s : string) : Z := int_acc 0 s.

(** Zero-padded decimal of a non-negative number, least [width] digits. *)
Definition digit_char (d : Z) : ascii := ascii_of_nat (Z.to_nat (48 + d mod 10)).

Fixpoint zfill (width : nat) (n : Z) : string :=
  match width with
  | O => EmptyString
  | S w => zfill w (n / 10) ++ String (digit_char n) EmptyString
  end.

(** ** Floats *)

(** [float(n)] for an [int]: the nearest binary64 number. *)
Definition float_of_Z (n : Z) : float :=
  SF2Prim (binary_normalize prec emax n 0 false).

(** [int(x)] for a [float]: truncation toward zero; refused on infinities
    ([OverflowError]) and NaN ([ValueError]), both of class [Exception]. *)
Definition int_of_float (x : float) : result Z :=
  match Prim2SF x with
  | S754_zero _ => Ok 0
  | S754_finite s m e =>
      let magnitude :=
        match e with
        | Z0 => Zpos m
        | Zpos p => Z.shiftl (Zpos m) (Zpos p)
        | Zneg p => Z.shiftr (Zpos m) (Zpos p)
        end in
      Ok (if s then - magnitude else magnitude)
  | S754_infinity _ => Raise OverflowError
  | S754_nan => Raise ValueError
  end.

(** [a / b] on two [int]s (true division).  Below 2^53 both operands are
    binary64 numbers and the quotient is the correctly rounded one. *)
Definition truediv (a b : Z) : result float :=
  if b =? 0 then Raise ZeroDivisionError
  else Ok (float_of_Z a / float_of_Z b)%float.

(** ** Sequences *)

(** [l[i]] / [df.iloc[i]]: negative positions count from the end. *)
Definition iloc {A} (l : list A) (i : Z) : result A :=
  let n := Z.of_nat (List.length l) in
  let j := if i <? 0 then i + n else i in
  if (0 <=? j) && (j <? n) then
    match nth_error l (Z.to_nat j) with
    | Some a => Ok a
    | None => Raise IndexError
    end
  else Raise IndexError.

(** [l[start:stop]] / [df.iloc[start:stop]]: bounds are clipped, never
    refused. *)
Definition slice {A} (l : list A) (start stop : Z) : list A :=
  let n := Z.of_nat (List.length l) in
  let clip i := Z.max 0 (Z.min n (if i <? 0 then i + n else i)) in
  let a := clip start in
  let b := clip stop in
  firstn (Z.to_nat (b - a)) (skipn (Z.to_nat a) l).

End Py.

(* ================================================================== *)
(** * [datetime.strptime] and [datetime.strftime] *)
(* ================================================================== *)

(** The fetcher parses with [datetime.strptime] and prints with
  [strftime].  [strptime] compiles the format to a regular expression,
  takes the first match that [re.match] finds (alternatives in order,
  with backtracking), refuses a match that leaves input unread, and
  builds a [datetime], whose constructor checks the calendar. *)

Module Datetime.
Import Py.

Record datetime : Type := mkdatetime {
  year : Z; month : Z; day : Z; hour : Z; minute : Z; second : Z
}.

Definition is_leap (y : Z) : bool :=
  (y mod 4 =? 0) && (negb (y mod 100 =? 0) || (y mod 400 =? 0)).

Definition days_in_month (y m : Z) : Z :=
  if m =? 2 then (if is_leap y then 29 else 28)
  else if (m =? 4) || (m =? 6) || (m =? 9) || (m =? 11) then 30
  else 31.

(** The range checks of the [datetime] constructor (MINYEAR = 1,
    MAXYEAR = 9999). *)
Definition valid_date (y m d : Z) : bool :=
  (1 <=? y) && (y <=? 9999) && (1 <=? m) && (m <=? 12)
  && (1 <=? d) && (d <=? days_in_month y m).

Definition valid_time (h mi s : Z) : bool :=
  (0 <=? h) && (h <=? 23) && (0 <=? mi) && (mi <=? 59)
  && (0 <=? s) && (s <=? 59).

Definition make_datetime (y m d h mi s : Z) : result datetime :=
  if valid_date y m d && valid_time h mi s
  then Ok (mkdatetime y m d h mi s)
  else Raise ValueError.

(** ** The regular expressions of the directives *)

Inductive directive : Type := dY | dm | dd | dH | dM | dS.

Inductive atom : Type :=
| Digit                       (* \d *)
| Range (lo hi : ascii)       (* [lo-hi] *)
| Char (c : ascii).           (* a literal character *)

Definition atom_matches (a : atom) (c : ascii) : bool :=
  match a with
  | Digit => is_decimal c
  | Range lo hi => is_decimal c && (code lo <=? code c) && (code c <=? code hi)
  | Char c' => Ascii.eqb c c'
  end.

(** The alternatives of each directive, in the order of [_strptime.TimeRE]:
    Y [\d\d\d\d];  m [1[0-2]|0[1-9]|[1-9]];
    d [3[0-1]|[1-2]\d|0[1-9]|[1-9]| [1-9]];  H [2[0-3]|[0-1]\d|\d];
    M [[0-5]\d|\d];  S [6[0-1]|[0-5]\d|\d]. *)
Definition alternatives (d : directive) : list (list atom) :=
  match d with
  | dY => [[Digit; Digit; Digit; Digit]]
  | dm => [[Char "1"; Range "0" "2"]; [Char "0"; Range "1" "9"]; [Range "1" "9"]]
  | dd => [[Char "3"; Range "0" "1"]; [Range "1" "2"; Digit];
           [Char "0"; Range "1" "9"]; [Range "1" "9"]; [Char " "; Range "1" "9"]]
  | dH => [[Char "2"; Range "0" "3"]; [Range "0" "1"; Digit]; [Digit]]
  | dM => [[Range "0" "5"; Digit]; [Digit]]
  | dS => [[Char "6"; Range "0" "1"]; [Range "0" "5"; Digit]; [Digit]]
  end.

Inductive item : Type :=
| I_dir (d : directive)
| I_lit (c : ascii)
| I_ws.                       (* \s+ : a blank run of the format *)

Definition directive_of (c : ascii) : option directive :=
  if Ascii.eqb c "Y" then Some dY else if Ascii.eqb c "m" then Some dm
  else if Ascii.eqb c "d" then Some dd else if Ascii.eqb c "H" then Some dH
  else if Ascii.eqb c "M" then Some dM else if Ascii.eqb c "S" then Some dS
  else None.

(** The format compiler, for the directives above: [%X] becomes the
    directive's group, a run of blanks becomes [\s+], any other character
    stands for itself. *)
Fixpoint compile (after_ws : bool) (fmt : string) : option (list item) :=
  match fmt with
  | EmptyString => Some []
  | String c rest =>
      if Ascii.eqb c "%" then
        match rest with
        | String x rest' =>
            match directive_of x, compile false rest' with
            | Some d, Some p => Some (I_dir d :: p)
            | _, _ => None
            end
        | EmptyString => None
        end
      else if is_space c then
        match compile true rest with
        | Some p => Some (if after_ws then p else I_ws :: p)
        | None => None
        end
      else
        match compile false rest with
        | Some p => Some (I_lit c :: p)
        | None => None
        end
  end.

(** ** Matching *)

Definition captures : Type := list (directive * string).

Fixpoint match_seq (atoms : list atom) (s : string) : option (string * string) :=
  match atoms with
  | [] => Some (EmptyString, s)
  | a :: atoms' =>
      match s with
      | String c s' =>
          if atom_matches a c then
            match match_seq atoms' s' with
            | Some (cap, rest) => Some (String c cap, rest)
            | None => None
            end
          else None
      | EmptyString => None
      end
  end.

(** [\s+] followed by [k]: the longest blank run first. *)
Fixpoint ws_then {A} (k : string -> list A) (s : string) : list A :=
  match s with
  | String c s' => if is_space c then (ws_then k s' ++ k s')%list else []
  | EmptyString => []
  end.

Definition add_capture (d : directive) (cap : string)
           (r : captures * string) : captures * string :=
  ((d, cap) :: fst r, snd r).

(** A directive followed by [k]: its alternatives in order. *)
Definition match_dir (d : directive) (k : string -> list (captures * string))
           (s : string) : list (captures * string) :=
  flat_map
    (fun alt =>
       match match_seq alt s with
       | Some (cap, rest) => map (add_capture d cap) (k rest)
       | None => []
       end)
    (alternatives d).

(** Every way the pattern matches a prefix of [s], in the order the
    backtracking matcher finds them, each with the unread rest. *)
Fixpoint match_items (p : list item) (s : string) : list (captures * string) :=
  match p with
  | [] => [([], s)]
  | I_lit c :: p' =>
      match s with
      | String c' s' => if Ascii.eqb c' c then match_items p' s' else []
      | EmptyString => []
      end
  | I_ws :: p' => ws_then (match_items p') s
  | I_dir d :: p' => match_dir d (match_items p') s
  end.

Fixpoint capture (d : directive) (default : Z) (cs : captures) : Z :=
  match cs with
  | [] => default
  | (d', cap) :: cs' =>
      if match d, d' with
         | dY, dY | dm, dm | dd, dd | dH, dH | dM, dM | dS, dS => true
         | _, _ => false
         end
      then int_of_str cap
      else capture d default cs'
  end.

(** Defaults of [_strptime]: 1900-01-01 00:00:00. *)
Definition strptime (s fmt : string) : result datetime :=
  match compile false fmt with
  | None => Raise ValueError
  | Some p =>
      match match_items p s with
      | [] => Raise ValueError                      (* does not match format *)
      | (cs, rest) :: _ =>
          match rest with
          | EmptyString =>
              make_datetime (capture dY 1900 cs) (capture dm 1 cs) (capture dd 1 cs)
                            (capture dH 0 cs) (capture dM 0 cs) (capture dS 0 cs)
          | String _ _ => Raise ValueError          (* unconverted data remains *)
          end
      end
  end.

(** ** Printing *)

(** [strftime] hands the format to the C library.  Month, day, hour,
    minute and second are printed on two digits everywhere.  The year of
    [%Y] is printed on four digits where the library pads it; the GNU C
    library (CPython 3.11 on Linux) prints it as a plain decimal, 999 for
    the year 999.  [year_padded] says which of the two the platform does;
    years lie between 1 and 9999. *)
Fixpoint drop_leading_zeros (s : string) : string :=
  match s with
  | String c (String _ _ as rest) => if Ascii.eqb c "0" then drop_leading_zeros rest else s
  | _ => s
  end.

Definition print_year (year_padded : bool) (y : Z) : string :=
  if year_padded then zfill 4 y else drop_leading_zeros (zfill 4 y).

Definition print_directive (year_padded : bool) (dt : datetime) (d : directive) : string :=
  match d with
  | dY => print_year year_padded (year dt)
  | dm => zfill 2 (month dt)
  | dd => zfill 2 (day dt)
  | dH => zfill 2 (hour dt)
  | dM => zfill 2 (minute dt)
  | dS => zfill 2 (second dt)
  end.

Fixpoint strftime (year_padded : bool) (dt : datetime) (fmt : string) : string :=
  match fmt with
  | EmptyString => EmptyString
  | String c rest =>
      if Ascii.eqb c "%" then
        match rest with
        | String x rest' =>
            match directive_of x with
            | Some d => print_directive year_padded dt d ++ strftime year_padded dt rest'
            | None => String c (String x (strftime year_padded dt rest'))
            end
        | EmptyString => String c EmptyString
        end
      else String c (strftime year_padded dt rest)
  end.

End Datetime.

(* ================================================================== *)
(** * fetch_movebank_data.py: the timestamp normalizer *)
(* ================================================================== *)

Module Normalizer.
Import Py Datetime.

(** [timestamp_str.replace(' ', '').replace('-', '').replace(':', '')] *)
Definition stripped (timestamp_str : string) : string :=
  remove_char ":" (remove_char "-" (remove_char " " timestamp_str)).

Section Platform.

(** Whether the platform's [strftime] pads the year of [%Y] to four
    digits. *)
Variable year_padded : bool.

(** [MovebankDataFetcher._convert_timestamp].  [Ok None] is Python's
    [None]; a [ValueError] of [strptime] is caught ([except ValueError:
    pass]) and the input returned, any other exception propagates. *)
Definition _convert_timestamp (timestamp_str : string) : result (option string) :=
  if String.eqb timestamp_str "" then Ok None
  else if isdigit (stripped timestamp_str)
          && (14 <=? String.length (stripped timestamp_str))%nat
  then Ok (Some (ljust 17 "0" (stripped timestamp_str)))
  else
    let attempt : result (option string) :=
      if (String.length timestamp_str =? 10)%nat
         && (count "-" timestamp_str =? 2)%nat then
        bind (strptime timestamp_str "%Y-%m-%d")
             (fun dt => Ok (Some (strftime year_padded dt "%Y%m%d%H%M%S000")))
      else if (String.length timestamp_str =? 19)%nat then
        bind (strptime timestamp_str "%Y-%m-%d %H:%M:%S")
             (fun dt => Ok (Some (strftime year_padded dt "%Y%m%d%H%M%S000")))
      else if (String.length timestamp_str =? 16)%nat then
        bind (strptime timestamp_str "%Y-%m-%d %H:%M")
             (fun dt => Ok (Some (strftime year_padded dt "%Y%m%d%H%M%S000")))
      else Ok None
    in
    bind (try_except_if attempt
            (fun e => match e with ValueError => true | _ => false end)
            (fun _ => Ok None))
         (fun r => match r with
                   | Some out => Ok (Some out)
                   | None => Ok (Some timestamp_str)
                   end).

End Platform.

(** What a valid [YYYY-MM-DD] string is, for the properties below: ten
    characters, hyphens in the fifth and eighth place, decimal digits
    elsewhere, and a year, month and day that exist in the calendar of
    [datetime] (years 1 to 9999). *)
Definition iso_date (s : string) : option (Z * Z * Z) :=
  match s with
  | String y1 (String y2 (String y3 (String y4 (String h1
      (String m1 (String m2 (String h2 (String d1 (String d2 EmptyString))))))))) =>
      if forallb is_decimal [y1; y2; y3; y4; m1; m2; d1; d2]
         && Ascii.eqb h1 "-" && Ascii.eqb h2 "-"
      then
        let y := 1000 * digit_val y1 + 100 * digit_val y2 + 10 * digit_val y3 + digit_val y4 in
        let m := 10 * digit_val m1 + digit_val m2 in
        let d := 10 * digit_val d1 + digit_val d2 in
        if valid_date y m d then Some (y, m, d) else None
      else None
  | _ => None
  end.

End Normalizer.

(* ================================================================== *)
(** * fetch_movebank_data.py: one study, entity by entity *)
(* ================================================================== *)

Module Fetcher.
Import Py.

(** ** Requests, tables and what a run leaves behind *)

Inductive value : Type :=
| VInt (n : Z)
| VStr (s : string).

(** The [params] dictionary, in insertion order. *)
Definition params : Type := list (string * value).

Record response : Type := mkresponse {
  status_code : Z;
  content : string
}.

Inductive cell : Type :=
| CInt (n : Z)
| CStr (s : string)
| CNaN.

(** A [DataFrame]: its columns, each with its values. *)
Definition DataFrame : Type := list (string * list cell).

Definition len_df (df : DataFrame) : nat :=
  match df with
  | [] => O
  | (_, values) :: _ => List.length values
  end.

(** [a == b] on values: a missing value equals nothing. *)
Definition cell_eqb (a b : cell) : bool :=
  match a, b with
  | CInt x, CInt y => x =? y
  | CStr x, CStr y => String.eqb x y
  | _, _ => false
  end.

(** [df[name]]: [KeyError] when there is no such column. *)
Fixpoint column (name : string) (df : DataFrame) : result (list cell) :=
  match df with
  | [] => Raise KeyError
  | (n, values) :: df' => if String.eqb n name then Ok values else column name df'
  end.

(** [name in df.columns] *)
Definition has_column (name : string) (df : DataFrame) : bool :=
  existsb (fun c => String.eqb (fst c) name) df.

(** [series.unique()]: first occurrences, in order; missing values count
    as one value. *)
Definition same_value (a b : cell) : bool :=
  match a, b with
  | CNaN, CNaN => true
  | _, _ => cell_eqb a b
  end.

Fixpoint unique (seen values : list cell) : list cell :=
  match values with
  | [] => []
  | v :: values' =>
      if existsb (same_value v) seen then unique seen values'
      else v :: unique (v :: seen) values'
  end.

(** What the script tells the user about a failure.  The progress lines
    it prints besides are not recorded. *)
Inductive report : Type :=
| Access_denied                                  (* "Error 403: Access denied..." *)
| Http_error (status : Z) (body : string)        (* "Error {status}: {body}" *)
| Incorrect_license_hash
| Failed_to_fetch_study_info
| Sensor_types_not_found (missing : list Z)
| No_events_found (sensor_name : string)
| Error_fetching (sensor_name : string) (e : exn).

(** What a run does to the outside, in order.  Writing a file is taken to
    succeed. *)
Inductive io : Type :=
| Request (p : params)                           (* requests.get *)
| Report (r : report)                            (* print *)
| To_csv (filename : string) (df : DataFrame).   (* df.to_csv(output_path / filename) *)

(** A computation: what it did, and its result or the exception that
    ended it. *)
Definition M (A : Type) : Type := list io * result A.

Definition ret {A} (a : A) : M A := ([], Ok a).

Definition bindM {A B} (m : M A) (k : A -> M B) : M B :=
  match snd m with
  | Ok a => ((fst m ++ fst (k a))%list, snd (k a))
  | Raise e => (fst m, Raise e)
  end.

Definition emit (x : io) : M unit := ([x], Ok tt).

Definition lift {A} (r : result A) : M A := ([], r).

(** [try: body  except Exception as e: handler(e)] *)
Definition try_except_Exception {A} (body : M A) (handler : exn -> M A) : M A :=
  match snd body with
  | Ok a => body
  | Raise e =>
      if is_Exception e then ((fst body ++ fst (handler e))%list, snd (handler e))
      else body
  end.

Declare Scope fetch_scope.
Notation "x <- m ;; k" := (bindM m (fun x => k))
  (at level 61, m at next level, right associativity) : fetch_scope.
Notation "m ;; k" := (bindM m (fun _ => k))
  (at level 61, right associativity) : fetch_scope.
#[local] Open Scope fetch_scope.

(** [for x in xs: body(x)] *)
Fixpoint for_each {A} (xs : list A) (body : A -> M unit) : M unit :=
  match xs with
  | [] => ret tt
  | x :: xs' => body x ;; for_each xs' body
  end.

(** ** The service and the libraries *)

Section WithService.

(** The data service answers a request by its parameters with a status
    and a body, or the connection fails with an exception; [hashlib.md5]
    and [pd.read_csv] are taken as given; [year_padded] is the platform's
    way of printing the year in [strftime]. *)
Record Env : Type := mkEnv {
  year_padded : bool;
  requests_get : params -> result response;
  md5_hexdigest : string -> string;
  read_csv : string -> result DataFrame
}.

Variable env : Env.

Definition contains (needle haystack : string) : bool :=
  match String.index 0 needle haystack with
  | Some _ => true
  | None => false
  end.

Definition get (p : params) : M response :=
  emit (Request p) ;; lift (requests_get env p).

(** [call_api]: the body of the answer, or [None]. *)
Definition call_api (p : params) : M (option string) :=
  response <- get p ;;
  if status_code response =? 200 then
    (* Check if license terms need to be accepted *)
    if contains "License Terms:" (content response) then
      let hash_val := md5_hexdigest env (content response) in
      let params_list := (p ++ [("license-md5", VStr hash_val)])%list in
      response <- get params_list ;;
      if status_code response =? 403 then
        emit (Report Incorrect_license_hash) ;; ret None
      else ret (Some (content response))
    else ret (Some (content response))
  else if status_code response =? 403 then
    emit (Report Access_denied) ;; ret None
  else
    emit (Report (Http_error (status_code response) (content response))) ;; ret None.

(** The common body of the [get_*] methods: [call_api], then [read_csv]
    on a non-empty answer. *)
Definition read_result (p : params) : M (option DataFrame) :=
  result <- call_api p ;;
  match result with
  | Some text =>
      if String.eqb text "" then ret None
      else df <- lift (read_csv env text) ;; ret (Some df)
  | None => ret None
  end.

Definition get_study_info (study_id : Z) : M (option DataFrame) :=
  read_result [("entity_type", VStr "study"); ("study_id", VInt study_id)].

Definition get_sensor_types (study_id : Z) : M (option DataFrame) :=
  read_result [("entity_type", VStr "sensor"); ("tag_study_id", VInt study_id)].

Definition get_individuals (study_id : Z) : M (option DataFrame) :=
  read_result [("entity_type", VStr "individual"); ("study_id", VInt study_id)].

Definition get_tags (study_id : Z) : M (option DataFrame) :=
  read_result [("entity_type", VStr "tag"); ("study_id", VInt study_id)].

Definition get_deployments (study_id : Z) : M (option DataFrame) :=
  read_result [("entity_type", VStr "deployment"); ("study_id", VInt study_id)].

(** Truth value of a cell used as a condition. *)
Definition truthy (c : cell) : bool :=
  match c with
  | CInt n => negb (n =? 0)
  | CStr s => negb (String.eqb s "")
  | CNaN => true
  end.

Definition value_of_cell (c : cell) : value :=
  match c with
  | CInt n => VInt n
  | CStr s => VStr s
  | CNaN => VStr "nan"
  end.

Definition optional_param (key : string) (v : option string) : params :=
  match v with
  | Some s => if String.eqb s "" then [] else [(key, VStr s)]
  | None => []
  end.

Definition event_params (study_id : Z) (sensor_type_id : cell)
           (timestamp_start timestamp_end : option string) : params :=
  ([("entity_type", VStr "event"); ("study_id", VInt study_id); ("attributes", VStr "all")]
   ++ (if truthy sensor_type_id then [("sensor_type_id", value_of_cell sensor_type_id)] else [])
   ++ optional_param "timestamp_start" timestamp_start
   ++ optional_param "timestamp_end" timestamp_end)%list.

(** [get_event_data(study_id, sensor_type_id=..., timestamp_start=...,
    timestamp_end=...)], the other arguments at their defaults. *)
Definition get_event_data (study_id : Z) (sensor_type_id : cell)
           (timestamp_start timestamp_end : option string) : M (option DataFrame) :=
  read_result (event_params study_id sensor_type_id timestamp_start timestamp_end).

(** The [sensor_names] dictionary. *)
Definition sensor_names : list (Z * string) :=
  [ (653, "gps"); (2365683, "acceleration"); (397, "bird_ring");
    (673, "radio_transmitter"); (82798, "argos"); (2365682, "natural_mark");
    (3886361, "solar_geolocator"); (7842954, "accessory_measurements");
    (77740391, "barometer"); (77740402, "magnetometer");
    (819073350, "orientation"); (1297673380, "gyroscope");
    (2206221896, "heart_rate") ].

Definition str_of_cell (c : cell) : string :=
  match c with
  | CInt n => DecimalString.NilZero.string_of_int (Z.to_int n)
  | CStr s => s
  | CNaN => "nan"
  end.

(** [sensor_names.get(sensor_id, f'sensor_{sensor_id}')] *)
Definition sensor_name (sensor_id : cell) : string :=
  let default := ("sensor_" ++ str_of_cell sensor_id)%string in
  match sensor_id with
  | CInt n =>
      match find (fun kv => fst kv =? n) sensor_names with
      | Some kv => snd kv
      | None => default
      end
  | _ => default
  end.

(** One turn of the loop over sensor types. *)
Definition fetch_events (study_id : Z) (ts_start ts_end : option string)
           (sensor_id : cell) : M unit :=
  let name := sensor_name sensor_id in
  try_except_Exception
    (events <- get_event_data study_id sensor_id ts_start ts_end ;;
     match events with
     | Some df =>
         if (0 <? len_df df)%nat
         then emit (To_csv ("events_" ++ name ++ ".csv") df)
         else emit (Report (No_events_found name))
     | None => emit (Report (No_events_found name))
     end)
    (fun e => emit (Report (Error_fetching name e))).

(** [x if x else None] followed by [_convert_timestamp]. *)
Definition convert_bound (timestamp : option string) : result (option string) :=
  match timestamp with
  | Some s => if String.eqb s "" then Ok None else Normalizer._convert_timestamp (year_padded env) s
  | None => Ok None
  end.

(** The [name] of the study, read for the progress line: the first value
    of the column when there is one. *)
Definition study_name (study_info : DataFrame) : result unit :=
  if has_column "name" study_info
  then bind (column "name" study_info) (fun names => bind (iloc names 0) (fun _ => Ok tt))
  else Ok tt.

(** A fetched table is written when there is one. *)
Definition export (filename : string) (df : option DataFrame) : M unit :=
  match df with
  | Some d => emit (To_csv filename d)
  | None => ret tt
  end.

(** The sensor types to fetch: the requested ones the study has, or all
    of the study's. *)
Definition chosen_sensors (sensor_types : option (list Z)) (available : list cell)
  : list cell :=
  match sensor_types with
  | Some ((_ :: _) as requested) =>
      map CInt (filter (fun sid => existsb (cell_eqb (CInt sid)) available) requested)
  | _ => available
  end.

(** The warning about requested sensor types the study does not have. *)
Definition warn_missing (sensor_types : option (list Z)) (available : list cell)
  : M unit :=
  match sensor_types with
  | Some ((_ :: _) as requested) =>
      if (List.length (chosen_sensors sensor_types available)
          =? List.length requested)%nat
      then ret tt
      else emit (Report (Sensor_types_not_found
                           (filter (fun sid => negb (existsb (cell_eqb (CInt sid)) available))
                                   requested)))
  | _ => ret tt
  end.

(** Steps 2 to 4 of [fetch_all_study_data]: individuals, tags,
    deployments. *)
Definition fetch_metadata_tables (study_id : Z) : M unit :=
  (* 2. Get individuals *)
  individuals <- get_individuals study_id ;;
  export "individuals.csv" individuals ;;
  (* 3. Get tags *)
  tags <- get_tags study_id ;;
  export "tags.csv" tags ;;
  (* 4. Get deployments *)
  deployments <- get_deployments study_id ;;
  export "deployments.csv" deployments.

(** Step 6: the loop over the sensor types of a fetched sensor table. *)
Definition fetch_sensor_events (study_id : Z) (sensor_types : option (list Z))
           (ts_start ts_end : option string) (sensor_table : DataFrame) : M unit :=
  emit (To_csv "sensors.csv" sensor_table) ;;
  (* Get unique sensor type IDs *)
  ids <- lift (column "sensor_type_id" sensor_table) ;;
  let available_sensor_ids := unique [] ids in
  warn_missing sensor_types available_sensor_ids ;;
  (* 6. Get event data for each sensor type *)
  for_each (chosen_sensors sensor_types available_sensor_ids)
           (fetch_events study_id ts_start ts_end).

Definition fetch_all_study_data (study_id : Z) (sensor_types : option (list Z))
           (timestamp_start timestamp_end : option string) (fetch_metadata : bool)
  : M unit :=
  (* Convert timestamps if provided in simple format *)
  ts_start <- lift (convert_bound timestamp_start) ;;
  ts_end <- lift (convert_bound timestamp_end) ;;
  (* 1. Get study info *)
  study_info <- get_study_info study_id ;;
  match study_info with
  | None => emit (Report Failed_to_fetch_study_info)      (* return *)
  | Some info =>
      emit (To_csv "study_info.csv" info) ;;
      lift (study_name info) ;;
      (if fetch_metadata then fetch_metadata_tables study_id else ret tt) ;;
      (* 5. Get sensor types *)
      sensors <- get_sensor_types study_id ;;
      match sensors with
      | None => ret tt
      | Some sensor_table =>
          fetch_sensor_events study_id sensor_types ts_start ts_end sensor_table
      end
  end.

End WithService.

(** ** Notions and services for the properties *)

Definition entity_params (entity key : string) (study_id : Z) : params :=
  [("entity_type", VStr entity); (key, VInt study_id)].

Definition individual_params := entity_params "individual" "study_id".

Definition tag_params := entity_params "tag" "study_id".

Definition deployment_params := entity_params "deployment" "study_id".

Definition sensor_params := entity_params "sensor" "tag_study_id".

Definition study_params := entity_params "study" "study_id".



(** A service that answers the study, tag and sensor requests, fails the
    individuals with status 500 and the deployments with 404, drops the
    connection on the GPS events, has no bird-ring events and serves the
    acceleration events. *)
Definition patchy_service (p : params) : result response :=
  match p with
  | ("entity_type", VStr entity) :: rest =>
      if String.eqb entity "study" then Ok (mkresponse 200 "study")
      else if String.eqb entity "individual" then Ok (mkresponse 500 "Server Error")
      else if String.eqb entity "tag" then Ok (mkresponse 200 "tags")
      else if String.eqb entity "deployment" then Ok (mkresponse 404 "Not Found")
      else if String.eqb entity "sensor" then Ok (mkresponse 200 "sensors")
      else if existsb (fun kv => match snd kv with VInt 653 => true | _ => false end) rest
      then Raise OtherException
      else if existsb (fun kv => match snd kv with VInt 397 => true | _ => false end) rest
      then Ok (mkresponse 200 "none")
      else Ok (mkresponse 200 "events")
  | _ => Ok (mkresponse 400 "Bad Request")
  end.

Definition patchy_read_csv (text : string) : result DataFrame :=
  if String.eqb text "study" then Ok [("name", [CStr "Storks"])]
  else if String.eqb text "tags" then Ok [("id", [CInt 7])]
  else if String.eqb text "sensors"
  then Ok [("sensor_type_id", [CInt 653; CInt 397; CInt 2365683; CInt 653])]
  else if String.eqb text "none" then Ok [("timestamp", [])]
  else Ok [("timestamp", [CStr "2024-01-01 00:00:00.000"])].

Definition patchy : Env := mkEnv true patchy_service (fun _ => "0") patchy_read_csv.

End Fetcher.

(* ================================================================== *)
(** * gps_viewer.py: great-circle distance *)
(* ================================================================== *)

(** [haversine_distance] uses [math.radians], [sin], [cos], [asin] and
    [sqrt] on binary64 numbers.  The formula is stated here over the real
    numbers, operation for operation; rounding is not modelled. *)

Module Geo.
#[local] Open Scope R_scope.

(** [math.radians] *)
Definition radians (x : R) : R := x * (PI / 180).

Definition haversine_distance (lat1 lon1 lat2 lon2 : R) : R :=
  (* Convert to radians *)
  let lat1 := radians lat1 in
  let lon1 := radians lon1 in
  let lat2 := radians lat2 in
  let lon2 := radians lon2 in
  (* Haversine formula *)
  let dlat := lat2 - lat1 in
  let dlon := lon2 - lon1 in
  let a := sin (dlat / 2) ^ 2 + cos lat1 * cos lat2 * sin (dlon / 2) ^ 2 in
  let c := 2 * asin (sqrt a) in
  (* Earth radius in kilometers *)
  let r := 6371 in
  c * r.

End Geo.

(* ================================================================== *)
(** * gps_viewer.py: day or night *)
(* ================================================================== *)

Module DayNight.
Import Py.

(** A timestamp as [is_daytime] uses it: the wall-clock reading in
    nanoseconds since 1970-01-01 00:00, and the UTC offset (nanoseconds)
    when the timestamp carries a time zone. *)
Record Timestamp : Type := mkTimestamp {
  wall : Z;
  tzinfo : option Z
}.

Definition NS_PER_HOUR : Z := 3600 * 1000000000.
Definition NS_PER_DAY : Z := 24 * NS_PER_HOUR.

(** [timestamp.hour] and [timestamp.date()] (as a day number). *)
Definition hour (t : Timestamp) : Z := (wall t / NS_PER_HOUR) mod 24.
Definition date (t : Timestamp) : Z := wall t / NS_PER_DAY.

(** [pytz.utc.localize(t)] for a naive [t]. *)
Definition utc_localize (t : Timestamp) : Timestamp :=
  mkTimestamp (wall t) (Some 0).

(** [t.astimezone(tz)]: the same instant read in another zone; refused on
    a naive timestamp. *)
Definition astimezone (offset : Z) (t : Timestamp) : result Timestamp :=
  match tzinfo t with
  | Some o => Ok (mkTimestamp (wall t - o + offset) (Some offset))
  | None => Raise TypeError
  end.

(** [a <= b]: by instant when both carry a zone, by wall clock when
    neither does, [TypeError] otherwise. *)
Definition le (a b : Timestamp) : result bool :=
  match tzinfo a, tzinfo b with
  | Some oa, Some ob => Ok (wall a - oa <=? wall b - ob)
  | None, None => Ok (wall a <=? wall b)
  | _, _ => Raise TypeError
  end.

(** East Africa Time, the offset of [pytz.timezone('Africa/Nairobi')] for
    every instant since 1960. *)
Definition EAT : Z := 3 * NS_PER_HOUR.

Section Classifier.

(** Latitude and longitude are only handed on to the solar library. *)
Variable coord : Type.

(** What the libraries outside the script do: looking up the zone may
    raise; importing [astral] raises [ImportError] when it is not
    installed; [astral.sun.sun] returns sunrise and sunset or raises
    (at high latitudes the sun may never cross the horizon). *)
Record Env : Type := mkEnv {
  pytz_timezone : result unit;
  import_astral : result unit;
  astral_sun : coord -> coord -> Z -> result (Timestamp * Timestamp)
}.

Variable env : Env.

Definition calculate_sunrise_sunset (lat lon : coord) (day : Z)
  : result (option Timestamp * option Timestamp) :=
  try_except_if
    (bind (import_astral env) (fun _ =>
     bind (pytz_timezone env) (fun _ =>
     bind (astral_sun env lat lon day) (fun s =>
     Ok (Some (fst s), Some (snd s))))))
    is_Exception
    (fun _ => Ok (None, None)).

(** The fixed window both fallbacks use: [6 <= hour <= 18]. *)
Definition hour_window (h : Z) : bool := (6 <=? h) && (h <=? 18).

Definition is_daytime (lat lon : coord) (timestamp : Timestamp) : result bool :=
  try_except
    (bind (pytz_timezone env) (fun _ =>
     let timestamp :=
       match tzinfo timestamp with
       | None => utc_localize timestamp
       | Some _ => timestamp
       end in
     bind (astimezone EAT timestamp) (fun timestamp_kenyan =>
     bind (calculate_sunrise_sunset lat lon (date timestamp_kenyan)) (fun ss =>
     match ss with
     | (Some sunrise, Some sunset) =>
         bind (le sunrise timestamp_kenyan) (fun after_sunrise =>
         if after_sunrise then le timestamp_kenyan sunset else Ok false)
     | _ => Ok (hour_window (hour timestamp_kenyan))
     end))))
    (Ok (hour_window (hour timestamp))).

End Classifier.

Arguments pytz_timezone {coord} _.
Arguments import_astral {coord} _.
Arguments astral_sun {coord} _ _ _ _.
Arguments mkEnv {coord} _ _ _.
Arguments calculate_sunrise_sunset {coord} env lat lon day.
Arguments is_daytime {coord} env lat lon timestamp.

(** The local (East Africa Time) hour of a timestamp, naive ones read as
    UTC. *)
Definition local_hour (t : Timestamp) : Z :=
  match tzinfo t with
  | None => hour (mkTimestamp (wall t + EAT) (Some EAT))
  | Some o => hour (mkTimestamp (wall t - o + EAT) (Some EAT))
  end.

(** The window the specification names: hour 6 included, hour 18 not. *)
Definition spec_window (h : Z) : bool := (6 <=? h) && (h <? 18).

(** ** Notions and inputs for the properties *)

(** The solar tier is unavailable or fails. *)
Definition solar_fails {coord} (env : Env coord) (lat lon : coord) (day : Z) : Prop :=
  calculate_sunrise_sunset env lat lon day = Ok (None, None).

(** 2024-01-01 15:30:00, no time zone: 18:30 in East Africa. *)
Definition t_1830_EAT : Timestamp :=
  mkTimestamp ((1704067200 + 15 * 3600 + 30 * 60) * 1000000000) None.

(** 2024-01-01 18:30:00, no time zone. *)
Definition t_1830_raw : Timestamp :=
  mkTimestamp ((1704067200 + 18 * 3600 + 30 * 60) * 1000000000) None.

Definition env_without_astral : Env Z :=
  mkEnv (Ok tt) (Raise ImportError) (fun _ _ _ => Raise OtherException).

Definition env_without_pytz : Env Z :=
  mkEnv (Raise OtherException) (Raise ImportError) (fun _ _ _ => Raise OtherException).

End DayNight.

(* ================================================================== *)
(** * gps_viewer.py: the table, the filter and the playback *)
(* ================================================================== *)

Module Viewer.
Import Py.

(** ** The table *)

(** One row of [events_gps.csv] after [load_data]: the identifier read as
    a string, the timestamp converted by [pd.to_datetime] (nanoseconds
    since 1970-01-01, without time zone as the data service writes them;
    [None] is [NaT]), and the coordinates. *)
Record row : Type := mkrow {
  individual_local_identifier : string;
  timestamp : option Z;
  location_lat : float;
  location_long : float
}.

Definition one_day : Z := 86400 * 1000000000.

(** [a >= b] and [a < b] on timestamps: false as soon as one is [NaT]. *)
Definition ts_ge (a b : option Z) : bool :=
  match a, b with
  | Some x, Some y => y <=? x
  | _, _ => false
  end.

Definition ts_lt (a b : option Z) : bool :=
  match a, b with
  | Some x, Some y => x <? y
  | _, _ => false
  end.

(** [t + timedelta(days=1)] *)
Definition add_one_day (t : option Z) : option Z :=
  match t with
  | Some x => Some (x + one_day)
  | None => None
  end.

(** The order of [sort_values('timestamp')]: ascending, [NaT] last. *)
Definition ts_leb (a b : option Z) : bool :=
  match a, b with
  | Some x, Some y => x <=? y
  | Some _, None => true
  | None, Some _ => false
  | None, None => true
  end.

Module RowOrder <: TotalLeBool.
Definition t : Type := row.
Definition leb (r1 r2 : row) : bool := ts_leb (timestamp r1) (timestamp r2).
Theorem leb_total : forall r1 r2, leb r1 r2 = true \/ leb r2 r1 = true.
Proof.
  intros r1 r2. unfold leb, ts_leb.
  destruct (timestamp r1) as [x|], (timestamp r2) as [y|]; auto.
  destruct (Z.leb_spec x y); [left; reflexivity|].
  right. apply Z.leb_le. lia.
Qed.
End RowOrder.

Module RowSort := Sort RowOrder.

(** [data.sort_values('timestamp')].  pandas leaves the order of rows with
    equal timestamps open; the merge sort used here keeps it. *)
Definition sort_values (data : list row) : list row := RowSort.sort data.

(** ** The viewer *)

(** The part of Tk the playback uses: the callbacks scheduled with
    [root.after] that have neither run nor been cancelled, by identifier,
    and the next identifier. *)
Record Tk : Type := mkTk {
  after_queue : list nat;
  after_counter : nat
}.

(** [root.after(delay, callback)] *)
Definition after (delay : Z) (root : Tk) : nat * Tk :=
  (after_counter root,
   mkTk (after_queue root ++ [after_counter root]) (S (after_counter root))).

(** [root.after_cancel(id)] *)
Definition after_cancel (id : nat) (root : Tk) : Tk :=
  mkTk (List.remove Nat.eq_dec id (after_queue root)) (after_counter root).

(** The attributes of [GPSViewer] that the filter and the playback read
    and write.  Tk variables are held by value. *)
Record GPSViewer : Type := mkGPSViewer {
  root : Tk;
  gps_data : option (list row);
  filtered_data : option (list row);
  animal_var : string;
  start_date_var : string;
  end_date_var : string;
  trail_length_var : Z;
  anim_speed_var : Z;
  animation_playing : bool;
  animation_index : Z;
  animation_timer : option nat
}.

Definition set_root (v : Tk) (s : GPSViewer) : GPSViewer :=
  mkGPSViewer v (gps_data s) (filtered_data s) (animal_var s) (start_date_var s)
    (end_date_var s) (trail_length_var s) (anim_speed_var s)
    (animation_playing s) (animation_index s) (animation_timer s).

Definition set_filtered_data (v : option (list row)) (s : GPSViewer) : GPSViewer :=
  mkGPSViewer (root s) (gps_data s) v (animal_var s) (start_date_var s)
    (end_date_var s) (trail_length_var s) (anim_speed_var s)
    (animation_playing s) (animation_index s) (animation_timer s).

Definition set_animation_playing (v : bool) (s : GPSViewer) : GPSViewer :=
  mkGPSViewer (root s) (gps_data s) (filtered_data s) (animal_var s) (start_date_var s)
    (end_date_var s) (trail_length_var s) (anim_speed_var s)
    v (animation_index s) (animation_timer s).

Definition set_animation_index (v : Z) (s : GPSViewer) : GPSViewer :=
  mkGPSViewer (root s) (gps_data s) (filtered_data s) (animal_var s) (start_date_var s)
    (end_date_var s) (trail_length_var s) (anim_speed_var s)
    (animation_playing s) v (animation_timer s).

Definition set_animation_timer (v : option nat) (s : GPSViewer) : GPSViewer :=
  mkGPSViewer (root s) (gps_data s) (filtered_data s) (animal_var s) (start_date_var s)
    (end_date_var s) (trail_length_var s) (anim_speed_var s)
    (animation_playing s) (animation_index s) v.

(** [len(self.filtered_data)], 0 while nothing is loaded. *)
Definition track_length (s : GPSViewer) : Z :=
  match filtered_data s with
  | Some data => Z.of_nat (List.length data)
  | None => 0
  end.

(** ** [filter_data] *)

Section Filter.

(** [pd.to_datetime] on the text of a date field: a timestamp, [NaT], or
    an exception when the text is no date. *)
Variable pd_to_datetime : string -> result (option Z).

Definition filter_data (self : GPSViewer) : GPSViewer :=
  match gps_data self with
  | None => self
  | Some gps =>
      let animal := animal_var self in
      if String.eqb animal "" then self
      else
        (* Filter by animal *)
        let data :=
          filter (fun r => String.eqb (individual_local_identifier r) animal) gps in
        (* Filter by date range; on any exception the rows stay as they are *)
        let data :=
          match
            bind (pd_to_datetime (start_date_var self)) (fun start_date =>
            bind (pd_to_datetime (end_date_var self)) (fun end_date =>
            let end_date := add_one_day end_date in
            Ok (filter (fun r => ts_ge (timestamp r) start_date
                                 && ts_lt (timestamp r) end_date) data)))
          with
          | Ok filtered => filtered
          | Raise _ => data
          end in
        (* Sort by timestamp *)
        let data := sort_values data in
        set_filtered_data (Some data) self
  end.

End Filter.

(** The rows the filtered view is specified to hold: those of the
    subject whose timestamp lies from [start] up to, not including, one
    day after [end_]. *)
Definition selected (animal : string) (start end_ : Z) (r : row) : bool :=
  String.eqb (individual_local_identifier r) animal
  && match timestamp r with
     | Some t => (start <=? t) && (t <? end_ + one_day)
     | None => false
     end.

(** Two rows in ascending order of their (present) timestamps. *)
Definition row_le (r1 r2 : row) : Prop :=
  exists a b, timestamp r1 = Some a /\ timestamp r2 = Some b /\ a <= b.

(** Midnight of the day of [t]: what [strftime('%Y-%m-%d')] followed by
    [pd.to_datetime] keeps of a timestamp. *)
Definition day_floor (t : Z) : Z := t / one_day * one_day.

(** ** Playback *)

(** What [update_map_preview_animated] puts on the canvas for a cursor:
    the marker's row, the trail, and the slider position it writes back
    ([None] when that computation raised). *)
Record frame : Type := mkframe {
  current : row;
  trail : list row;
  slider_pos : option Z
}.

(** [update_map_preview_animated(num_points)].  [None]: nothing is drawn
    (no data, or the lookup raised and the handler printed the traceback).
    The distance and day/night texts of the title are left out: the rows
    they read lie between 0 and [num_points - 1], inside the table as
    soon as the first lookup is. *)
Definition update_map_preview_animated (self : GPSViewer) (num_points : Z)
  : option frame :=
  match filtered_data self with
  | None => None
  | Some [] => None
  | Some data =>
      match iloc data (num_points - 1) with
      | Raise _ => None
      | Ok cur =>
          let trail_length := trail_length_var self in
          let trail :=
            if 0 <? trail_length
            then slice data (Z.max 0 (num_points - trail_length)) num_points
            else [] in
          let slider :=
            match bind (truediv num_points (Z.of_nat (List.length data)))
                       (fun q => int_of_float (q * float_of_Z 100)%float) with
            | Ok p => Some p
            | Raise _ => None
            end in
          Some (mkframe cur trail slider)
      end
  end.

(** [max(10, int(1000 / self.anim_speed_var.get()))] *)
Definition tick_delay (speed : Z) : result Z :=
  bind (truediv 1000 speed) (fun q =>
  bind (int_of_float q) (fun d => Ok (Z.max 10 d))).

Definition cancel_timer (self : GPSViewer) : GPSViewer :=
  match animation_timer self with
  | Some id => set_root (after_cancel id (root self)) self
  | None => self
  end.

(** [reset_animation]: the redraw of the full track changes none of the
    attributes kept here. *)
Definition reset_animation (self : GPSViewer) : GPSViewer :=
  let self := set_animation_index 0 self in
  let self := set_animation_playing false self in
  cancel_timer self.

(** [animate_step].  A callback that raises is reported by Tk and the
    attributes stay as they were left: with a zero speed the division
    raises after the cursor has moved and before a timer is scheduled. *)
Definition animate_step (self : GPSViewer) : GPSViewer :=
  if negb (animation_playing self) then self
  else
    match filtered_data self with
    | None => self
    | Some data =>
        if Z.of_nat (List.length data) <=? animation_index self
        then reset_animation self
        else
          let self := set_animation_index (animation_index self + 1) self in
          match tick_delay (anim_speed_var self) with
          | Raise _ => self
          | Ok delay =>
              let (id, root') := after delay (root self) in
              set_animation_timer (Some id) (set_root root' self)
          end
    end.

Definition toggle_animation (self : GPSViewer) : GPSViewer :=
  if animation_playing self then
    cancel_timer (set_animation_playing false self)
  else
    animate_step (set_animation_playing true self).

(** [int((position / 100) * max_index)] *)
Definition seek_index (position max_index : Z) : result Z :=
  bind (truediv position 100) (fun q =>
  int_of_float (q * float_of_Z max_index)%float).

(** [on_position_changed(value)], [value] being the slider's number. *)
Definition on_position_changed (value : float) (self : GPSViewer) : GPSViewer :=
  match filtered_data self with
  | None => self
  | Some [] => self
  | Some data =>
      (* Stop animation if playing *)
      let self := if animation_playing self then toggle_animation self else self in
      (* Calculate position index from slider value *)
      let max_index := Z.of_nat (List.length data) - 1 in
      match bind (int_of_float value) (fun position =>
            bind (seek_index position max_index) (fun index =>
            Ok (Z.max 1 (Z.min index max_index)))) with
      | Ok index => set_animation_index index self
      | Raise _ => self
      end
  end.

(** ** The event loop *)

Inductive event : Type :=
| Play_button                 (* toggle_animation: start or pause *)
| Reset_button                (* reset_animation *)
| Slider (value : float)      (* on_position_changed *)
| Timer (id : nat).           (* a scheduled animate_step comes due *)

Definition step (self : GPSViewer) (ev : event) : GPSViewer :=
  match ev with
  | Play_button => toggle_animation self
  | Reset_button => reset_animation self
  | Slider value => on_position_changed value self
  | Timer id =>
      if existsb (Nat.eqb id) (after_queue (root self))
      then animate_step (set_root (after_cancel id (root self)) self)
      else self
  end.

Definition run (self : GPSViewer) (evs : list event) : GPSViewer :=
  fold_left step evs self.

(** The attributes as [__init__] leaves them. *)
Definition initial (self : GPSViewer) : Prop :=
  animation_playing self = false
  /\ animation_index self = 0
  /\ animation_timer self = None
  /\ after_queue (root self) = [].

(** ** The seek as the specification words it *)

(** [round(n / d)] for [d > 0]: to the nearest integer, ties to the even
    one. *)
Definition round_div (n d : Z) : Z :=
  let q := n / d in
  let r := n mod d in
  if 2 * r <? d then q
  else if d <? 2 * r then q + 1
  else if Z.even q then q else q + 1.

(** "cursor = round(position/100 x (length-1)), clamped to [1, length-1]" *)
Definition spec_seek_cursor (position length : Z) : Z :=
  Z.max 1 (Z.min (round_div (position * (length - 1)) 100) (length - 1)).

(** ** Notions and inputs for the properties *)

(** At most one callback is scheduled, and it is the one recorded in
    [animation_timer]. *)
Definition queue_ok (s : GPSViewer) : Prop :=
  after_queue (root s) = []
  \/ exists id, after_queue (root s) = [id] /\ animation_timer s = Some id.

(** Nothing is scheduled while the animation is not playing. *)
Definition idle_ok (s : GPSViewer) : Prop :=
  animation_playing s = false -> after_queue (root s) = [].

Definition cursor_ok (s : GPSViewer) : Prop :=
  0 <= animation_index s <= track_length s.

(** Nothing is scheduled while no table is loaded. *)
Definition loaded_ok (s : GPSViewer) : Prop :=
  filtered_data s = None -> after_queue (root s) = [].

Definition playback_ok (s : GPSViewer) : Prop :=
  cursor_ok s /\ queue_ok s /\ idle_ok s /\ loaded_ok s.

(** The state in which [on_position_changed] computes the new cursor:
    the animation stopped first if it was playing. *)
Definition stopped (s : GPSViewer) : GPSViewer :=
  if animation_playing s then toggle_animation s else s.

Definition fix_at (t : Z) : row := mkrow "T1" (Some t) (-1.25)%float 36.75%float.

(** A viewer as [__init__] and [load_data] leave it, on a given table. *)
Definition viewer_on (data : list row) : GPSViewer :=
  mkGPSViewer (mkTk [] 0) (Some data) (Some data) "T1" "2024-01-01" "2024-01-02"
              50 100 false 0 None.

Definition track (n : nat) : list row :=
  map (fun i => fix_at (1704067200000000000 + Z.of_nat i * 60000000000)) (seq 0 n).

(** [pd.to_datetime] on the two date fields used below. *)
Definition pd_dates (text : string) : result (option Z) :=
  if String.eqb text "2024-01-01" then Ok (Some 1704067200000000000)
  else if String.eqb text "2024-01-02" then Ok (Some 1704153600000000000)
  else if String.eqb text "" then Ok None
  else Raise ValueError.

(** Five fixes of one subject over two days, out of order in the file,
    among fixes of another subject and of a later day. *)
Definition five_fixes : list row :=
  [ fix_at 1704153600000000000;                 (* 2024-01-02 00:00 *)
    fix_at 1704067200000000000;                 (* 2024-01-01 00:00 *)
    mkrow "T2" (Some 1704070000000000000) 0.5%float 37%float;
    fix_at 1704239999000000000;                 (* 2024-01-02 23:59:59 *)
    fix_at 1704240000000000000;                 (* 2024-01-03 00:00 *)
    fix_at 1704100000000000000;
    fix_at 1704200000000000000 ].

End Viewer.
(* ================================================================== *)
(** * The normalizer: the documented input formats *)
(* ================================================================== *)

Module Formats.
Import Py Datetime.

(** The value of a two-digit and of a four-digit field. *)
Definition field2 (a b : ascii) : Z := 10 * digit_val a + digit_val b.

Definition field4 (a b c d : ascii) : Z :=
  1000 * digit_val a + 100 * digit_val b + 10 * digit_val c + digit_val d.

(** Ten characters, hyphens in the fifth and eighth place, decimal digits
    elsewhere: the shape of [YYYY-MM-DD], whatever the numbers. *)
Definition date_shaped (s : string) : bool :=
  match s with
  | String y1 (String y2 (String y3 (String y4 (String h1
      (String m1 (String m2 (String h2 (String d1 (String d2 EmptyString))))))))) =>
      forallb is_decimal [y1; y2; y3; y4; m1; m2; d1; d2]
      && Ascii.eqb h1 "-" && Ascii.eqb h2 "-"
  | _ => false
  end.

(** A valid [YYYY-MM-DD HH:MM] string: sixteen characters, the
    separators in place (one blank between date and time), decimal digits
    elsewhere, a date of the calendar and a time of the day. *)
Definition iso_minutes (s : string) : option (Z * Z * Z * Z * Z) :=
  match s with
  | String y1 (String y2 (String y3 (String y4 (String h1
      (String m1 (String m2 (String h2 (String d1 (String d2 (String b
      (String H1 (String H2 (String c (String M1 (String M2 EmptyString))))))))))))))) =>
      if forallb is_decimal [y1; y2; y3; y4; m1; m2; d1; d2; H1; H2; M1; M2]
         && Ascii.eqb h1 "-" && Ascii.eqb h2 "-" && Ascii.eqb b " " && Ascii.eqb c ":"
      then
        let y := field4 y1 y2 y3 y4 in
        let m := field2 m1 m2 in
        let d := field2 d1 d2 in
        let h := field2 H1 H2 in
        let mi := field2 M1 M2 in
        if valid_date y m d && valid_time h mi 0 then Some (y, m, d, h, mi) else None
      else None
  | _ => None
  end.

End Formats.
(* ================================================================== *)
(** * The fetcher: reading a run *)
(* ================================================================== *)

Module Trace.
Import Py Fetcher.

(** The requests, the reports and the files of a run, each in order. *)
Definition requests_of (trace : list io) : list params :=
  flat_map (fun x => match x with Request p => [p] | _ => [] end) trace.

Definition reports_of (trace : list io) : list report :=
  flat_map (fun x => match x with Report r => [r] | _ => [] end) trace.

Definition files_of (trace : list io) : list string :=
  flat_map (fun x => match x with To_csv filename _ => [filename] | _ => [] end) trace.

(** The request [q] is [p], or [p] followed by the token that accepts the
    license terms. *)
Definition with_license (p q : params) : Prop :=
  q = p \/ exists hash_val : string, q = (p ++ [("license-md5", VStr hash_val)])%list.

(** The entity type a request names. *)
Definition entity_type (p : params) : option string :=
  match p with
  | (key, VStr entity) :: _ => if String.eqb key "entity_type" then Some entity else None
  | _ => None
  end.

(** The name of the file the events of a sensor type are written to. *)
Definition events_file (sensor_id : cell) : string :=
  "events_" ++ sensor_name sensor_id ++ ".csv".

(** A service that answers every request but the one for the
    individuals, on which the connection fails. *)
Definition individuals_unreachable : Env :=
  mkEnv true
        (fun p => match entity_type p with
                  | Some entity =>
                      if String.eqb entity "individual" then Raise OtherException
                      else Ok (mkresponse 200 entity)
                  | None => Ok (mkresponse 400 "Bad Request")
                  end)
        (fun _ => "0")
        (fun text => Ok [(text, [CInt 1])]).

End Trace.
(* ================================================================== *)
(** * fetch_movebank_data.py: credentials and the command line *)
(* ================================================================== *)

Module Cli.
Import Py Fetcher.

(** ** [MovebankDataFetcher.__init__] *)

(** A value that is [None] or a [str], and its truth value. *)
Definition truthy_str (v : option string) : bool :=
  match v with
  | Some s => negb (String.eqb s "")
  | None => false
  end.

(** [a or b] *)
Definition or_else (a b : option string) : option string :=
  if truthy_str a then a else b.

(** [os.environ.get('mbus')] and [os.environ.get('mbpw')]. *)
Record Environ : Type := mkEnviron {
  mbus : option string;
  mbpw : option string
}.

(** The module [config] once imported: each attribute is there, with a
    value that is a [str] or [None], or missing (reading it raises
    [AttributeError]). *)
Record Config : Type := mkConfig {
  MOVEBANK_USERNAME : option (option string);
  MOVEBANK_PASSWORD : option (option string)
}.

Record Credentials : Type := mkCredentials {
  username : string;
  password : string
}.

(** The [try] block of [__init__]: [import config], then the two
    assignments, each reading its attribute only when the value at hand
    is not truthy.  A missing module ([ImportError]) or a missing
    attribute ([AttributeError]) ends the block and keeps what was
    assigned before; another exception raised by the import leaves
    [__init__]. *)
Definition from_config (import_config : result Config)
           (username password : option string)
  : result (option string * option string) :=
  match import_config with
  | Ok config =>
      match (if truthy_str username then Some username else MOVEBANK_USERNAME config) with
      | None => Ok (username, password)
      | Some username =>
          match (if truthy_str password then Some password
                 else MOVEBANK_PASSWORD config) with
          | None => Ok (username, password)
          | Some password => Ok (username, password)
          end
      end
  | Raise ImportError => Ok (username, password)
  | Raise e => Raise e
  end.

Definition __init__ (username password : option string) (environ : Environ)
           (import_config : result Config) : result Credentials :=
  (* Try to get credentials from: 1) parameters, 2) environment variables *)
  let username := or_else username (mbus environ) in
  let password := or_else password (mbpw environ) in
  (* If still not set, try to load from config.py *)
  bind (if negb (truthy_str username) || negb (truthy_str password)
        then from_config import_config username password
        else Ok (username, password))
       (fun found =>
          match found with
          | (Some username, Some password) =>
              if String.eqb username "" || String.eqb password ""
              then Raise ValueError
              (* Don't allow default placeholder credentials *)
              else if String.eqb username "your_username"
                      || String.eqb password "your_password"
              then Raise ValueError
              else Ok (mkCredentials username password)
          | _ => Raise ValueError
          end).

(** ** [main] *)

(** The [SENSOR_TYPES] dictionary of [main]. *)
Definition SENSOR_TYPES : list (string * Z) :=
  [ ("gps", 653); ("acceleration", 2365683); ("acc", 2365683);
    ("bird_ring", 397); ("radio_transmitter", 673); ("radio", 673);
    ("argos", 82798); ("natural_mark", 2365682);
    ("solar_geolocator", 3886361); ("geolocator", 3886361);
    ("accessory_measurements", 7842954); ("accessory", 7842954);
    ("barometer", 77740391); ("magnetometer", 77740402);
    ("orientation", 819073350); ("gyroscope", 1297673380);
    ("heart_rate", 2206221896) ].

(** [SENSOR_TYPES.get(name)] *)
Definition sensor_type (name : string) : option Z :=
  match find (fun kv => String.eqb (fst kv) name) SENSOR_TYPES with
  | Some kv => Some (snd kv)
  | None => None
  end.

(** The names [--list-sensors] prints. *)
Definition display_names : list (Z * string) :=
  [ (653, "GPS"); (2365683, "Acceleration"); (397, "Bird Ring");
    (673, "Radio Transmitter"); (82798, "Argos Doppler Shift");
    (2365682, "Natural Mark"); (3886361, "Solar Geolocator");
    (7842954, "Accessory Measurements"); (77740391, "Barometer");
    (77740402, "Magnetometer"); (819073350, "Orientation");
    (1297673380, "Gyroscope"); (2206221896, "Heart Rate") ].

(** [sensor_names.get(sensor_id, 'Unknown')] *)
Definition display_name (sensor_id : cell) : string :=
  match sensor_id with
  | CInt n =>
      match find (fun kv => fst kv =? n) display_names with
      | Some kv => snd kv
      | None => "Unknown"
      end
  | _ => "Unknown"
  end.

(** [str.lower] on one character below U+0100: the letters A-Z and the
    capital letters of Latin-1. *)
Definition lower_char (c : ascii) : ascii :=
  let n := code c in
  if ((65 <=? n) && (n <=? 90)) || ((192 <=? n) && (n <=? 214))
     || ((216 <=? n) && (n <=? 222))
  then ascii_of_nat (Z.to_nat (n + 32))
  else c.

Fixpoint lower (s : string) : string :=
  match s with
  | EmptyString => EmptyString
  | String c s' => String (lower_char c) (lower s')
  end.

(** [int(s)] on a string that [str.isdigit] accepts: its value when all
    characters are decimal digits, [ValueError] when one is a superscript
    digit, and, where the interpreter limits the length of a decimal
    literal ([sys.get_int_max_str_digits], 4300 by default since
    CPython 3.11), when the string is longer than the limit. *)
Definition int_of_digits (int_max_str_digits : option nat) (s : string) : result Z :=
  if negb (all_chars is_decimal s) then Raise ValueError
  else
    match int_max_str_digits with
    | Some limit =>
        if (limit <? String.length s)%nat then Raise ValueError else Ok (int_of_str s)
    | None => Ok (int_of_str s)
    end.

(** The parsed command line. *)
Record Args : Type := mkArgs {
  study_id : Z;
  sensors : option (list string);
  start : option string;
  end_ : option string;
  no_metadata : bool;
  list_sensors : bool
}.

(** What [main] does to the outside: what the fetcher does, and the
    lines [main] prints itself that depend on the run (headings and
    rules are not recorded; a sensor line is recorded by its name and
    its id, not by its text). *)
Inductive main_io : Type :=
| Fetch (x : io)
| Sensor_line (name : string) (sensor_id : cell)   (* "  {name:30} (ID: {id})" *)
| No_sensors_found
| Unknown_sensor (sensor : string)                 (* "Warning: Unknown sensor type ..." *)
| Credentials_help (e : exn)                       (* "Error: {e}" and the three hints *)
| Unexpected_error (e : exn).

Definition Main (A : Type) : Type := list main_io * result A.

Definition ret {A} (a : A) : Main A := ([], Ok a).

Definition bindMain {A B} (m : Main A) (k : A -> Main B) : Main B :=
  match snd m with
  | Ok a => ((fst m ++ fst (k a))%list, snd (k a))
  | Raise e => (fst m, Raise e)
  end.

Definition print (x : main_io) : Main unit := ([x], Ok tt).

Definition lift {A} (r : result A) : Main A := ([], r).

(** A call into the fetcher. *)
Definition fetch {A} (m : M A) : Main A := (map Fetch (fst m), snd m).

Declare Scope main_scope.
Notation "x <- m ;; k" := (bindMain m (fun x => k))
  (at level 61, m at next level, right associativity) : main_scope.
Notation "m ;; k" := (bindMain m (fun _ => k))
  (at level 61, right associativity) : main_scope.
#[local] Open Scope main_scope.

Section WithPlatform.

(** The interpreter's limit on decimal literals, the environment
    variables, the result of [import config], and the data service. *)
Variable int_max_str_digits : option nat.
Variable environ : Environ.
Variable import_config : result Config.
Variable env : Env.

(** One turn of the loop over [args.sensors]: the numbers it appends. *)
Definition parse_sensor (sensor : string) : Main (list Z) :=
  (* Check if it's a name or ID *)
  match sensor_type (lower sensor) with
  | Some sensor_type_id => ret [sensor_type_id]
  | None =>
      if isdigit sensor then
        n <- lift (int_of_digits int_max_str_digits sensor) ;; ret [n]
      else
        print (Unknown_sensor sensor) ;; ret []
  end.

Fixpoint parse_sensors (sensors : list string) : Main (list Z) :=
  match sensors with
  | [] => ret []
  | sensor :: sensors' =>
      ids <- parse_sensor sensor ;;
      ids' <- parse_sensors sensors' ;;
      ret (ids ++ ids')%list
  end.

Fixpoint print_sensor_lines (ids : list cell) : Main unit :=
  match ids with
  | [] => ret tt
  | sensor_id :: ids' =>
      print (Sensor_line (display_name sensor_id) sensor_id) ;; print_sensor_lines ids'
  end.

(** The [try] block of [main]. *)
Definition main_body (args : Args) : Main unit :=
  (* Initialize fetcher *)
  fetcher <- lift (__init__ None None environ import_config) ;;
  (* List sensors and exit if requested *)
  if list_sensors args then
    sensors <- fetch (get_sensor_types env (study_id args)) ;;
    match sensors with
    | Some table =>
        if (0 <? len_df table)%nat then
          ids <- lift (column "sensor_type_id" table) ;;
          print_sensor_lines ids
        else print No_sensors_found
    | None => print No_sensors_found
    end
  else
    (* Parse sensor types *)
    sensor_type_ids <-
      match sensors args with
      | Some ((_ :: _) as sensors) => ids <- parse_sensors sensors ;; ret (Some ids)
      | _ => ret None
      end ;;
    (* Fetch data *)
    fetch (fetch_all_study_data env (study_id args) sensor_type_ids
             (start args) (end_ args) (negb (no_metadata args))).

(** [main]: [except ValueError] prints the error and the help on
    credentials, [except Exception] prints "Unexpected error"; anything
    else leaves [main]. *)
Definition main (args : Args) : Main unit :=
  let body := main_body args in
  match snd body with
  | Ok _ => body
  | Raise ValueError => ((fst body ++ [Credentials_help ValueError])%list, Ok tt)
  | Raise e =>
      if is_Exception e then ((fst body ++ [Unexpected_error e])%list, Ok tt)
      else body
  end.

End WithPlatform.

(** ** Inputs for the properties *)

(** The command line with the sensor arguments taken away. *)
Definition without_sensors (args : Args) : Args :=
  mkArgs (study_id args) None (start args) (end_ args) (no_metadata args)
         (list_sensors args).

Definition no_environ : Environ := mkEnviron None None.

Definition logged_in : Environ := mkEnviron (Some "user") (Some "secret").

(** A [config.py] that still holds the two placeholders. *)
Definition config_template : result Config :=
  Ok (mkConfig (Some (Some "your_username")) (Some (Some "your_password"))).

(** No [config.py] beside the script. *)
Definition no_config : result Config := Raise ImportError.

Definition gps_january : Args :=
  mkArgs 3445611111 (Some ["GPS"]) (Some "2024-01-01") (Some "2024-01-31") false false.

End Cli.
(* ================================================================== *)
(** * gps_viewer.py: the clock, the distance of a track, the session *)
(* ================================================================== *)

Module Clock.
Import Py DayNight.

(** The instant a timestamp names, in nanoseconds since 1970-01-01 00:00
    UTC; a timestamp without time zone is read as UTC, as the viewer
    does. *)
Definition instant (t : Timestamp) : Z :=
  match tzinfo t with
  | Some offset => wall t - offset
  | None => wall t
  end.

Section WithZones.
Variable coord : Type.
Variable env : Env coord.

(** [convert_to_kenyan_time]: the bare [except:] returns the timestamp
    as it stands when something raised. *)
Definition convert_to_kenyan_time (timestamp : Timestamp) : Timestamp :=
  match pytz_timezone env with
  | Raise _ => timestamp
  | Ok _ =>
      let timestamp :=
        match tzinfo timestamp with
        | None => utc_localize timestamp     (* Assume UTC if no timezone *)
        | Some _ => timestamp
        end in
      match astimezone EAT timestamp with
      | Ok timestamp_kenyan => timestamp_kenyan
      | Raise _ => timestamp
      end
  end.

End WithZones.

Arguments convert_to_kenyan_time {coord} env timestamp.

(** The solar library behaves: when it answers, sunrise and sunset carry
    a time zone (as [astral] does when given one), and when it fails, or
    is missing, what is raised is of class [Exception]. *)
Definition solar_sound {coord} (env : Env coord) (lat lon : coord) : Prop :=
  (forall e, import_astral env = Raise e -> is_Exception e = true)
  /\ forall day,
       match astral_sun env lat lon day with
       | Ok (sunrise, sunset) => tzinfo sunrise <> None /\ tzinfo sunset <> None
       | Raise e => is_Exception e = true
       end.

(** Sunrise at 06:30 and sunset at 18:40 East Africa Time, every day. *)
Definition sun_at_0630_1840 (day : Z) : Timestamp * Timestamp :=
  (mkTimestamp (day * NS_PER_DAY + 6 * NS_PER_HOUR + NS_PER_HOUR / 2) (Some EAT),
   mkTimestamp (day * NS_PER_DAY + 18 * NS_PER_HOUR + 2 * (NS_PER_HOUR / 3)) (Some EAT)).

Definition env_with_astral : Env Z :=
  mkEnv (Ok tt) (Ok tt) (fun _ _ day => Ok (sun_at_0630_1840 day)).

End Clock.

Module Distance.
Import Py Geo.
#[local] Open Scope R_scope.










End Distance.

Module Session.
Import Py Viewer.

(** ** The markers of the interactive map *)

(** [l[::step]]: the elements at the positions 0, [step], 2 [step], ...;
    [countdown] elements are left out before the next one is taken. *)
Fixpoint every_nth_from {A} (step countdown : nat) (l : list A) : list A :=
  match l with
  | [] => []
  | x :: l' =>
      match countdown with
      | O => x :: every_nth_from step (step - 1) l'
      | S c => every_nth_from step c l'
      end
  end.

Definition every_nth {A} (step : nat) (l : list A) : list A := every_nth_from step 0 l.

(** The rows [generate_map] puts a marker on ("Sample points if too
    many"): [display_data.iloc[::len(display_data)//500]] for more than
    500 rows. *)
Definition display_data (filtered_data : list row) : list row :=
  if (500 <? List.length filtered_data)%nat
  then every_nth (List.length filtered_data / 500) filtered_data
  else filtered_data.

(** ** Selecting a subject *)


Definition set_start_date_var (v : string) (s : GPSViewer) : GPSViewer :=
  mkGPSViewer (root s) (gps_data s) (filtered_data s) (animal_var s) v
    (end_date_var s) (trail_length_var s) (anim_speed_var s)
    (animation_playing s) (animation_index s) (animation_timer s).

Definition set_end_date_var (v : string) (s : GPSViewer) : GPSViewer :=
  mkGPSViewer (root s) (gps_data s) (filtered_data s) (animal_var s) (start_date_var s)
    v (trail_length_var s) (anim_speed_var s)
    (animation_playing s) (animation_index s) (animation_timer s).

(** [series.min()] and [series.max()] on timestamps: [NaT] is skipped,
    and is the result when nothing else is there. *)
Definition ts_min (a b : option Z) : option Z :=
  match a, b with
  | Some x, Some y => Some (Z.min x y)
  | Some x, None => Some x
  | None, _ => b
  end.

Definition ts_max (a b : option Z) : option Z :=
  match a, b with
  | Some x, Some y => Some (Z.max x y)
  | Some x, None => Some x
  | None, _ => b
  end.

Definition min_timestamp (data : list row) : option Z :=
  fold_right ts_min None (map timestamp data).

Definition max_timestamp (data : list row) : option Z :=
  fold_right ts_max None (map timestamp data).

Section WithPandas.

(** [pd.to_datetime] on the text of a date field, and
    [timestamp.strftime('%Y-%m-%d')] on a timestamp or on [NaT] (where
    pandas raises). *)
Variable pd_to_datetime : string -> result (option Z).
Variable strftime_date : option Z -> result string.

(** [on_animal_selected], as far as the attributes kept here go: the
    two date fields are set to the days of the first and of the last fix
    of the subject, and the rows are filtered.  An exception raised on
    the way leaves the attributes as they are at that point. *)
Definition on_animal_selected (self : GPSViewer) : GPSViewer :=
  let animal := animal_var self in
  match gps_data self with
  | None => self
  | Some gps =>
      if String.eqb animal "" then self
      else
        (* Filter data for selected animal *)
        let animal_data :=
          filter (fun r => String.eqb (individual_local_identifier r) animal) gps in
        match animal_data with
        | [] => self
        | _ :: _ =>
            (* Set date range *)
            let min_date := min_timestamp animal_data in
            let max_date := max_timestamp animal_data in
            match strftime_date min_date with
            | Raise _ => self
            | Ok start_text =>
                let self := set_start_date_var start_text self in
                match strftime_date max_date with
                | Raise _ => self
                | Ok end_text =>
                    let self := set_end_date_var end_text self in
                    (* Update filtered data *)
                    filter_data pd_to_datetime self
                end
            end
        end
  end.




End WithPandas.

(** ** Notions and inputs for the properties *)


(** In ascending order of timestamp, rows without timestamp last. *)
Definition ts_sorted : list row -> Prop :=
  StronglySorted (fun r1 r2 => is_true (ts_leb (timestamp r1) (timestamp r2))).

(** The rows of a subject that carry a timestamp. *)
Definition dated_row_of (animal : string) (r : row) : bool :=
  String.eqb (individual_local_identifier r) animal
  && match timestamp r with Some _ => true | None => false end.

(** [strftime('%Y-%m-%d')] on the three days of [five_fixes] (a table
    for these days only), and [pd.to_datetime] on what it prints. *)
Definition strftime_dates (t : option Z) : result string :=
  match t with
  | None => Raise ValueError
  | Some x =>
      if x / one_day =? 19723 then Ok "2024-01-01"
      else if x / one_day =? 19724 then Ok "2024-01-02"
      else if x / one_day =? 19725 then Ok "2024-01-03"
      else Raise OtherException
  end.

Definition pd_three_days (text : string) : result (option Z) :=
  if String.eqb text "2024-01-03" then Ok (Some 1704240000000000000)
  else pd_dates text.


End Session.

(* ================================================================== *)
(** * The normalizer: properties *)
(* ================================================================== *)

Module NormalizerProps.
Import Py Datetime Normalizer.

Example convert_date :
  _convert_timestamp true "2024-01-31" = Ok (Some "20240131000000000").
Proof. reflexivity. Qed.

Example convert_datetime :
  _convert_timestamp true "2024-01-31 23:59:07" = Ok (Some "20240131235907000").
Proof. reflexivity. Qed.

Example convert_minutes :
  _convert_timestamp true "2024-01-31 23:59" = Ok (Some "20240131235900000").
Proof. reflexivity. Qed.

Example convert_padded :
  _convert_timestamp true "2024-01-31 23:59:07.5" = Ok (Some "2024-01-31 23:59:07.5")
  /\ _convert_timestamp true "20240131235907" = Ok (Some "20240131235907000").
Proof. split; reflexivity. Qed.

Example convert_invalid_day :
  _convert_timestamp true "2023-02-29" = Ok (Some "2023-02-29")
  /\ _convert_timestamp true "2024-02-29" = Ok (Some "20240229000000000").
Proof. split; reflexivity. Qed.

Example convert_short_digits :
  _convert_timestamp true "20240131" = Ok (Some "20240131").
Proof. reflexivity. Qed.

(** ** Characters *)

Lemma isdigit_char_not_separator (c : ascii) :
  isdigit_char c = true ->
  Ascii.eqb c " " = false /\ Ascii.eqb c "-" = false /\ Ascii.eqb c ":" = false.
Proof.
  destruct c as [[] [] [] [] [] [] [] []]; intros H;
    first [ discriminate H | repeat split; reflexivity ].
Qed.

Lemma is_decimal_isdigit_char (c : ascii) :
  is_decimal c = true -> isdigit_char c = true.
Proof. unfold isdigit_char. intros ->. reflexivity. Qed.

Lemma remove_char_digits (c : ascii) (s : string) :
  (forall d, isdigit_char d = true -> Ascii.eqb d c = false) ->
  all_chars isdigit_char s = true -> remove_char c s = s.
Proof.
  intros Hc. induction s as [|d s IH]; simpl; intros H.
  - reflexivity.
  - apply andb_prop in H. destruct H as [Hd Hs].
    rewrite (Hc d Hd), (IH Hs). reflexivity.
Qed.

Lemma isdigit_all_chars (s : string) :
  isdigit s = true -> all_chars isdigit_char s = true.
Proof. destruct s; [discriminate | exact (fun H => H)]. Qed.

Lemma stripped_digits (s : string) : isdigit s = true -> stripped s = s.
Proof.
  intros H. apply isdigit_all_chars in H. unfold stripped.
  rewrite (remove_char_digits " " s), (remove_char_digits "-" s),
    (remove_char_digits ":" s); trivial;
    intros d Hd; apply (isdigit_char_not_separator d Hd).
Qed.

Lemma append_empty_r (s : string) : (s ++ "")%string = s.
Proof. induction s as [|c s IH]; simpl; [|rewrite IH]; reflexivity. Qed.

(** ** The digit path *)

Lemma convert_timestamp_stripped_digits (year_padded : bool) (s : string) :
  isdigit (stripped s) = true ->
  (14 <= String.length (stripped s))%nat ->
  _convert_timestamp year_padded s = Ok (Some (ljust 17 "0" (stripped s))).
Proof.
  intros Hd Hlen. unfold _convert_timestamp.
  destruct (String.eqb_spec s "") as [->|_].
  - discriminate Hd.
  - rewrite Hd. apply Nat.leb_le in Hlen. rewrite Hlen. reflexivity.
Qed.

(** C6.  When the input with blanks, hyphens and colons removed is all
    digits and at least 14 characters long, [_convert_timestamp] returns
    that stripped string followed by as many zeros as bring it to 17
    characters; and a string of 17 digits is returned as it is. *)
Theorem convert_timestamp_digits :
  (forall (year_padded : bool) (s : string),
      isdigit (stripped s) = true ->
      (14 <= String.length (stripped s))%nat ->
      _convert_timestamp year_padded s
      = Ok (Some (stripped s ++ repeat_char "0" (17 - String.length (stripped s)))%string))
  /\ (forall (year_padded : bool) (s : string),
        isdigit s = true -> String.length s = 17%nat ->
        _convert_timestamp year_padded s = Ok (Some s)).
Proof.
  split.
  - intros pad s Hd Hlen. exact (convert_timestamp_stripped_digits pad s Hd Hlen).
  - intros pad s Hd Hlen.
    pose proof (stripped_digits s Hd) as Hs.
    rewrite convert_timestamp_stripped_digits; rewrite Hs; trivial.
    + unfold ljust. rewrite Hlen. simpl. rewrite append_empty_r. reflexivity.
    + rewrite Hlen. repeat constructor.
Qed.

Lemma convert_timestamp_digits_witness :
  _convert_timestamp true "2024-01-31 23:59:07" = Ok (Some "20240131235907000")
  /\ _convert_timestamp true "20240131235907123" = Ok (Some "20240131235907123").
Proof.
  split.
  - exact (proj1 convert_timestamp_digits true "2024-01-31 23:59:07" eq_refl (le_n 14)).
  - exact (proj2 convert_timestamp_digits true "20240131235907123" eq_refl eq_refl).
Defined.

(** ** The [YYYY-MM-DD] path *)

Lemma decimal_cases (c : ascii) :
  is_decimal c = true ->
  c = "0"%char \/ c = "1"%char \/ c = "2"%char \/ c = "3"%char \/ c = "4"%char
  \/ c = "5"%char \/ c = "6"%char \/ c = "7"%char \/ c = "8"%char \/ c = "9"%char.
Proof.
  destruct c as [[] [] [] [] [] [] [] []]; intros H;
    first [ discriminate H | tauto ].
Qed.

Lemma decimal_digit_val (c : ascii) :
  is_decimal c = true -> 0 <= digit_val c <= 9 /\ digit_char (digit_val c) = c.
Proof.
  intros H.
  destruct (decimal_cases c H) as [-> | [-> | [-> | [-> | [-> | [-> | [-> | [-> | [-> | ->]]]]]]]]];
    (split; [ vm_compute; split; discriminate | reflexivity ]).
Qed.

Lemma digit_char_low (x y : Z) :
  0 <= y <= 9 -> digit_char (10 * x + y) = digit_char y /\ (10 * x + y) / 10 = x.
Proof.
  intros Hy. unfold digit_char. split.
  - replace ((10 * x + y) mod 10) with (y mod 10); [reflexivity|].
    rewrite Z.add_comm, Z.mul_comm, Z.mod_add by discriminate. reflexivity.
  - rewrite Z.add_comm, Z.mul_comm, Z.div_add by discriminate.
    rewrite Z.div_small by lia. reflexivity.
Qed.

Lemma zfill2_digits (a b : ascii) :
  is_decimal a = true -> is_decimal b = true ->
  zfill 2 (10 * digit_val a + digit_val b) = String a (String b EmptyString).
Proof.
  intros Ha Hb.
  destruct (decimal_digit_val a Ha) as [Ra Ca], (decimal_digit_val b Hb) as [Rb Cb].
  destruct (digit_char_low (digit_val a) (digit_val b) Rb) as [E1 E2].
  cbn [zfill]. rewrite E1, E2, Ca, Cb. reflexivity.
Qed.

Lemma zfill4_digits (a b c d : ascii) :
  is_decimal a = true -> is_decimal b = true ->
  is_decimal c = true -> is_decimal d = true ->
  zfill 4 (1000 * digit_val a + 100 * digit_val b + 10 * digit_val c + digit_val d)
  = String a (String b (String c (String d EmptyString))).
Proof.
  intros Ha Hb Hc Hd.
  destruct (decimal_digit_val a Ha) as [Ra Ca], (decimal_digit_val b Hb) as [Rb Cb],
           (decimal_digit_val c Hc) as [Rc Cc], (decimal_digit_val d Hd) as [Rd Cd].
  replace (1000 * digit_val a + 100 * digit_val b + 10 * digit_val c + digit_val d)
    with (10 * (10 * (10 * digit_val a + digit_val b) + digit_val c) + digit_val d) by ring.
  destruct (digit_char_low (10 * (10 * digit_val a + digit_val b) + digit_val c)
                           (digit_val d) Rd) as [E1 E2].
  destruct (digit_char_low (10 * digit_val a + digit_val b) (digit_val c) Rc) as [E3 E4].
  destruct (digit_char_low (digit_val a) (digit_val b) Rb) as [E5 E6].
  cbn [zfill]. rewrite E1, E2, E3, E4, E5, E6, Ca, Cb, Cc, Cd. reflexivity.
Qed.

Lemma int_of_str2 (a b : ascii) :
  is_decimal a = true -> is_decimal b = true ->
  int_of_str (String a (String b EmptyString)) = 10 * digit_val a + digit_val b.
Proof. intros Ha Hb. unfold int_of_str. cbn [int_acc]. rewrite Ha, Hb. lia. Qed.

Lemma int_of_str4 (a b c d : ascii) :
  is_decimal a = true -> is_decimal b = true ->
  is_decimal c = true -> is_decimal d = true ->
  int_of_str (String a (String b (String c (String d EmptyString))))
  = 1000 * digit_val a + 100 * digit_val b + 10 * digit_val c + digit_val d.
Proof.
  intros Ha Hb Hc Hd. unfold int_of_str. cbn [int_acc].
  rewrite Ha, Hb, Hc, Hd. lia.
Qed.

Ltac each_digit H :=
  destruct (decimal_cases _ H) as [-> | [-> | [-> | [-> | [-> | [-> | [-> | [-> | [-> | ->]]]]]]]]].

Ltac out_of_range H :=
  let H1 := fresh in let H2 := fresh in
  exfalso; vm_compute in H; destruct H as [H1 H2];
  first [apply H1; reflexivity | apply H2; reflexivity].

Lemma match_dir_month (a b : ascii) k (rest : string) r rs :
  is_decimal a = true -> is_decimal b = true ->
  1 <= 10 * digit_val a + digit_val b <= 12 ->
  k rest = r :: rs ->
  exists rs', match_dir dm k (String a (String b rest))
              = add_capture dm (String a (String b EmptyString)) r :: rs'.
Proof.
  intros Ha Hb Hr Hk.
  each_digit Ha; each_digit Hb; try (out_of_range Hr);
    vm_compute; rewrite Hk; eexists; reflexivity.
Qed.

Lemma match_dir_day (a b : ascii) k (rest : string) r rs :
  is_decimal a = true -> is_decimal b = true ->
  1 <= 10 * digit_val a + digit_val b <= 31 ->
  k rest = r :: rs ->
  exists rs', match_dir dd k (String a (String b rest))
              = add_capture dd (String a (String b EmptyString)) r :: rs'.
Proof.
  intros Ha Hb Hr Hk.
  each_digit Ha; each_digit Hb; try (out_of_range Hr);
    vm_compute; rewrite Hk; eexists; reflexivity.
Qed.

Lemma match_dir_year (a b c d : ascii) k (rest : string) r rs :
  is_decimal a = true -> is_decimal b = true ->
  is_decimal c = true -> is_decimal d = true ->
  k rest = r :: rs ->
  exists rs', match_dir dY k (String a (String b (String c (String d rest))))
              = add_capture dY (String a (String b (String c (String d EmptyString)))) r :: rs'.
Proof.
  intros Ha Hb Hc Hd Hk. unfold match_dir.
  cbn [alternatives flat_map match_seq atom_matches].
  rewrite Ha, Hb, Hc, Hd, Hk. cbn [map app]. eexists; reflexivity.
Qed.

Lemma days_in_month_le_31 (y m : Z) : days_in_month y m <= 31.
Proof.
  unfold days_in_month.
  destruct (m =? 2); [destruct (is_leap y); lia|].
  destruct ((m =? 4) || (m =? 6) || (m =? 9) || (m =? 11)); lia.
Qed.

Lemma valid_date_bounds (y m d : Z) :
  valid_date y m d = true -> 1 <= m <= 12 /\ 1 <= d <= 31.
Proof.
  unfold valid_date. intros H.
  repeat (apply andb_prop in H; destruct H as [H ?]).
  pose proof (days_in_month_le_31 y m). lia.
Qed.


Lemma match_items_dir (d : directive) (p : list item) (s : string) :
  match_items (I_dir d :: p) s = match_dir d (match_items p) s.
Proof. reflexivity. Qed.

Section IsoDate.
Variables y1 y2 y3 y4 m1 m2 d1 d2 : ascii.
Hypothesis Hy1 : is_decimal y1 = true.
Hypothesis Hy2 : is_decimal y2 = true.
Hypothesis Hy3 : is_decimal y3 = true.
Hypothesis Hy4 : is_decimal y4 = true.
Hypothesis Hm1 : is_decimal m1 = true.
Hypothesis Hm2 : is_decimal m2 = true.
Hypothesis Hd1 : is_decimal d1 = true.
Hypothesis Hd2 : is_decimal d2 = true.

Let y := 1000 * digit_val y1 + 100 * digit_val y2 + 10 * digit_val y3 + digit_val y4.
Let m := 10 * digit_val m1 + digit_val m2.
Let d := 10 * digit_val d1 + digit_val d2.
Hypothesis Hvalid : valid_date y m d = true.

(** The platform pads the year, or the year has four digits anyway. *)
Variable year_padded : bool.
Hypothesis Hyear : year_padded = true \/ 1000 <= y.








Lemma decimal_eqb_separators (c : ascii) :
  is_decimal c = true ->
  Ascii.eqb c " " = false /\ Ascii.eqb c "-" = false /\ Ascii.eqb c ":" = false.
Proof. intros H. apply isdigit_char_not_separator, is_decimal_isdigit_char, H. Qed.


End IsoDate.




Example iso_date_rejects :
  iso_date "2023-02-29" = None /\ iso_date "2024-13-01" = None
  /\ iso_date "0000-01-01" = None /\ iso_date "2024-1-011" = None.
Proof. repeat split; reflexivity. Qed.

(** ** The normalizer never raises *)

Lemma strptime_raises_ValueError (s fmt : string) (e : exn) :
  strptime s fmt = Raise e -> e = ValueError.
Proof.
  unfold strptime, make_datetime.
  destruct (compile false fmt); [|congruence].
  destruct (match_items _ s) as [|[cs [|? ?]] ?]; try congruence.
  destruct (_ && _); congruence.
Qed.

Lemma convert_timestamp_returns (year_padded : bool) (s : string) :
  exists r : option string, _convert_timestamp year_padded s = Ok r.
Proof.
  unfold _convert_timestamp.
  destruct (String.eqb s ""); [eexists; reflexivity|].
  destruct (isdigit _ && _); [eexists; reflexivity|].
  assert (Hparse : forall fmt : string,
             exists r, bind (try_except_if
                               (bind (strptime s fmt)
                                     (fun dt => Ok (Some (strftime year_padded dt
                                                                   "%Y%m%d%H%M%S000"))))
                               (fun e => match e with ValueError => true | _ => false end)
                               (fun _ => Ok None))
                            (fun r => match r with
                                      | Some out => Ok (Some out)
                                      | None => Ok (Some s)
                                      end) = Ok r).
  { intros fmt. destruct (strptime s fmt) as [dt|e] eqn:Hp; cbn.
    - eexists; reflexivity.
    - rewrite (strptime_raises_ValueError s fmt e Hp). cbn. eexists; reflexivity. }
  destruct (_ && _); [apply Hparse|].
  destruct (_ =? 19)%nat; [apply Hparse|].
  destruct (_ =? 16)%nat; [apply Hparse|].
  cbn. eexists; reflexivity.
Qed.

End NormalizerProps.

(* ================================================================== *)
(** * The fetcher: properties *)
(* ================================================================== *)

Module FetcherProps.
Import Py Fetcher.
#[local] Open Scope fetch_scope.

(** ** Traces of composed computations *)

Lemma bindM_ok {A B} (m : M A) (k : A -> M B) (a : A) :
  snd m = Ok a -> bindM m k = ((fst m ++ fst (k a))%list, snd (k a)).
Proof. unfold bindM. intros ->. reflexivity. Qed.


Lemma in_bindM_r {A B} (m : M A) (k : A -> M B) (a : A) (x : io) :
  snd m = Ok a -> In x (fst (k a)) -> In x (fst (bindM m k)).
Proof.
  intros Hm H. rewrite (bindM_ok m k a Hm). cbn [fst]. apply in_or_app. right. exact H.
Qed.


(** ** Every fetch starts with its request *)





(** An answer 200 without license text and with a body that [read_csv]
    accepts is the table fetched. *)
Lemma read_result_table (env : Env) (p : params) (body : string) (df : DataFrame) :
  requests_get env p = Ok (mkresponse 200 body) ->
  contains "License Terms:" body = false ->
  body <> "" ->
  read_csv env body = Ok df ->
  read_result env p = ([Request p], Ok (Some df)).
Proof.
  intros Hget Hlic Hbody Hcsv. unfold read_result, call_api, get, bindM, emit, lift, ret.
  cbn [fst snd]. rewrite Hget. cbn [status_code content app Z.eqb Pos.eqb].
  rewrite Hlic. cbn [fst snd app].
  destruct (String.eqb_spec body ""); [contradiction|].
  cbn [fst snd]. rewrite Hcsv. reflexivity.
Qed.

(** ** The phases of a full fetch *)

Lemma convert_bound_returns (env : Env) (t : option string) :
  exists r : option string, convert_bound env t = Ok r.
Proof.
  unfold convert_bound. destruct t as [s|]; [|eexists; reflexivity].
  destruct (String.eqb s ""); [eexists; reflexivity|].
  apply NormalizerProps.convert_timestamp_returns.
Qed.






(** The loop before the first turn that an exception outside
    [Exception] ends: everything already done stays done. *)
Lemma for_each_prefix {A} (xs ys : list A) (body : A -> M unit) :
  (forall x, In x xs -> snd (body x) = Ok tt) ->
  forall x, In x xs -> incl (fst (body x)) (fst (for_each (xs ++ ys) body)).
Proof.
  induction xs as [|x xs IH]; intros Hall y Hy; [destruct Hy|].
  cbn [for_each app].
  assert (Hx : snd (body x) = Ok tt) by (apply Hall; left; reflexivity).
  rewrite (bindM_ok _ _ tt Hx). cbn [fst]. intros z Hz. apply in_or_app.
  destruct Hy as [<- | Hy]; [left; exact Hz|].
  right. apply (IH (fun w Hw => Hall w (or_intror Hw)) y Hy z Hz).
Qed.





(** ** Which failures end the run, and which do not *)







(** The same run, in full. *)
Example patchy_run :
  fetch_all_study_data patchy 3445611111 None (Some "2024-01-01") None true
  = ([ Request (study_params 3445611111);
       To_csv "study_info.csv" [("name", [CStr "Storks"])];
       Request (individual_params 3445611111);
       Report (Http_error 500 "Server Error");
       Request (tag_params 3445611111);
       To_csv "tags.csv" [("id", [CInt 7])];
       Request (deployment_params 3445611111);
       Report (Http_error 404 "Not Found");
       Request (sensor_params 3445611111);
       To_csv "sensors.csv"
              [("sensor_type_id", [CInt 653; CInt 397; CInt 2365683; CInt 653])];
       Request (event_params 3445611111 (CInt 653) (Some "20240101000000000") None);
       Report (Error_fetching "gps" OtherException);
       Request (event_params 3445611111 (CInt 397) (Some "20240101000000000") None);
       Report (No_events_found "bird_ring");
       Request (event_params 3445611111 (CInt 2365683) (Some "20240101000000000") None);
       To_csv "events_acceleration.csv" [("timestamp", [CStr "2024-01-01 00:00:00.000"])] ],
     Ok tt).
Proof. vm_compute. reflexivity. Qed.

(** Without the sensor table no event is asked for, even for sensor
    types named by the caller. *)
Example no_sensor_table_no_events :
  let env := mkEnv true
                   (fun p => match p with
                             | ("entity_type", VStr "study") :: _ => Ok (mkresponse 200 "study")
                             | _ => Ok (mkresponse 503 "Unavailable")
                             end)
                   (fun _ => "0") patchy_read_csv in
  fetch_all_study_data env 3445611111 (Some [653]) None None false
  = ([ Request (study_params 3445611111);
       To_csv "study_info.csv" [("name", [CStr "Storks"])];
       Request (sensor_params 3445611111);
       Report (Http_error 503 "Unavailable") ], Ok tt).
Proof. vm_compute. reflexivity. Qed.

End FetcherProps.

(* ================================================================== *)
(** * Great-circle distance: properties *)
(* ================================================================== *)

Module GeoProps.
Import Geo.
#[local] Open Scope R_scope.





(** A quarter of the equator: from (0, 0) to (0, 90) the distance is
    6371 * PI / 2 km. *)
Example haversine_quarter_equator :
  haversine_distance 0 0 0 90 = 6371 * (PI / 2).
Proof.
  unfold haversine_distance, radians.
  replace (0 * (PI / 180)) with 0 by ring.
  replace (0 - 0) with 0 by ring.
  replace (0 / 2) with 0 by lra.
  replace ((90 * (PI / 180) - 0) / 2) with (PI / 4) by lra.
  rewrite sin_0, cos_0, sin_PI4.
  replace (0 ^ 2 + 1 * 1 * (1 / sqrt 2) ^ 2) with ((1 / sqrt 2) ^ 2) by ring.
  rewrite <- Rsqr_pow2, sqrt_Rsqr.
  - replace (1 / sqrt 2) with (sin (PI / 4)) by apply sin_PI4.
    rewrite asin_sin; [lra|].
    pose proof PI_RGT_0. lra.
  - apply Rlt_le, Rdiv_lt_0_compat; [lra | apply sqrt_lt_R0; lra].
Qed.

End GeoProps.

(* ================================================================== *)
(** * Day or night: properties *)
(* ================================================================== *)

Module DayNightProps.
Import Py DayNight.

(** The handler of [is_daytime] reads [timestamp.hour] after the name may
    have been rebound to the localized value: the hour is the same. *)
Lemma hour_utc_localize (t : Timestamp) : hour (utc_localize t) = hour t.
Proof. reflexivity. Qed.

Lemma solar_unavailable {coord} (env : Env coord) lat lon day :
  import_astral env = Raise ImportError -> solar_fails env lat lon day.
Proof.
  intros H. unfold solar_fails, calculate_sunrise_sunset. rewrite H. reflexivity.
Qed.

Lemma solar_error {coord} (env : Env coord) lat lon day e :
  import_astral env = Ok tt -> pytz_timezone env = Ok tt ->
  astral_sun env lat lon day = Raise e -> is_Exception e = true ->
  solar_fails env lat lon day.
Proof.
  intros H1 H2 H3 He. unfold solar_fails, calculate_sunrise_sunset.
  rewrite H1, H2, H3. cbn [bind try_except_if]. rewrite He. reflexivity.
Qed.

(** What the code does when the solar tier fails: the answer is the
    window [6 <= hour <= 18] on the East Africa hour. *)
Lemma is_daytime_solar_fallback {coord} (env : Env coord) lat lon (t : Timestamp) :
  pytz_timezone env = Ok tt ->
  (forall day, solar_fails env lat lon day) ->
  is_daytime env lat lon t = Ok (hour_window (local_hour t)).
Proof.
  intros Htz Hsolar. unfold is_daytime, local_hour. rewrite Htz. cbn [bind].
  destruct t as [w [o|]]; cbn [tzinfo utc_localize astimezone wall bind];
    rewrite Hsolar; cbn [try_except]; try reflexivity.
  replace (w - 0 + EAT) with (w + EAT) by lia. reflexivity.
Qed.

(** What the code does on any failure inside the [try]: the same window on
    the hour of the timestamp as given. *)
Lemma is_daytime_raw_fallback {coord} (env : Env coord) lat lon (t : Timestamp) e :
  pytz_timezone env = Raise e ->
  is_daytime env lat lon t = Ok (hour_window (hour t)).
Proof. intros Htz. unfold is_daytime. rewrite Htz. reflexivity. Qed.

(** C1 (the code departs from it).  With the solar library missing, the
    East Africa hour 18 is classified as day, and so is the raw hour 18
    when the zone lookup fails: the code's window is [6 <= hour <= 18],
    where the claim (and the comment in the code, "between 6 AM and 6 PM")
    has hour 18 outside. *)
Theorem is_daytime_hour_18_is_day :
  local_hour t_1830_EAT = 18
  /\ spec_window (local_hour t_1830_EAT) = false
  /\ is_daytime env_without_astral 0 0 t_1830_EAT = Ok true
  /\ hour t_1830_raw = 18
  /\ spec_window (hour t_1830_raw) = false
  /\ is_daytime env_without_pytz 0 0 t_1830_raw = Ok true.
Proof. repeat split; vm_compute; reflexivity. Qed.

(** Outside hour 18 the code's window and the specified window agree. *)
Lemma hour_window_spec_window (h : Z) :
  h <> 18 -> hour_window h = spec_window h.
Proof.
  intros Hh. unfold hour_window, spec_window.
  destruct (6 <=? h); [|reflexivity]. cbn [andb].
  destruct (Z.leb_spec h 18), (Z.ltb_spec h 18); try reflexivity; lia.
Qed.

(** C4.  [is_daytime] returns a boolean for every latitude, longitude and
    timestamp, whatever the zone lookup and the solar library do: no
    exception reaches the caller. *)
Theorem is_daytime_total :
  forall (coord : Type) (env : Env coord) (lat lon : coord) (t : Timestamp),
  exists b : bool, is_daytime env lat lon t = Ok b.
Proof.
  intros coord env lat lon t. unfold is_daytime, try_except.
  match goal with
  | |- exists b, match ?body with Ok a => Ok a | Raise _ => Ok ?h end = Ok b =>
      destruct body as [a|e]; [exists a | exists h]; reflexivity
  end.
Qed.

(** The solar tier alone is not total: an exception outside [Exception]
    (a keyboard interrupt, say) leaves [calculate_sunrise_sunset], and it
    is the bare [except:] of [is_daytime] that stops it. *)
Example calculate_sunrise_sunset_may_raise :
  let env : Env Z := mkEnv (Ok tt) (Ok tt) (fun _ _ _ => Raise BaseOnly) in
  calculate_sunrise_sunset env 0 0 19723 = Raise BaseOnly
  /\ is_daytime env 0 0 t_1830_raw = Ok true.
Proof. split; reflexivity. Qed.

(** The three tiers, each deciding once. *)
Example is_daytime_tiers :
  let noon := mkTimestamp ((1704067200 + 9 * 3600) * 1000000000) None in
  let sunrise := mkTimestamp ((1704067200 + 6 * 3600 + 30 * 60) * 1000000000) (Some EAT) in
  let sunset := mkTimestamp ((1704067200 + 18 * 3600 + 20 * 60) * 1000000000) (Some EAT) in
  let solar : Env Z := mkEnv (Ok tt) (Ok tt) (fun _ _ _ => Ok (sunrise, sunset)) in
  is_daytime solar 0 0 noon = Ok true
  /\ is_daytime solar 0 0 t_1830_EAT = Ok false
  /\ is_daytime env_without_astral 0 0 noon = Ok true
  /\ is_daytime env_without_pytz 0 0 noon = Ok true.
Proof. repeat split; vm_compute; reflexivity. Qed.

End DayNightProps.

(* ================================================================== *)
(** * The viewer: properties *)
(* ================================================================== *)

Module ViewerProps.
Import Py Viewer.

(** ** The playback invariant *)

Lemma track_length_nonneg (s : GPSViewer) : 0 <= track_length s.
Proof. unfold track_length. destruct (filtered_data s); lia. Qed.

Lemma remove_single (id : nat) : List.remove Nat.eq_dec id [id] = [].
Proof. simpl. destruct (Nat.eq_dec id id); [reflexivity | contradiction]. Qed.

Lemma cancel_timer_queue (s : GPSViewer) :
  queue_ok s -> after_queue (root (cancel_timer s)) = [].
Proof.
  intros [Hq | (id & Hq & Ht)]; unfold cancel_timer.
  - destruct (animation_timer s); simpl; rewrite ?Hq; reflexivity.
  - rewrite Ht. simpl. rewrite Hq. apply remove_single.
Qed.

Lemma cancel_timer_fields (s : GPSViewer) :
  filtered_data (cancel_timer s) = filtered_data s
  /\ animation_index (cancel_timer s) = animation_index s
  /\ animation_playing (cancel_timer s) = animation_playing s.
Proof. unfold cancel_timer. destruct (animation_timer s); repeat split. Qed.

(** [reset_animation]: cursor 0, not playing, nothing scheduled. *)
Lemma reset_animation_spec (s : GPSViewer) :
  queue_ok s ->
  animation_index (reset_animation s) = 0
  /\ animation_playing (reset_animation s) = false
  /\ after_queue (root (reset_animation s)) = []
  /\ filtered_data (reset_animation s) = filtered_data s.
Proof.
  intros Hq. unfold reset_animation.
  set (s1 := set_animation_playing false (set_animation_index 0 s)).
  assert (H1 : queue_ok s1) by exact Hq.
  destruct (cancel_timer_fields s1) as (Hf & Hi & Hp).
  rewrite Hi, Hp, Hf. repeat split.
  apply cancel_timer_queue, H1.
Qed.

(** The pause branch of [toggle_animation]. *)
Lemma pause_spec (s : GPSViewer) :
  queue_ok s -> animation_playing s = true ->
  animation_index (toggle_animation s) = animation_index s
  /\ animation_playing (toggle_animation s) = false
  /\ after_queue (root (toggle_animation s)) = []
  /\ filtered_data (toggle_animation s) = filtered_data s.
Proof.
  intros Hq Hp. unfold toggle_animation. rewrite Hp.
  set (s1 := set_animation_playing false s).
  assert (H1 : queue_ok s1) by exact Hq.
  destruct (cancel_timer_fields s1) as (Hf & Hi & Hp').
  rewrite Hi, Hp', Hf. repeat split.
  apply cancel_timer_queue, H1.
Qed.

Lemma playback_ok_intro (s : GPSViewer) :
  0 <= animation_index s <= track_length s ->
  after_queue (root s) = [] ->
  playback_ok s.
Proof.
  intros Hc Hq. split; [exact Hc|].
  split; [left; exact Hq | split; intros _; exact Hq].
Qed.

(** [animate_step] entered with nothing scheduled, as it is from the
    play button and from a timer that has just come due. *)
Lemma animate_step_ok (s : GPSViewer) :
  cursor_ok s -> after_queue (root s) = [] ->
  playback_ok (animate_step s) /\ filtered_data (animate_step s) = filtered_data s.
Proof.
  intros Hc Hq. unfold animate_step.
  destruct (animation_playing s) eqn:Hp; cbn [negb].
  2: { split; [apply playback_ok_intro; assumption | reflexivity]. }
  destruct (filtered_data s) as [data|] eqn:Hd.
  2: { split; [apply playback_ok_intro; assumption | exact Hd]. }
  destruct (Z.leb_spec (Z.of_nat (List.length data)) (animation_index s)) as [Hend | Hmore].
  - destruct (reset_animation_spec s (or_introl Hq)) as (Hi & _ & Hq' & Hf).
    split; [|rewrite Hf; exact Hd].
    apply playback_ok_intro; [|exact Hq'].
    rewrite Hi. pose proof (track_length_nonneg (reset_animation s)). lia.
  - set (s1 := set_animation_index (animation_index s + 1) s).
    assert (Hc1 : cursor_ok s1).
    { unfold cursor_ok, track_length in *. subst s1. simpl. rewrite Hd in *. lia. }
    destruct (tick_delay (anim_speed_var s1)) as [delay|e].
    + split; [|exact Hd].
      unfold after. split; [exact Hc1|]. split; [|split].
      * right. exists (after_counter (root s1)). simpl.
        subst s1. simpl. rewrite Hq. split; reflexivity.
      * intros Hidle. simpl in Hidle. subst s1. simpl in Hidle. congruence.
      * intros Hnone. simpl in Hnone. subst s1. simpl in Hnone. congruence.
    + split; [|exact Hd]. apply playback_ok_intro; [exact Hc1 | exact Hq].
Qed.

Lemma toggle_animation_ok (s : GPSViewer) :
  playback_ok s ->
  playback_ok (toggle_animation s)
  /\ filtered_data (toggle_animation s) = filtered_data s.
Proof.
  intros (Hc & Hq & Hidle & Hload).
  destruct (animation_playing s) eqn:Hp.
  - destruct (pause_spec s Hq Hp) as (Hi & _ & Hq' & Hf).
    split; [|exact Hf]. apply playback_ok_intro; [|exact Hq'].
    unfold track_length. rewrite Hi, Hf. exact Hc.
  - unfold toggle_animation. rewrite Hp.
    apply (animate_step_ok (set_animation_playing true s)); [exact Hc|].
    exact (Hidle Hp).
Qed.

Lemma reset_animation_ok (s : GPSViewer) :
  playback_ok s ->
  playback_ok (reset_animation s)
  /\ filtered_data (reset_animation s) = filtered_data s.
Proof.
  intros (Hc & Hq & Hidle & Hload).
  destruct (reset_animation_spec s Hq) as (Hi & _ & Hq' & Hf).
  split; [|exact Hf]. apply playback_ok_intro; [|exact Hq'].
  rewrite Hi. pose proof (track_length_nonneg (reset_animation s)). lia.
Qed.

Lemma stopped_spec (s : GPSViewer) :
  playback_ok s ->
  animation_playing (stopped s) = false
  /\ after_queue (root (stopped s)) = []
  /\ animation_index (stopped s) = animation_index s
  /\ filtered_data (stopped s) = filtered_data s.
Proof.
  intros (Hc & Hq & Hidle & Hload). unfold stopped.
  destruct (animation_playing s) eqn:Hp.
  - destruct (pause_spec s Hq Hp) as (Hi & Hp' & Hq' & Hf). auto.
  - split; [exact Hp | split; [exact (Hidle Hp) | split; reflexivity]].
Qed.

(** [on_position_changed] on a track of at least one row whose index
    computation returns [index]. *)
Lemma on_position_changed_eq (value : float) (s : GPSViewer) (position index : Z) :
  1 <= track_length s ->
  int_of_float value = Ok position ->
  seek_index position (track_length s - 1) = Ok index ->
  on_position_changed value s
  = set_animation_index (Z.max 1 (Z.min index (track_length s - 1))) (stopped s).
Proof.
  unfold track_length, on_position_changed, stopped.
  destruct (filtered_data s) as [[|r data]|]; cbn [List.length]; intros Hlen Hv Hi;
    try lia.
  rewrite Hv. cbn [bind]. rewrite Hi. reflexivity.
Qed.

Lemma on_position_changed_ok (value : float) (s : GPSViewer) :
  playback_ok s ->
  playback_ok (on_position_changed value s)
  /\ filtered_data (on_position_changed value s) = filtered_data s.
Proof.
  intros Hok. pose proof Hok as (Hc & Hq & Hidle & Hload).
  destruct (stopped_spec s Hok) as (Hp' & Hq' & Hi' & Hf').
  unfold on_position_changed.
  destruct (filtered_data s) as [[|r data]|] eqn:Hd; try (split; [exact Hok | assumption]).
  fold (stopped s).
  remember (Z.of_nat (List.length (r :: data)) - 1) as max_index eqn:Hmax.
  match goal with
  | |- context [match ?c with Ok _ => _ | Raise _ => _ end] => destruct c as [index|e] eqn:Hidx
  end.
  - split; [|exact Hf'].
    apply playback_ok_intro; [|exact Hq'].
    unfold track_length. cbn [animation_index set_animation_index filtered_data].
    rewrite Hf'.
    unfold bind in Hidx.
    destruct (int_of_float value) as [position|]; [|discriminate].
    destruct (seek_index position max_index) as [i|]; [|discriminate].
    injection Hidx as <-. rewrite Hmax. cbn [List.length]. lia.
  - split; [|exact Hf'].
    apply playback_ok_intro; [|exact Hq'].
    unfold track_length. rewrite Hi', Hf'. unfold cursor_ok, track_length in Hc.
    rewrite Hd in Hc. exact Hc.
Qed.

Lemma existsb_single (id id' : nat) :
  existsb (Nat.eqb id) [id'] = true -> id = id'.
Proof. simpl. rewrite orb_false_r. apply Nat.eqb_eq. Qed.

Lemma timer_event_ok (id : nat) (s : GPSViewer) :
  playback_ok s ->
  playback_ok (step s (Timer id)) /\ filtered_data (step s (Timer id)) = filtered_data s.
Proof.
  intros Hok. pose proof Hok as (Hc & Hq & Hidle & Hload). cbn [step].
  destruct (existsb (Nat.eqb id) (after_queue (root s))) eqn:Hin.
  2: { split; [exact Hok | reflexivity]. }
  destruct Hq as [Hq | (id' & Hq & Ht)].
  - rewrite Hq in Hin. discriminate.
  - rewrite Hq in Hin. apply existsb_single in Hin. subst id'.
    apply (animate_step_ok (set_root (after_cancel id (root s)) s)); [exact Hc|].
    cbn. rewrite Hq. apply remove_single.
Qed.

Lemma step_ok (s : GPSViewer) (ev : event) :
  playback_ok s ->
  playback_ok (step s ev) /\ filtered_data (step s ev) = filtered_data s.
Proof.
  intros Hok. destruct ev as [| |value|id].
  - apply toggle_animation_ok, Hok.
  - apply reset_animation_ok, Hok.
  - apply on_position_changed_ok, Hok.
  - apply timer_event_ok, Hok.
Qed.

Lemma initial_ok (s : GPSViewer) : initial s -> playback_ok s.
Proof.
  intros (Hp & Hi & Ht & Hq). apply playback_ok_intro; [|exact Hq].
  rewrite Hi. pose proof (track_length_nonneg s). lia.
Qed.

Lemma run_ok (evs : list event) (s : GPSViewer) :
  playback_ok s ->
  playback_ok (run s evs) /\ filtered_data (run s evs) = filtered_data s.
Proof.
  unfold run. revert s. induction evs as [|ev evs IH]; intros s Hok; cbn [fold_left].
  - split; [exact Hok | reflexivity].
  - destruct (step_ok s ev Hok) as [Hok' Hf'].
    destruct (IH (step s ev) Hok') as [Hok'' Hf''].
    split; [exact Hok'' | congruence].
Qed.

(** The tick that finds the cursor at the end of the track. *)
Lemma final_tick (id : nat) (s : GPSViewer) :
  playback_ok s ->
  In id (after_queue (root s)) ->
  animation_index s = track_length s ->
  animation_index (step s (Timer id)) = 0
  /\ after_queue (root (step s (Timer id))) = []
  /\ animation_playing (step s (Timer id)) = false.
Proof.
  intros (Hc & Hq & Hidle & Hload) Hin Hend. cbn [step].
  destruct Hq as [Hq | (id' & Hq & Ht)]; rewrite Hq in Hin; [contradiction|].
  destruct Hin as [<- | []].
  rewrite Hq. cbn [existsb]. rewrite Nat.eqb_refl. cbn [orb].
  set (s1 := set_root (after_cancel id' (root s)) s).
  assert (Hq1 : after_queue (root s1) = []).
  { subst s1. cbn. rewrite Hq. apply remove_single. }
  assert (Hp : animation_playing s = true).
  { destruct (animation_playing s) eqn:Hp; [reflexivity|].
    rewrite (Hidle Hp) in Hq. discriminate. }
  unfold animate_step.
  change (animation_playing s1) with (animation_playing s). rewrite Hp. cbn [negb].
  change (filtered_data s1) with (filtered_data s).
  change (animation_index s1) with (animation_index s).
  unfold track_length in Hend.
  destruct (filtered_data s) as [data|] eqn:Hd.
  - rewrite Hend, Z.leb_refl.
    destruct (reset_animation_spec s1 (or_introl Hq1)) as (Hi & Hp' & Hq' & _). auto.
  - rewrite (Hload Hd) in Hq. discriminate.
Qed.

(** ** Concrete viewers *)

Lemma initial_viewer_on (data : list row) : initial (viewer_on data).
Proof. repeat split. Qed.

(** ** The cursor stays inside the track *)

(** C3.  In every state reached from the initial one by play/pause, reset,
    slider and timer events the cursor lies between 0 and the length of
    the (unchanged) filtered view; and when the cursor is at the length
    and a timer is pending, as after the tick that brought it there, that
    timer's tick puts the cursor back to 0, stops the animation and leaves
    no timer scheduled. *)
Theorem playback_cursor_bounded (s0 : GPSViewer) (evs : list event) :
  initial s0 ->
  filtered_data (run s0 evs) = filtered_data s0
  /\ 0 <= animation_index (run s0 evs) <= track_length (run s0 evs)
  /\ (forall id : nat,
        In id (after_queue (root (run s0 evs))) ->
        animation_index (run s0 evs) = track_length (run s0 evs) ->
        animation_index (step (run s0 evs) (Timer id)) = 0
        /\ after_queue (root (step (run s0 evs) (Timer id))) = []
        /\ animation_playing (step (run s0 evs) (Timer id)) = false).
Proof.
  intros Hinit.
  destruct (run_ok evs s0 (initial_ok s0 Hinit)) as [Hok Hf].
  split; [exact Hf|]. split; [exact (proj1 Hok)|].
  intros id Hin Hend. exact (final_tick id _ Hok Hin Hend).
Qed.

(** Two fixes, play (which reveals the first) and the tick that reveals
    the second: the cursor is at the length 2 with timer 1 pending, and
    that timer's tick resets it. *)
Lemma playback_cursor_bounded_witness :
  let s := run (viewer_on (track 2)) [Play_button; Timer 0] in
  animation_index s = 2
  /\ after_queue (root s) = [1%nat]
  /\ 0 <= animation_index s <= track_length s
  /\ animation_index (step s (Timer 1)) = 0
  /\ after_queue (root (step s (Timer 1))) = []
  /\ animation_playing (step s (Timer 1)) = false.
Proof.
  intros s.
  destruct (playback_cursor_bounded (viewer_on (track 2)) [Play_button; Timer 0]
              (initial_viewer_on (track 2))) as (_ & Hbound & Hfinal).
  split; [reflexivity|]. split; [reflexivity|]. split; [exact Hbound|].
  exact (Hfinal 1%nat (or_introl eq_refl) eq_refl).
Defined.

(** A tick that moves the cursor schedules the next one, unless the speed
    is 0. *)
Lemma advancing_tick_schedules (id : nat) (s : GPSViewer) (delay : Z) :
  playback_ok s ->
  In id (after_queue (root s)) ->
  animation_index s < track_length s ->
  tick_delay (anim_speed_var s) = Ok delay ->
  animation_index (step s (Timer id)) = animation_index s + 1
  /\ after_queue (root (step s (Timer id))) = [after_counter (root s)]
  /\ animation_playing (step s (Timer id)) = true.
Proof.
  intros (Hc & Hq & Hidle & Hload) Hin Hlt Hdelay. cbn [step].
  destruct Hq as [Hq | (id' & Hq & Ht)]; rewrite Hq in Hin; [contradiction|].
  destruct Hin as [<- | []].
  rewrite Hq. cbn [existsb]. rewrite Nat.eqb_refl. cbn [orb].
  assert (Hp : animation_playing s = true).
  { destruct (animation_playing s) eqn:Hp; [reflexivity|].
    rewrite (Hidle Hp) in Hq. discriminate. }
  unfold animate_step.
  set (s1 := set_root (after_cancel id' (root s)) s).
  change (animation_playing s1) with (animation_playing s). rewrite Hp. cbn [negb].
  change (filtered_data s1) with (filtered_data s).
  change (animation_index s1) with (animation_index s).
  unfold track_length in Hlt.
  destruct (filtered_data s) as [data|]; [|pose proof (proj1 Hc); lia].
  destruct (Z.leb_spec (Z.of_nat (List.length data)) (animation_index s)); [lia|].
  change (anim_speed_var (set_animation_index (animation_index s + 1) s1))
    with (anim_speed_var s).
  rewrite Hdelay. cbn. rewrite Hq, remove_single, Hp. repeat split.
Qed.

(** ** Manual seek *)

Lemma stopped_filtered_data (s : GPSViewer) :
  filtered_data (stopped s) = filtered_data s.
Proof.
  unfold stopped, toggle_animation.
  destruct (animation_playing s); [|reflexivity].
  apply (cancel_timer_fields (set_animation_playing false s)).
Qed.

Lemma seek_index_50_of_100 : seek_index 50 100 = Ok 50.
Proof. vm_compute. reflexivity. Qed.

(** C2 (amended).  On a filtered view of more than one row a manual seek
    first stops a playing animation (no timer stays scheduled, the cursor
    still unchanged) and then sets the cursor to the binary64 product
    [(position / 100) * (length - 1)] truncated toward zero and clamped to
    [1, length - 1]; on 101 rows position 50 gives cursor 50. *)
Theorem seek_truncates_and_clamps
        (s0 : GPSViewer) (evs : list event) (value : float) (position index : Z) :
  initial s0 ->
  1 < track_length (run s0 evs) ->
  int_of_float value = Ok position ->
  seek_index position (track_length (run s0 evs) - 1) = Ok index ->
  animation_playing (stopped (run s0 evs)) = false
  /\ after_queue (root (stopped (run s0 evs))) = []
  /\ animation_index (stopped (run s0 evs)) = animation_index (run s0 evs)
  /\ on_position_changed value (run s0 evs)
     = set_animation_index (Z.max 1 (Z.min index (track_length (run s0 evs) - 1)))
                           (stopped (run s0 evs))
  /\ 1 <= animation_index (on_position_changed value (run s0 evs))
       <= track_length (run s0 evs) - 1
  /\ (track_length (run s0 evs) = 101 -> position = 50 ->
      animation_index (on_position_changed value (run s0 evs)) = 50).
Proof.
  intros Hinit Hlen Hvalue Hindex.
  destruct (run_ok evs s0 (initial_ok s0 Hinit)) as [Hok _].
  destruct (stopped_spec _ Hok) as (Hp & Hq & Hi & _).
  assert (Heq := on_position_changed_eq value (run s0 evs) position index
                   ltac:(lia) Hvalue Hindex).
  split; [exact Hp|]. split; [exact Hq|]. split; [exact Hi|]. split; [exact Heq|].
  rewrite Heq. cbn [animation_index set_animation_index]. split; [lia|].
  intros H101 H50. rewrite H101, H50 in Hindex.
  change (101 - 1) with 100 in Hindex. rewrite seek_index_50_of_100 in Hindex.
  injection Hindex as <-. rewrite H101. reflexivity.
Qed.

(** 101 fixes, playing; the slider is moved to 50. *)
Lemma seek_truncates_and_clamps_witness :
  let s := run (viewer_on (track 101)) [Play_button] in
  animation_playing s = true
  /\ after_queue (root s) = [0%nat]
  /\ animation_playing (stopped s) = false
  /\ after_queue (root (stopped s)) = []
  /\ animation_index (on_position_changed 50%float s) = 50.
Proof.
  intros s.
  destruct (seek_truncates_and_clamps (viewer_on (track 101)) [Play_button] 50%float 50 50
              (initial_viewer_on (track 101)) eq_refl eq_refl eq_refl)
    as (Hp & Hq & _ & _ & _ & H50).
  split; [reflexivity|]. split; [reflexivity|]. split; [exact Hp|]. split; [exact Hq|].
  exact (H50 eq_refl eq_refl).
Defined.

(** C2 as stated fails: on three rows position 99 gives the product 1.98,
    which rounds to 2; the code truncates it to 1. *)
Lemma seek_is_not_rounded :
  animation_index (on_position_changed 99%float (viewer_on (track 3))) = 1
  /\ spec_seek_cursor 99 (track_length (viewer_on (track 3))) = 2
  /\ animation_index (on_position_changed 99%float (viewer_on (track 3)))
     <> spec_seek_cursor 99 (track_length (viewer_on (track 3))).
Proof.
  split; [vm_compute; reflexivity|]. split; [vm_compute; reflexivity|].
  intros H. vm_compute in H. discriminate H.
Qed.

(** The truncation acts on the rounded binary64 product: on 101 rows
    position 29 gives 28.999999999999996, hence cursor 28. *)
Example seek_29_of_101 :
  seek_index 29 100 = Ok 28
  /\ animation_index (on_position_changed 29%float (viewer_on (track 101))) = 28.
Proof. split; vm_compute; reflexivity. Qed.

(** ** A single point *)

Lemma seek_index_zero_max (position : Z) :
  0 <= position <= 100 -> seek_index position 0 = Ok 0.
Proof.
  intros Hp.
  assert (Hall : forallb (fun n => match seek_index (Z.of_nat n) 0 with
                                   | Ok 0 => true
                                   | _ => false
                                   end) (seq 0 101) = true)
    by (vm_compute; reflexivity).
  rewrite forallb_forall in Hall.
  specialize (Hall (Z.to_nat position)).
  rewrite Z2Nat.id in Hall by lia.
  assert (Hin : In (Z.to_nat position) (seq 0 101)) by (apply in_seq; lia).
  specialize (Hall Hin).
  destruct (seek_index position 0) as [[| |]|]; try discriminate. reflexivity.
Qed.

(** C10.  On a filtered view of exactly one row a manual seek to any
    position from 0 to 100 sets the cursor to 1, which is the length of
    the view and more than length - 1 = 0; the row then looked up, at
    cursor - 1 = 0, exists, and it is the one drawn. *)
Theorem seek_single_point (s : GPSViewer) (r : row) (value : float) (position : Z) :
  filtered_data s = Some [r] ->
  int_of_float value = Ok position ->
  0 <= position <= 100 ->
  animation_index (on_position_changed value s) = 1
  /\ track_length (on_position_changed value s) = 1
  /\ track_length (on_position_changed value s) - 1 = 0
  /\ iloc [r] (animation_index (on_position_changed value s) - 1) = Ok r
  /\ exists f : frame,
       update_map_preview_animated (on_position_changed value s)
         (animation_index (on_position_changed value s)) = Some f
       /\ current f = r.
Proof.
  intros Hdata Hvalue Hpos.
  assert (Hlen : track_length s = 1) by (unfold track_length; rewrite Hdata; reflexivity).
  assert (Heq := on_position_changed_eq value s position 0 ltac:(lia) Hvalue).
  rewrite Hlen in Heq. specialize (Heq (seek_index_zero_max position Hpos)).
  change (Z.max 1 (Z.min 0 (1 - 1))) with 1 in Heq.
  assert (Hdata' : filtered_data (on_position_changed value s) = Some [r]).
  { rewrite Heq. cbn [filtered_data set_animation_index].
    rewrite stopped_filtered_data. exact Hdata. }
  assert (Hidx : animation_index (on_position_changed value s) = 1)
    by (rewrite Heq; reflexivity).
  assert (Hlen' : track_length (on_position_changed value s) = 1)
    by (unfold track_length; rewrite Hdata'; reflexivity).
  split; [exact Hidx|]. split; [exact Hlen'|]. split; [rewrite Hlen'; reflexivity|].
  rewrite Hidx. split; [reflexivity|].
  unfold update_map_preview_animated. rewrite Hdata'.
  change (iloc [r] (1 - 1)) with (Ok r).
  eexists. split; reflexivity.
Qed.

Lemma seek_single_point_witness :
  animation_index (on_position_changed 73.5%float (viewer_on (track 1))) = 1
  /\ iloc (track 1)
          (animation_index (on_position_changed 73.5%float (viewer_on (track 1))) - 1)
     = Ok (fix_at 1704067200000000000).
Proof.
  destruct (seek_single_point (viewer_on (track 1)) (fix_at 1704067200000000000)
              73.5%float 73 eq_refl eq_refl ltac:(lia))
    as (H1 & _ & _ & H2 & _).
  split; [exact H1 | exact H2].
Defined.

(** ** The filtered view *)

Lemma filter_filter {A} (f g : A -> bool) (l : list A) :
  filter g (filter f l) = filter (fun x => f x && g x) l.
Proof.
  induction l as [|x l IH]; simpl; [reflexivity|].
  destruct (f x); simpl; [destruct (g x)|]; rewrite IH; reflexivity.
Qed.

Lemma window_selected (animal : string) (start end_ : Z) (r : row) :
  String.eqb (individual_local_identifier r) animal
  && (ts_ge (timestamp r) (Some start) && ts_lt (timestamp r) (add_one_day (Some end_)))
  = selected animal start end_ r.
Proof. unfold selected, ts_ge, ts_lt, add_one_day. destruct (timestamp r); reflexivity. Qed.

Lemma ts_leb_transitive :
  RelationClasses.Transitive
    (fun r1 r2 : row => is_true (ts_leb (timestamp r1) (timestamp r2))).
Proof.
  intros r1 r2 r3. unfold is_true, ts_leb.
  destruct (timestamp r1), (timestamp r2), (timestamp r3);
    try reflexivity; try discriminate.
  rewrite !Z.leb_le. lia.
Qed.

Lemma StronglySorted_present (l : list row) :
  StronglySorted (fun r1 r2 => is_true (ts_leb (timestamp r1) (timestamp r2))) l ->
  Forall (fun r => timestamp r <> None) l ->
  StronglySorted row_le l.
Proof.
  induction 1 as [|r l Hss IH Hall]; intros Hpresent; constructor.
  - apply IH. inversion Hpresent. assumption.
  - inversion Hpresent as [|? ? Hr Hl]; subst.
    rewrite Forall_forall in *. intros r' Hin.
    specialize (Hall r' Hin). specialize (Hl r' Hin).
    unfold row_le, is_true, ts_leb in *.
    destruct (timestamp r) as [a|]; [|contradiction].
    destruct (timestamp r') as [b|]; [|contradiction].
    exists a, b. rewrite Z.leb_le in Hall. auto.
Qed.

Lemma selected_present (animal : string) (start end_ : Z) (r : row) :
  selected animal start end_ r = true -> timestamp r <> None.
Proof.
  unfold selected. destruct (timestamp r); [discriminate|].
  rewrite andb_false_r. discriminate.
Qed.

(** [filter_data] when both date fields parse to a timestamp. *)
Lemma filter_data_parsed (pd : string -> result (option Z)) (self : GPSViewer)
      (gps : list row) (start end_ : Z) :
  gps_data self = Some gps ->
  animal_var self <> "" ->
  pd (start_date_var self) = Ok (Some start) ->
  pd (end_date_var self) = Ok (Some end_) ->
  filtered_data (filter_data pd self)
  = Some (sort_values (filter (selected (animal_var self) start end_) gps)).
Proof.
  intros Hgps Hanimal Hstart Hend. unfold filter_data.
  rewrite Hgps. destruct (String.eqb_spec (animal_var self) ""); [contradiction|].
  rewrite Hstart, Hend. cbn [bind set_filtered_data filtered_data].
  rewrite filter_filter.
  rewrite (filter_ext _ _ (window_selected (animal_var self) start end_)).
  reflexivity.
Qed.

(** C8.  With a table loaded, a subject selected and both date fields
    parsed, the filtered view holds exactly the subject's rows whose
    timestamp [t] satisfies [start <= t < end + 1 day], in ascending order
    of timestamp; when every row of the table is such a row (a track
    filtered by its own range of days) the view holds every row. *)
Theorem filter_data_window (pd : string -> result (option Z)) (self : GPSViewer)
        (gps : list row) (start end_ : Z) :
  gps_data self = Some gps ->
  animal_var self <> "" ->
  pd (start_date_var self) = Ok (Some start) ->
  pd (end_date_var self) = Ok (Some end_) ->
  exists view : list row,
    filtered_data (filter_data pd self) = Some view
    /\ Permutation (filter (selected (animal_var self) start end_) gps) view
    /\ (forall r, In r view <-> In r gps /\ selected (animal_var self) start end_ r = true)
    /\ StronglySorted row_le view
    /\ (Forall (fun r => selected (animal_var self) start end_ r = true) gps ->
        Permutation gps view /\ List.length view = List.length gps).
Proof.
  intros Hgps Hanimal Hstart Hend.
  set (chosen := filter (selected (animal_var self) start end_) gps).
  exists (sort_values chosen).
  assert (Hperm : Permutation chosen (sort_values chosen))
    by apply RowSort.Permuted_sort.
  split; [exact (filter_data_parsed pd self gps start end_ Hgps Hanimal Hstart Hend)|].
  split; [exact Hperm|].
  split.
  { intros r. rewrite <- (filter_In (selected (animal_var self) start end_) r gps).
    split; intros Hin.
    - exact (Permutation_in r (Permutation_sym Hperm) Hin).
    - exact (Permutation_in r Hperm Hin). }
  split.
  { apply StronglySorted_present.
    - apply RowSort.StronglySorted_sort, ts_leb_transitive.
    - apply Forall_forall. intros r Hin.
      apply (Permutation_in r (Permutation_sym Hperm)) in Hin.
      apply filter_In in Hin. exact (selected_present _ _ _ r (proj2 Hin)). }
  intros Hall.
  assert (Hid : chosen = gps).
  { apply forallb_filter_id, forallb_forall. rewrite Forall_forall in Hall. exact Hall. }
  rewrite Hid in Hperm |- *. split; [exact Hperm|].
  symmetry. apply Permutation_length, Hperm.
Qed.

(** The date fields as [on_animal_selected] fills them: the days of the
    first and of the last fix.  Every fix of the track is then inside the
    window. *)
Lemma own_range_selects (animal : string) (lo hi t : Z) (r : row) :
  individual_local_identifier r = animal ->
  timestamp r = Some t ->
  lo <= t <= hi ->
  selected animal (day_floor lo) (day_floor hi) r = true.
Proof.
  intros Hid Ht Hrange. unfold selected. rewrite Hid, Ht, String.eqb_refl.
  cbn [andb]. unfold day_floor.
  assert (Hday : 0 < one_day) by reflexivity.
  pose proof (Z.mul_div_le lo one_day Hday).
  pose proof (Z.mod_pos_bound hi one_day Hday).
  pose proof (Z.div_mod hi one_day ltac:(lia)).
  apply andb_true_intro. split; [apply Z.leb_le | apply Z.ltb_lt]; lia.
Qed.

Lemma filter_data_window_witness :
  exists view : list row,
    filtered_data (filter_data pd_dates (viewer_on five_fixes)) = Some view
    /\ map timestamp view
       = [Some 1704067200000000000; Some 1704100000000000000;
          Some 1704153600000000000; Some 1704200000000000000;
          Some 1704239999000000000]
    /\ StronglySorted row_le view.
Proof.
  destruct (filter_data_window pd_dates (viewer_on five_fixes) five_fixes
              1704067200000000000 1704153600000000000
              eq_refl ltac:(discriminate) eq_refl eq_refl)
    as (view & Hview & _ & _ & Hsorted & _).
  exists view. split; [exact Hview|]. split; [|exact Hsorted].
  assert (Hc : filtered_data (filter_data pd_dates (viewer_on five_fixes))
               = Some (sort_values (filter (selected "T1" 1704067200000000000
                                                     1704153600000000000) five_fixes)))
    by reflexivity.
  rewrite Hc in Hview. injection Hview as <-. vm_compute. reflexivity.
Defined.

(** A track of five fixes over two days, filtered by its own two days
    (the range [on_animal_selected] fills in): all five rows. *)
Example two_day_track_kept :
  let fixes := [ fix_at 1704067200000000000; fix_at 1704100000000000000;
                 fix_at 1704153600000000000; fix_at 1704200000000000000;
                 fix_at 1704239999000000000 ] in
  day_floor 1704067200000000000 = 1704067200000000000
  /\ day_floor 1704239999000000000 = 1704153600000000000
  /\ filtered_data (filter_data pd_dates (viewer_on fixes)) = Some fixes.
Proof. repeat split; vm_compute; reflexivity. Qed.

(** When a date field does not parse, the rows of the subject are kept
    whatever their date. *)
Example filter_data_unparsed :
  let self := mkGPSViewer (mkTk [] 0) (Some five_fixes) None "T1" "yesterday"
                          "2024-01-02" 50 100 false 0 None in
  option_map (@List.length row) (filtered_data (filter_data pd_dates self)) = Some 6%nat.
Proof. vm_compute. reflexivity. Qed.

End ViewerProps.
(* ================================================================== *)
(** * The normalizer: what it does to the other inputs *)
(* ================================================================== *)

Module FormatsProps.
Import Py Datetime Normalizer Formats NormalizerProps.

(** ** Strings of digits *)

Lemma all_chars_app (p : ascii -> bool) (a b : string) :
  all_chars p (a ++ b) = all_chars p a && all_chars p b.
Proof.
  induction a as [|c a IH]; cbn [append all_chars]; [reflexivity|].
  rewrite IH, andb_assoc. reflexivity.
Qed.

Lemma length_app (a b : string) :
  String.length (a ++ b) = (String.length a + String.length b)%nat.
Proof. induction a as [|c a IH]; cbn; [|rewrite IH]; reflexivity. Qed.

Lemma all_chars_weaken (p q : ascii -> bool) (s : string) :
  (forall c, p c = true -> q c = true) -> all_chars p s = true -> all_chars q s = true.
Proof.
  intros Hpq. induction s as [|c s IH]; cbn; [trivial|].
  intros H. apply andb_prop in H. destruct H as [Hc Hs].
  rewrite (Hpq c Hc), (IH Hs). reflexivity.
Qed.

Lemma count_digits (c : ascii) (s : string) :
  (forall d, isdigit_char d = true -> Ascii.eqb d c = false) ->
  all_chars isdigit_char s = true -> count c s = 0%nat.
Proof.
  intros Hc. induction s as [|d s IH]; cbn; [trivial|].
  intros H. apply andb_prop in H. destruct H as [Hd Hs].
  rewrite (Hc d Hd), (IH Hs). reflexivity.
Qed.

Lemma digit_char_decimal (n : Z) : is_decimal (digit_char n) = true.
Proof.
  unfold digit_char, is_decimal, code.
  pose proof (Z.mod_pos_bound n 10 eq_refl) as Hm.
  rewrite nat_ascii_embedding by lia.
  rewrite Z2Nat.id by lia.
  apply andb_true_intro. split; apply Z.leb_le; lia.
Qed.

Lemma zfill_decimal (w : nat) (n : Z) : all_chars is_decimal (zfill w n) = true.
Proof.
  revert n. induction w as [|w IH]; intros n; cbn [zfill]; [reflexivity|].
  rewrite all_chars_app, IH. cbn. rewrite digit_char_decimal. reflexivity.
Qed.

Lemma zfill_length (w : nat) (n : Z) : String.length (zfill w n) = w.
Proof.
  revert n. induction w as [|w IH]; intros n; cbn [zfill]; [reflexivity|].
  rewrite length_app, IH. cbn. lia.
Qed.

Lemma drop_leading_zeros_decimal (s : string) :
  all_chars is_decimal s = true -> all_chars is_decimal (drop_leading_zeros s) = true.
Proof.
  induction s as [|c s IH]; [trivial|].
  intros H. cbn [drop_leading_zeros].
  destruct s as [|c' s']; [exact H|].
  destruct (Ascii.eqb c "0"); [|exact H].
  apply IH. cbn [all_chars] in H. apply andb_prop in H. exact (proj2 H).
Qed.

Lemma drop_leading_zeros_length (s : string) :
  (1 <= String.length s)%nat ->
  (1 <= String.length (drop_leading_zeros s) <= String.length s)%nat.
Proof.
  induction s as [|c s IH]; cbn [String.length]; [lia|].
  intros _. cbn [drop_leading_zeros].
  destruct s as [|c' s']; [cbn; lia|].
  destruct (Ascii.eqb c "0"); [|cbn [String.length]; lia].
  cbn [String.length] in IH |- *.
  assert (1 <= S (String.length s'))%nat as H1 by lia.
  specialize (IH H1). lia.
Qed.

Lemma print_year_decimal (year_padded : bool) (y : Z) :
  all_chars is_decimal (print_year year_padded y) = true
  /\ (1 <= String.length (print_year year_padded y) <= 4)%nat
  /\ (year_padded = true -> String.length (print_year year_padded y) = 4%nat).
Proof.
  unfold print_year. destruct year_padded.
  - rewrite zfill_decimal, zfill_length. repeat split; lia.
  - split; [apply drop_leading_zeros_decimal, zfill_decimal|].
    split; [|discriminate].
    pose proof (drop_leading_zeros_length (zfill 4 y)) as H.
    rewrite zfill_length in H. lia.
Qed.

(** What [strftime('%Y%m%d%H%M%S000')] prints. *)
Lemma strftime_canonical (year_padded : bool) (dt : datetime) :
  strftime year_padded dt "%Y%m%d%H%M%S000"
  = (print_year year_padded (year dt) ++ zfill 2 (month dt) ++ zfill 2 (day dt)
     ++ zfill 2 (hour dt) ++ zfill 2 (minute dt) ++ zfill 2 (second dt) ++ "000")%string.
Proof. reflexivity. Qed.

Lemma strftime_canonical_digits (year_padded : bool) (dt : datetime) :
  all_chars is_decimal (strftime year_padded dt "%Y%m%d%H%M%S000") = true
  /\ (14 <= String.length (strftime year_padded dt "%Y%m%d%H%M%S000") <= 17)%nat
  /\ (year_padded = true
      -> String.length (strftime year_padded dt "%Y%m%d%H%M%S000") = 17%nat).
Proof.
  rewrite strftime_canonical.
  destruct (print_year_decimal year_padded (year dt)) as (Hd & Hl & Hp).
  rewrite !all_chars_app, !length_app, Hd, !zfill_decimal, !zfill_length.
  cbn [String.length all_chars andb].
  repeat split; try lia. intros H. rewrite (Hp H). reflexivity.
Qed.

Lemma isdigit_of_decimal (s : string) :
  all_chars is_decimal s = true -> (1 <= String.length s)%nat -> isdigit s = true.
Proof.
  intros Hd Hl. destruct s as [|c s]; [cbn in Hl; lia|].
  unfold isdigit. apply (all_chars_weaken is_decimal); [|exact Hd].
  exact is_decimal_isdigit_char.
Qed.

Lemma repeat_char_all (p : ascii -> bool) (c : ascii) (n : nat) :
  p c = true -> all_chars p (repeat_char c n) = true.
Proof. intros Hc. induction n as [|n IH]; cbn; [|rewrite Hc, IH]; reflexivity. Qed.

Lemma repeat_char_length (c : ascii) (n : nat) : String.length (repeat_char c n) = n.
Proof. induction n as [|n IH]; cbn; [|rewrite IH]; reflexivity. Qed.

(** A string of digits of 17 characters or more is a fixed point. *)
Lemma convert_timestamp_long_digits (year_padded : bool) (s : string) :
  isdigit s = true -> (17 <= String.length s)%nat ->
  _convert_timestamp year_padded s = Ok (Some s).
Proof.
  intros Hd Hl. pose proof (stripped_digits s Hd) as Hs.
  rewrite convert_timestamp_stripped_digits; rewrite Hs; trivial; [|lia].
  unfold ljust. replace (17 - String.length s)%nat with 0%nat by lia.
  cbn [repeat_char]. rewrite append_empty_r. reflexivity.
Qed.

(** The three shapes a result can have. *)
Lemma convert_timestamp_cases (year_padded : bool) (s out : string) :
  _convert_timestamp year_padded s = Ok (Some out) ->
  out = s
  \/ (isdigit out = true /\ (17 <= String.length out)%nat)
  \/ (isdigit out = true /\ (14 <= String.length out)%nat
      /\ (year_padded = true -> String.length out = 17%nat)
      /\ exists dt, out = strftime year_padded dt "%Y%m%d%H%M%S000").
Proof.
  unfold _convert_timestamp.
  destruct (String.eqb s ""); [discriminate|].
  destruct (isdigit (stripped s) && (14 <=? String.length (stripped s))%nat) eqn:Hdig.
  { intros [= <-]. right. left.
    apply andb_prop in Hdig. destruct Hdig as [Hd Hl].
    apply isdigit_all_chars in Hd as Hall.
    unfold ljust. split.
    - destruct (stripped s) as [|c r] eqn:E; [discriminate Hd|].
      cbn [append isdigit]. change (String c (r ++ ?x)) with (String c r ++ x)%string.
      rewrite all_chars_app, Hall. apply repeat_char_all. reflexivity.
    - rewrite length_app, repeat_char_length. lia. }
  assert (Hparse : forall fmt : string,
             bind (try_except_if
                     (bind (strptime s fmt)
                           (fun dt => Ok (Some (strftime year_padded dt "%Y%m%d%H%M%S000"))))
                     (fun e => match e with ValueError => true | _ => false end)
                     (fun _ => Ok None))
                  (fun r => match r with
                            | Some out => Ok (Some out)
                            | None => Ok (Some s)
                            end) = Ok (Some out) ->
             out = s
             \/ (isdigit out = true /\ (17 <= String.length out)%nat)
             \/ (isdigit out = true /\ (14 <= String.length out)%nat
                 /\ (year_padded = true -> String.length out = 17%nat)
                 /\ exists dt, out = strftime year_padded dt "%Y%m%d%H%M%S000")).
  { intros fmt. destruct (strptime s fmt) as [dt|e] eqn:Hp; cbn [bind try_except_if].
    - intros Heq.
      assert (E : strftime year_padded dt "%Y%m%d%H%M%S000" = out) by congruence.
      rewrite <- E. right. right.
      destruct (strftime_canonical_digits year_padded dt) as (Hd & Hl & Hpad).
      split; [apply isdigit_of_decimal; [exact Hd | lia]|].
      split; [lia|]. split; [exact Hpad|]. exists dt. reflexivity.
    - rewrite (strptime_raises_ValueError s fmt e Hp). cbn [bind try_except_if].
      intros [= <-]. left. reflexivity. }
  destruct ((String.length s =? 10)%nat && _); [apply Hparse|].
  destruct (_ =? 19)%nat; [apply Hparse|].
  destruct (_ =? 16)%nat; [apply Hparse|].
  cbn [bind try_except_if]. intros [= <-]. left. reflexivity.
Qed.

(** X8.  Normalizing twice is normalizing once, as soon as the first result
    has its 17 characters (always, where the year is printed on four
    digits): a bound that was already normalized is sent as it is. *)
Theorem convert_timestamp_idempotent (year_padded : bool) (s out : string) :
  _convert_timestamp year_padded s = Ok (Some out) ->
  year_padded = true \/ (17 <= String.length out)%nat ->
  _convert_timestamp year_padded out = Ok (Some out).
Proof.
  intros Hout Hlen.
  destruct (convert_timestamp_cases year_padded s out Hout)
    as [-> | [[Hd Hl] | (Hd & Hl & Hpad & _)]].
  - exact Hout.
  - apply convert_timestamp_long_digits; assumption.
  - apply convert_timestamp_long_digits; [exact Hd|].
    destruct Hlen as [Hp | Hl17]; [rewrite (Hpad Hp); lia | exact Hl17].
Qed.

Lemma convert_timestamp_idempotent_witness :
  _convert_timestamp true "2024-01-31 23:59" = Ok (Some "20240131235900000")
  /\ _convert_timestamp true "20240131235900000" = Ok (Some "20240131235900000")
  /\ _convert_timestamp false "0999-01-01 10:30:00" = Ok (Some "09990101103000000")
  /\ _convert_timestamp false "09990101103000000" = Ok (Some "09990101103000000").
Proof.
  split; [reflexivity|].
  split; [apply (convert_timestamp_idempotent true "2024-01-31 23:59");
          [reflexivity | left; reflexivity]|].
  split; [reflexivity|].
  apply (convert_timestamp_idempotent false "0999-01-01 10:30:00");
    [reflexivity | right; cbn; lia].
Defined.

(** ** Digits that are too few *)

(** X9.  A string of fewer than 14 digits, the compact date [20240131] among
    them, is not padded and not parsed: it is returned as it is. *)
Theorem convert_timestamp_short_digits (year_padded : bool) (s : string) :
  isdigit s = true -> (String.length s < 14)%nat ->
  _convert_timestamp year_padded s = Ok (Some s).
Proof.
  intros Hd Hl. pose proof (stripped_digits s Hd) as Hs.
  unfold _convert_timestamp. rewrite Hs, Hd.
  destruct (String.eqb_spec s "") as [->|_]; [discriminate Hd|].
  destruct (Nat.leb_spec 14 (String.length s)) as [Hge|_]; [lia|].
  cbn [andb].
  rewrite (count_digits "-" s) by
    (first [ intros d Hdd; apply (isdigit_char_not_separator d Hdd)
           | apply isdigit_all_chars, Hd ]).
  rewrite andb_false_r.
  destruct (Nat.eqb_spec (String.length s) 19) as [E|_]; [lia|].
  destruct (Nat.eqb_spec (String.length s) 16) as [E|_]; [lia|].
  reflexivity.
Qed.

Lemma convert_timestamp_short_digits_witness :
  _convert_timestamp false "20240131" = Ok (Some "20240131")
  /\ _convert_timestamp true "2024013123590" = Ok (Some "2024013123590").
Proof.
  split.
  - apply (convert_timestamp_short_digits false "20240131"); [reflexivity | cbn; lia].
  - apply (convert_timestamp_short_digits true "2024013123590"); [reflexivity | cbn; lia].
Defined.

(** ** [YYYY-MM-DD HH:MM] *)

Lemma match_dir_hour (a b : ascii) k (rest : string) r rs :
  is_decimal a = true -> is_decimal b = true ->
  0 <= field2 a b <= 23 ->
  k rest = r :: rs ->
  exists rs', match_dir dH k (String a (String b rest))
              = add_capture dH (String a (String b EmptyString)) r :: rs'.
Proof.
  intros Ha Hb Hr Hk. unfold field2 in Hr.
  each_digit Ha; each_digit Hb; try (out_of_range Hr);
    vm_compute; rewrite Hk; eexists; reflexivity.
Qed.

Lemma match_dir_minute (a b : ascii) k (rest : string) r rs :
  is_decimal a = true -> is_decimal b = true ->
  0 <= field2 a b <= 59 ->
  k rest = r :: rs ->
  exists rs', match_dir dM k (String a (String b rest))
              = add_capture dM (String a (String b EmptyString)) r :: rs'.
Proof.
  intros Ha Hb Hr Hk. unfold field2 in Hr.
  each_digit Ha; each_digit Hb; try (out_of_range Hr);
    vm_compute; rewrite Hk; eexists; reflexivity.
Qed.

Lemma decimal_not_space (c : ascii) : is_decimal c = true -> is_space c = false.
Proof. intros H. each_digit H; reflexivity. Qed.

(** One blank before a digit: [\s+] takes the blank and no more. *)
Lemma ws_then_blank {A} (k : string -> list A) (c : ascii) (rest : string) :
  is_decimal c = true ->
  ws_then k (String " " (String c rest)) = k (String c rest).
Proof.
  intros Hc. cbn [ws_then]. change (is_space " ") with true. cbv iota.
  rewrite (decimal_not_space c Hc). reflexivity.
Qed.

Lemma valid_time_bounds (h mi s : Z) :
  valid_time h mi s = true -> 0 <= h <= 23 /\ 0 <= mi <= 59 /\ 0 <= s <= 59.
Proof.
  unfold valid_time. intros H.
  repeat (apply andb_prop in H; destruct H as [H ?]). lia.
Qed.

Section IsoMinutes.
Variables y1 y2 y3 y4 m1 m2 d1 d2 H1 H2 M1 M2 : ascii.
Hypothesis Hy1 : is_decimal y1 = true.
Hypothesis Hy2 : is_decimal y2 = true.
Hypothesis Hy3 : is_decimal y3 = true.
Hypothesis Hy4 : is_decimal y4 = true.
Hypothesis Hm1 : is_decimal m1 = true.
Hypothesis Hm2 : is_decimal m2 = true.
Hypothesis Hd1 : is_decimal d1 = true.
Hypothesis Hd2 : is_decimal d2 = true.
Hypothesis HH1 : is_decimal H1 = true.
Hypothesis HH2 : is_decimal H2 = true.
Hypothesis HM1 : is_decimal M1 = true.
Hypothesis HM2 : is_decimal M2 = true.

Let y := field4 y1 y2 y3 y4.
Let m := field2 m1 m2.
Let d := field2 d1 d2.
Let h := field2 H1 H2.
Let mi := field2 M1 M2.
Hypothesis Hdate : valid_date y m d = true.
Hypothesis Htime : valid_time h mi 0 = true.

Variable year_padded : bool.
Hypothesis Hyear : year_padded = true \/ 1000 <= y.

Let text : string :=
  String y1 (String y2 (String y3 (String y4 (String "-"
    (String m1 (String m2 (String "-" (String d1 (String d2 (String " "
    (String H1 (String H2 (String ":" (String M1 (String M2 EmptyString))))))))))))))).
Let digits : string :=
  String y1 (String y2 (String y3 (String y4
    (String m1 (String m2 (String d1 (String d2
    (String H1 (String H2 (String M1 (String M2 EmptyString))))))))))).

Lemma strptime_minutes :
  strptime text "%Y-%m-%d %H:%M" = Ok (mkdatetime y m d h mi 0).
Proof.
  destruct (valid_date_bounds _ _ _ Hdate) as [Rm Rd].
  destruct (valid_time_bounds _ _ _ Htime) as (Rh & Rmi & _).
  unfold strptime.
  change (compile false "%Y-%m-%d %H:%M")
    with (Some [I_dir dY; I_lit "-"; I_dir dm; I_lit "-"; I_dir dd; I_ws;
                I_dir dH; I_lit ":"; I_dir dM]).
  destruct (match_dir_minute M1 M2 (match_items []) EmptyString ([], EmptyString) []
              HM1 HM2 Rmi eq_refl) as [r1 E1].
  destruct (match_dir_hour H1 H2 (match_items [I_lit ":"; I_dir dM])
              (String ":" (String M1 (String M2 EmptyString))) _ r1 HH1 HH2 Rh E1)
    as [r2 E2].
  assert (E2' : match_items [I_ws; I_dir dH; I_lit ":"; I_dir dM]
                  (String " " (String H1 (String H2 (String ":"
                     (String M1 (String M2 EmptyString))))))
                = add_capture dH (String H1 (String H2 EmptyString))
                    (add_capture dM (String M1 (String M2 EmptyString)) ([], EmptyString))
                  :: r2).
  { change (match_items (I_ws :: ?p) ?s) with (ws_then (match_items p) s).
    rewrite (ws_then_blank _ H1 _ HH1). rewrite match_items_dir. exact E2. }
  destruct (match_dir_day d1 d2 (match_items [I_ws; I_dir dH; I_lit ":"; I_dir dM])
              _ _ r2 Hd1 Hd2 Rd E2') as [r3 E3].
  destruct (match_dir_month m1 m2
              (match_items [I_lit "-"; I_dir dd; I_ws; I_dir dH; I_lit ":"; I_dir dM])
              (String "-" (String d1 (String d2 (String " " (String H1 (String H2
                 (String ":" (String M1 (String M2 EmptyString)))))))))
              _ r3 Hm1 Hm2 Rm E3) as [r4 E4].
  destruct (match_dir_year y1 y2 y3 y4
              (match_items [I_lit "-"; I_dir dm; I_lit "-"; I_dir dd; I_ws;
                            I_dir dH; I_lit ":"; I_dir dM])
              (String "-" (String m1 (String m2 (String "-" (String d1 (String d2
                 (String " " (String H1 (String H2 (String ":"
                 (String M1 (String M2 EmptyString))))))))))))
              _ r4 Hy1 Hy2 Hy3 Hy4 E4) as [r5 E5].
  unfold text. rewrite match_items_dir, E5.
  cbn [add_capture fst snd capture].
  rewrite int_of_str4, !int_of_str2 by assumption.
  fold (field4 y1 y2 y3 y4) (field2 m1 m2) (field2 d1 d2) (field2 H1 H2) (field2 M1 M2).
  fold y m d h mi.
  unfold make_datetime. rewrite Hdate, Htime. reflexivity.
Qed.

Lemma print_year_field4 :
  print_year year_padded y = String y1 (String y2 (String y3 (String y4 EmptyString))).
Proof.
  unfold print_year, y, field4. rewrite zfill4_digits by assumption.
  destruct year_padded; [reflexivity|].
  destruct Hyear as [Hpad | Hbig]; [discriminate Hpad|].
  cbn [drop_leading_zeros].
  destruct (Ascii.eqb_spec y1 "0") as [Hzero | _]; [|reflexivity].
  exfalso. unfold y, field4 in Hbig. rewrite Hzero in Hbig.
  change (digit_val "0") with 0 in Hbig.
  pose proof (proj1 (decimal_digit_val y2 Hy2)).
  pose proof (proj1 (decimal_digit_val y3 Hy3)).
  pose proof (proj1 (decimal_digit_val y4 Hy4)).
  lia.
Qed.

Lemma strftime_minutes :
  strftime year_padded (mkdatetime y m d h mi 0) "%Y%m%d%H%M%S000"
  = (digits ++ "00000")%string.
Proof.
  rewrite strftime_canonical. cbn [year month day hour minute second].
  rewrite print_year_field4.
  unfold m, d, h, mi, field2. rewrite !zfill2_digits by assumption. reflexivity.
Qed.

Lemma stripped_minutes : stripped text = digits.
Proof.
  destruct (decimal_eqb_separators _ Hy1) as (A1 & B1 & C1).
  destruct (decimal_eqb_separators _ Hy2) as (A2 & B2 & C2).
  destruct (decimal_eqb_separators _ Hy3) as (A3 & B3 & C3).
  destruct (decimal_eqb_separators _ Hy4) as (A4 & B4 & C4).
  destruct (decimal_eqb_separators _ Hm1) as (A5 & B5 & C5).
  destruct (decimal_eqb_separators _ Hm2) as (A6 & B6 & C6).
  destruct (decimal_eqb_separators _ Hd1) as (A7 & B7 & C7).
  destruct (decimal_eqb_separators _ Hd2) as (A8 & B8 & C8).
  destruct (decimal_eqb_separators _ HH1) as (A9 & B9 & C9).
  destruct (decimal_eqb_separators _ HH2) as (A10 & B10 & C10).
  destruct (decimal_eqb_separators _ HM1) as (A11 & B11 & C11).
  destruct (decimal_eqb_separators _ HM2) as (A12 & B12 & C12).
  unfold stripped, text, digits. cbn [remove_char].
  rewrite A1, A2, A3, A4, A5, A6, A7, A8, A9, A10, A11, A12.
  cbn [Ascii.eqb Bool.eqb remove_char].
  rewrite B1, B2, B3, B4, B5, B6, B7, B8, B9, B10, B11, B12.
  cbn [Ascii.eqb Bool.eqb remove_char].
  rewrite C1, C2, C3, C4, C5, C6, C7, C8, C9, C10, C11, C12. reflexivity.
Qed.

Lemma convert_minutes_text :
  _convert_timestamp year_padded text = Ok (Some (stripped text ++ "00000")%string).
Proof.
  rewrite stripped_minutes.
  unfold _convert_timestamp. rewrite stripped_minutes.
  change (String.eqb text "") with false.
  change (14 <=? String.length digits)%nat with false.
  rewrite andb_false_r.
  change ((String.length text =? 10)%nat) with false.
  change ((String.length text =? 19)%nat) with false.
  change ((String.length text =? 16)%nat) with true.
  cbv iota. cbn [andb]. cbv iota.
  rewrite strptime_minutes. cbn [bind try_except_if].
  rewrite strftime_minutes. reflexivity.
Qed.

End IsoMinutes.

(** X10.  A valid [YYYY-MM-DD HH:MM] string (year from 1000 on, or any year
    where [strftime] pads it) becomes its twelve digits followed by [00]
    for the seconds and [000] for the milliseconds. *)
Theorem convert_timestamp_iso_minutes (year_padded : bool) (s : string)
        (y m d h mi : Z) :
  iso_minutes s = Some (y, m, d, h, mi) ->
  year_padded = true \/ 1000 <= y ->
  _convert_timestamp year_padded s = Ok (Some (stripped s ++ "00000")%string)
  /\ stripped s = (zfill 4 y ++ zfill 2 m ++ zfill 2 d ++ zfill 2 h ++ zfill 2 mi)%string.
Proof.
  unfold iso_minutes.
  do 16 (destruct s as [|? s]; try discriminate).
  destruct s; try discriminate.
  destruct (forallb is_decimal _ && _ && _ && _ && _) eqn:Hshape; try discriminate.
  destruct (valid_date _ _ _ && valid_time _ _ _) eqn:Hvalid; try discriminate.
  intros [= <- <- <- <- <-] Hyear.
  apply andb_prop in Hvalid. destruct Hvalid as [Hdate Htime].
  apply andb_prop in Hshape. destruct Hshape as [Hshape Hc].
  apply andb_prop in Hshape. destruct Hshape as [Hshape Hb].
  apply andb_prop in Hshape. destruct Hshape as [Hshape Hh2].
  apply andb_prop in Hshape. destruct Hshape as [Hdigits Hh1].
  apply Ascii.eqb_eq in Hh1, Hh2, Hb, Hc. subst.
  cbn [forallb] in Hdigits.
  repeat (apply andb_prop in Hdigits; destruct Hdigits as [? Hdigits]).
  split; [apply convert_minutes_text; assumption|].
  rewrite stripped_minutes by assumption.
  unfold field4, field2. rewrite zfill4_digits, !zfill2_digits by assumption.
  reflexivity.
Qed.

Lemma convert_timestamp_iso_minutes_witness :
  _convert_timestamp false "2024-02-29 23:59" = Ok (Some "20240229235900000")
  /\ _convert_timestamp true "0999-12-31 00:05" = Ok (Some "09991231000500000").
Proof.
  split.
  - apply (convert_timestamp_iso_minutes false "2024-02-29 23:59" 2024 2 29 23 59);
      [reflexivity | right; lia].
  - apply (convert_timestamp_iso_minutes true "0999-12-31 00:05" 999 12 31 0 5);
      [reflexivity | left; reflexivity].
Defined.

(** ** Dates that do not exist *)

(** Every way [%d] matches two digits at the end of the input: both
    digits when they name a day from 1 to 31, and the first digit alone
    (leaving the second unread) unless it is 0. *)
Lemma match_dir_day_all (a b : ascii) :
  is_decimal a = true -> is_decimal b = true ->
  match_dir dd (match_items []) (String a (String b EmptyString))
  = ((if (1 <=? field2 a b) && (field2 a b <=? 31)
      then [([(dd, String a (String b EmptyString))], EmptyString)] else [])
     ++ (if Ascii.eqb a "0" then []
         else [([(dd, String a EmptyString)], String b EmptyString)]))%list.
Proof. intros Ha Hb. each_digit Ha; each_digit Hb; vm_compute; reflexivity. Qed.

(** Every way [%m] matches two digits before a character that the rest
    of the pattern refuses. *)
Lemma match_dir_month_all (a b : ascii) k (rest : string) :
  is_decimal a = true -> is_decimal b = true ->
  k (String b rest) = [] ->
  match_dir dm k (String a (String b rest))
  = if (1 <=? field2 a b) && (field2 a b <=? 12)
    then map (add_capture dm (String a (String b EmptyString))) (k rest) else [].
Proof.
  intros Ha Hb Hk.
  each_digit Ha; each_digit Hb; vm_compute; rewrite ?Hk;
    first [ reflexivity | exact (app_nil_r _) ].
Qed.

Lemma match_dir_year_all (a b c d : ascii) k (rest : string) :
  is_decimal a = true -> is_decimal b = true ->
  is_decimal c = true -> is_decimal d = true ->
  match_dir dY k (String a (String b (String c (String d rest))))
  = map (add_capture dY (String a (String b (String c (String d EmptyString))))) (k rest).
Proof.
  intros Ha Hb Hc Hd. unfold match_dir.
  cbn [alternatives flat_map match_seq atom_matches].
  rewrite Ha, Hb, Hc, Hd. apply app_nil_r.
Qed.

Section NoSuchDate.
Variables y1 y2 y3 y4 m1 m2 d1 d2 : ascii.
Hypothesis Hy1 : is_decimal y1 = true.
Hypothesis Hy2 : is_decimal y2 = true.
Hypothesis Hy3 : is_decimal y3 = true.
Hypothesis Hy4 : is_decimal y4 = true.
Hypothesis Hm1 : is_decimal m1 = true.
Hypothesis Hm2 : is_decimal m2 = true.
Hypothesis Hd1 : is_decimal d1 = true.
Hypothesis Hd2 : is_decimal d2 = true.
Hypothesis Hinvalid :
  valid_date (field4 y1 y2 y3 y4) (field2 m1 m2) (field2 d1 d2) = false.

Let text : string :=
  String y1 (String y2 (String y3 (String y4 (String "-"
    (String m1 (String m2 (String "-" (String d1 (String d2 EmptyString))))))))).

Lemma strptime_no_such_date : strptime text "%Y-%m-%d" = Raise ValueError.
Proof.
  unfold strptime.
  change (compile false "%Y-%m-%d")
    with (Some [I_dir dY; I_lit "-"; I_dir dm; I_lit "-"; I_dir dd]).
  unfold text. rewrite match_items_dir, match_dir_year_all by assumption.
  change (match_items [I_lit "-"; I_dir dm; I_lit "-"; I_dir dd]
            (String "-" ?r))
    with (match_dir dm (match_items [I_lit "-"; I_dir dd]) r).
  rewrite match_dir_month_all; try assumption.
  2: { cbn [match_items]. destruct (decimal_eqb_separators _ Hm2) as (_ & -> & _).
       reflexivity. }
  destruct ((1 <=? field2 m1 m2) && (field2 m1 m2 <=? 12)) eqn:Hmonth; [|reflexivity].
  change (match_items [I_lit "-"; I_dir dd] (String "-" ?r))
    with (match_dir dd (match_items []) r).
  rewrite match_dir_day_all by assumption.
  destruct ((1 <=? field2 d1 d2) && (field2 d1 d2 <=? 31)) eqn:Hday.
  - cbn [app map add_capture fst snd capture].
    rewrite int_of_str4, !int_of_str2 by assumption.
    fold (field4 y1 y2 y3 y4) (field2 m1 m2) (field2 d1 d2).
    unfold make_datetime. rewrite Hinvalid. reflexivity.
  - cbn [app]. destruct (Ascii.eqb d1 "0"); reflexivity.
Qed.

Lemma convert_no_such_date (year_padded : bool) :
  _convert_timestamp year_padded text = Ok (Some text).
Proof.
  destruct (decimal_eqb_separators _ Hy1) as (A1 & B1 & C1).
  destruct (decimal_eqb_separators _ Hy2) as (A2 & B2 & C2).
  destruct (decimal_eqb_separators _ Hy3) as (A3 & B3 & C3).
  destruct (decimal_eqb_separators _ Hy4) as (A4 & B4 & C4).
  destruct (decimal_eqb_separators _ Hm1) as (A5 & B5 & C5).
  destruct (decimal_eqb_separators _ Hm2) as (A6 & B6 & C6).
  destruct (decimal_eqb_separators _ Hd1) as (A7 & B7 & C7).
  destruct (decimal_eqb_separators _ Hd2) as (A8 & B8 & C8).
  assert (Hs : String.length (stripped text) = 8%nat).
  { unfold stripped, text. cbn [remove_char].
    rewrite A1, A2, A3, A4, A5, A6, A7, A8. cbn [Ascii.eqb Bool.eqb remove_char].
    rewrite B1, B2, B3, B4, B5, B6, B7, B8. cbn [Ascii.eqb Bool.eqb remove_char].
    rewrite C1, C2, C3, C4, C5, C6, C7, C8. reflexivity. }
  assert (Hc : count "-" text = 2%nat).
  { unfold text. cbn [count]. rewrite B1, B2, B3, B4, B5, B6, B7, B8. reflexivity. }
  unfold _convert_timestamp. rewrite Hs, Hc.
  change (String.eqb text "") with false.
  change (14 <=? 8)%nat with false.
  rewrite andb_false_r.
  change ((String.length text =? 10)%nat && (2 =? 2)%nat) with true.
  cbv iota. rewrite strptime_no_such_date. reflexivity.
Qed.

End NoSuchDate.

(** X11.  A string in the shape of a date that names no day of the calendar
    (a 30th of February, a month 13, the year 0000) is not rejected: it
    is returned as it is, and so reaches the data service unchanged. *)
Theorem convert_timestamp_no_such_date (year_padded : bool) (s : string) :
  date_shaped s = true -> iso_date s = None ->
  _convert_timestamp year_padded s = Ok (Some s).
Proof.
  unfold date_shaped, iso_date.
  do 10 (destruct s as [|? s]; try discriminate).
  destruct s; try discriminate.
  intros Hshape. rewrite Hshape.
  destruct (valid_date _ _ _) eqn:Hvalid; [discriminate|]. intros _.
  apply andb_prop in Hshape. destruct Hshape as [Hshape Hh2].
  apply andb_prop in Hshape. destruct Hshape as [Hdigits Hh1].
  apply Ascii.eqb_eq in Hh1, Hh2. subst.
  cbn [forallb] in Hdigits.
  repeat (apply andb_prop in Hdigits; destruct Hdigits as [? Hdigits]).
  apply convert_no_such_date; assumption.
Qed.

Lemma convert_timestamp_no_such_date_witness :
  _convert_timestamp true "2023-02-29" = Ok (Some "2023-02-29")
  /\ _convert_timestamp false "2024-13-01" = Ok (Some "2024-13-01")
  /\ _convert_timestamp true "0000-01-01" = Ok (Some "0000-01-01")
  /\ _convert_timestamp true "2024-04-31" = Ok (Some "2024-04-31").
Proof.
  split; [apply (convert_timestamp_no_such_date true "2023-02-29"); reflexivity|].
  split; [apply (convert_timestamp_no_such_date false "2024-13-01"); reflexivity|].
  split; [apply (convert_timestamp_no_such_date true "0000-01-01"); reflexivity|].
  apply (convert_timestamp_no_such_date true "2024-04-31"); reflexivity.
Defined.

End FormatsProps.
(* ================================================================== *)
(** * The fetcher: what a run asks for and writes *)
(* ================================================================== *)

Module TraceProps.
Import Py Fetcher Trace FetcherProps.
#[local] Open Scope fetch_scope.

(** ** Reading the trace of a composed computation *)

Lemma in_bindM_inv {A B} (m : M A) (k : A -> M B) (x : io) :
  In x (fst (bindM m k)) ->
  In x (fst m) \/ exists a, snd m = Ok a /\ In x (fst (k a)).
Proof.
  unfold bindM. destruct (snd m) as [a|e]; cbn [fst]; [|auto].
  intros H. apply in_app_or in H. destruct H as [H|H]; [auto|].
  right. exists a. auto.
Qed.

Lemma bindM_raise {A B} (m : M A) (k : A -> M B) (e : exn) :
  snd m = Raise e -> bindM m k = (fst m, Raise e).
Proof. unfold bindM. intros ->. reflexivity. Qed.

Lemma in_for_each_inv {A} (xs : list A) (body : A -> M unit) (x : io) :
  In x (fst (for_each xs body)) -> exists y, In y xs /\ In x (fst (body y)).
Proof.
  induction xs as [|y xs IH]; cbn [for_each]; [intros []|].
  intros H. apply in_bindM_inv in H. destruct H as [H | (_ & _ & H)].
  - exists y. split; [left; reflexivity | exact H].
  - destruct (IH H) as (z & Hz & Hx). exists z. split; [right; exact Hz | exact Hx].
Qed.

Lemma in_try_except_Exception_inv {A} (body : M A) (handler : exn -> M A) (x : io) :
  In x (fst (try_except_Exception body handler)) ->
  In x (fst body) \/ exists e, snd body = Raise e /\ In x (fst (handler e)).
Proof.
  unfold try_except_Exception. destruct (snd body) as [a|e]; [auto|].
  destruct (is_Exception e); [|auto]. cbn [fst]. intros H.
  apply in_app_or in H. destruct H as [H|H]; [auto|]. right. exists e. auto.
Qed.

(** ** One call of the service *)

Lemma get_run (env : Env) (p : params) :
  get env p = ([Request p], requests_get env p).
Proof. reflexivity. Qed.

(** [call_api], case by case. *)
Lemma call_api_run (env : Env) (p : params) :
  call_api env p
  = match requests_get env p with
    | Raise e => ([Request p], Raise e)
    | Ok response =>
        if status_code response =? 200 then
          if contains "License Terms:" (content response) then
            let q := (p ++ [("license-md5",
                             VStr (md5_hexdigest env (content response)))])%list in
            match requests_get env q with
            | Raise e => ([Request p; Request q], Raise e)
            | Ok response2 =>
                if status_code response2 =? 403
                then ([Request p; Request q; Report Incorrect_license_hash], Ok None)
                else ([Request p; Request q], Ok (Some (content response2)))
            end
          else ([Request p], Ok (Some (content response)))
        else if status_code response =? 403
        then ([Request p; Report Access_denied], Ok None)
        else ([Request p;
               Report (Http_error (status_code response) (content response))], Ok None)
    end.
Proof.
  unfold call_api, get, bindM, emit, lift, ret. cbn [fst snd app].
  destruct (requests_get env p) as [response|e]; [|reflexivity].
  destruct (status_code response =? 200).
  - destruct (contains "License Terms:" (content response)); [|reflexivity].
    cbn [fst snd app].
    destruct (requests_get env _) as [response2|e2]; [|reflexivity].
    destruct (status_code response2 =? 403); reflexivity.
  - destruct (status_code response =? 403); reflexivity.
Qed.

(** X2.  [call_api] asks once, or twice when the first answer shows the
    license terms: then the second request is the first with the MD5 of
    that answer appended.  It writes nothing.  It returns [None] only
    after one report (access denied, the status with the body, or the
    refused license hash), and text only without any report. *)
Theorem call_api_asks_at_most_twice (env : Env) (p : params) :
  (requests_of (fst (call_api env p)) = [p]
   \/ exists body : string,
        requests_get env p = Ok (mkresponse 200 body)
        /\ contains "License Terms:" body = true
        /\ requests_of (fst (call_api env p))
           = [p; (p ++ [("license-md5", VStr (md5_hexdigest env body))])%list])
  /\ files_of (fst (call_api env p)) = []
  /\ match snd (call_api env p) with
     | Ok None => exists r, reports_of (fst (call_api env p)) = [r]
     | _ => reports_of (fst (call_api env p)) = []
     end.
Proof.
  rewrite call_api_run.
  destruct (requests_get env p) as [[status body]|e]; cbn [status_code content].
  2: { repeat split. left. reflexivity. }
  destruct (Z.eqb_spec status 200) as [->|H200].
  - destruct (contains "License Terms:" body) eqn:Hlic.
    + cbv zeta.
      destruct (requests_get env _) as [[status2 body2]|e2];
        cbn [status_code content].
      * destruct (status2 =? 403); (split; [right; exists body; auto|]);
          (split; [reflexivity|]); [eexists|]; reflexivity.
      * split; [right; exists body; auto|]. split; reflexivity.
    + split; [left; reflexivity|]. split; reflexivity.
  - destruct (status =? 403); (split; [left; reflexivity|]);
      (split; [reflexivity|]); eexists; reflexivity.
Qed.

(** ** What each step can put on the trace *)

Lemma in_call_api_inv (env : Env) (p : params) (x : io) :
  In x (fst (call_api env p)) ->
  (exists q, x = Request q /\ with_license p q) \/ exists r, x = Report r.
Proof.
  rewrite call_api_run. unfold with_license.
  destruct (requests_get env p) as [response|e].
  2: { intros [<- | []]. left. eexists. split; [reflexivity | left; reflexivity]. }
  destruct (status_code response =? 200).
  - destruct (contains "License Terms:" (content response)).
    + cbv zeta. destruct (requests_get env _) as [response2|e2];
        [destruct (status_code response2 =? 403)|]; cbn [fst In];
        intros H; repeat destruct H as [H|H]; try contradiction; subst x; eauto 6.
    + intros [<- | []]. eauto.
  - destruct (status_code response =? 403); cbn [fst In];
      intros H; repeat destruct H as [H|H]; try contradiction; subst x; eauto.
Qed.

Lemma in_read_result_inv (env : Env) (p : params) (x : io) :
  In x (fst (read_result env p)) ->
  (exists q, x = Request q /\ with_license p q) \/ exists r, x = Report r.
Proof.
  unfold read_result. intros H. apply in_bindM_inv in H.
  destruct H as [H | (result & _ & H)]; [exact (in_call_api_inv env p x H)|].
  destruct result as [text|]; [|destruct H].
  destruct (String.eqb text ""); [destruct H|].
  apply in_bindM_inv in H. destruct H as [[] | (df & _ & [])].
Qed.

Lemma in_export_inv (filename : string) (df : option DataFrame) (x : io) :
  In x (fst (export filename df)) -> exists d, df = Some d /\ x = To_csv filename d.
Proof.
  destruct df as [d|]; cbn; [|intros []].
  intros [<- | []]. exists d. auto.
Qed.

Lemma in_fetch_events_inv (env : Env) (study_id : Z) (ts_start ts_end : option string)
      (sensor_id : cell) (x : io) :
  In x (fst (fetch_events env study_id ts_start ts_end sensor_id)) ->
  (exists q, x = Request q
             /\ with_license (event_params study_id sensor_id ts_start ts_end) q)
  \/ (exists r, x = Report r)
  \/ (exists df, x = To_csv (events_file sensor_id) df /\ (0 < len_df df)%nat).
Proof.
  unfold fetch_events. intros H.
  apply in_try_except_Exception_inv in H.
  destruct H as [H | (e & _ & H)].
  - apply in_bindM_inv in H. destruct H as [H | (events & _ & H)].
    + unfold get_event_data in H. apply in_read_result_inv in H. tauto.
    + destruct events as [df|].
      * destruct (Nat.ltb_spec 0 (len_df df)); destruct H as [<- | []]; eauto.
      * destruct H as [<- | []]. eauto.
  - destruct H as [<- | []]. eauto.
Qed.

Lemma in_warn_missing_inv (sensor_types : option (list Z)) (available : list cell)
      (x : io) :
  In x (fst (warn_missing sensor_types available)) -> exists r, x = Report r.
Proof.
  unfold warn_missing. destruct sensor_types as [[|sid requested]|]; try (intros []).
  destruct (_ =? _)%nat; [intros []|]. intros [<- | []]. eauto.
Qed.

Lemma in_fetch_sensor_events_inv (env : Env) (study_id : Z)
      (sensor_types : option (list Z)) (ts_start ts_end : option string)
      (table : DataFrame) (x : io) :
  In x (fst (fetch_sensor_events env study_id sensor_types ts_start ts_end table)) ->
  x = To_csv "sensors.csv" table
  \/ (exists r, x = Report r)
  \/ exists ids sensor_id,
       column "sensor_type_id" table = Ok ids
       /\ In sensor_id (chosen_sensors sensor_types (unique [] ids))
       /\ In x (fst (fetch_events env study_id ts_start ts_end sensor_id)).
Proof.
  unfold fetch_sensor_events. intros H.
  apply in_bindM_inv in H. destruct H as [[<- | []] | (_ & _ & H)]; [auto|].
  apply in_bindM_inv in H. destruct H as [[] | (ids & Hids & H)].
  apply in_bindM_inv in H. destruct H as [H | (_ & _ & H)].
  - right. left. exact (in_warn_missing_inv _ _ x H).
  - apply in_for_each_inv in H. destruct H as (sensor_id & Hin & H).
    right. right. exists ids, sensor_id. auto.
Qed.

Lemma in_fetch_metadata_tables_inv (env : Env) (study_id : Z) (x : io) :
  In x (fst (fetch_metadata_tables env study_id)) ->
  (exists q, x = Request q
             /\ (with_license (individual_params study_id) q
                 \/ with_license (tag_params study_id) q
                 \/ with_license (deployment_params study_id) q))
  \/ (exists r, x = Report r)
  \/ exists filename d,
       x = To_csv filename d
       /\ In filename ["individuals.csv"; "tags.csv"; "deployments.csv"].
Proof.
  unfold fetch_metadata_tables, get_individuals, get_tags, get_deployments. intros H.
  apply in_bindM_inv in H. destruct H as [H | (individuals & _ & H)].
  { apply in_read_result_inv in H. destruct H as [(q & -> & Hq) | Hr]; eauto 7. }
  apply in_bindM_inv in H. destruct H as [H | (_ & _ & H)].
  { apply in_export_inv in H. destruct H as (d & _ & ->).
    right. right. exists "individuals.csv", d. cbn. auto. }
  apply in_bindM_inv in H. destruct H as [H | (tags & _ & H)].
  { apply in_read_result_inv in H. destruct H as [(q & -> & Hq) | Hr]; eauto 7. }
  apply in_bindM_inv in H. destruct H as [H | (_ & _ & H)].
  { apply in_export_inv in H. destruct H as (d & _ & ->).
    right. right. exists "tags.csv", d. cbn. auto. }
  apply in_bindM_inv in H. destruct H as [H | (deployments & _ & H)].
  { apply in_read_result_inv in H. destruct H as [(q & -> & Hq) | Hr]; eauto 7. }
  apply in_export_inv in H. destruct H as (d & _ & ->).
  right. right. exists "deployments.csv", d. cbn. auto.
Qed.

(** Everything a full run can do, step by step. *)
Lemma in_fetch_all_study_data_inv (env : Env) (study_id : Z)
      (sensor_types : option (list Z)) (timestamp_start timestamp_end : option string)
      (fetch_metadata : bool) (x : io) :
  In x (fst (fetch_all_study_data env study_id sensor_types
               timestamp_start timestamp_end fetch_metadata)) ->
  (exists q, x = Request q
             /\ (with_license (study_params study_id) q
                 \/ with_license (sensor_params study_id) q))
  \/ (exists r, x = Report r)
  \/ (exists info, x = To_csv "study_info.csv" info)
  \/ (fetch_metadata = true /\ In x (fst (fetch_metadata_tables env study_id)))
  \/ exists ts_start ts_end table,
       convert_bound env timestamp_start = Ok ts_start
       /\ convert_bound env timestamp_end = Ok ts_end
       /\ snd (get_sensor_types env study_id) = Ok (Some table)
       /\ In x (fst (fetch_sensor_events env study_id sensor_types
                       ts_start ts_end table)).
Proof.
  unfold fetch_all_study_data. intros H.
  apply in_bindM_inv in H. destruct H as [[] | (ts_start & Hs & H)].
  apply in_bindM_inv in H. destruct H as [[] | (ts_end & He & H)].
  apply in_bindM_inv in H. destruct H as [H | (study_info & _ & H)].
  { apply in_read_result_inv in H. destruct H as [(q & -> & Hq) | Hr]; eauto 7. }
  destruct study_info as [info|].
  2: { destruct H as [<- | []]. eauto. }
  apply in_bindM_inv in H. destruct H as [[<- | []] | (_ & _ & H)]; [eauto 6|].
  apply in_bindM_inv in H. destruct H as [[] | (_ & _ & H)].
  apply in_bindM_inv in H. destruct H as [H | (_ & _ & H)].
  { destruct fetch_metadata; [auto 6 | destruct H]. }
  apply in_bindM_inv in H. destruct H as [H | (sensors & Hsen & H)].
  { apply in_read_result_inv in H. destruct H as [(q & -> & Hq) | Hr]; eauto 7. }
  destruct sensors as [table|]; [|destruct H].
  right. right. right. right. exists ts_start, ts_end, table. auto.
Qed.

(** ** The sensor types of a run *)

Lemma in_unique (seen values : list cell) (v : cell) :
  In v (unique seen values) -> In v values.
Proof.
  revert seen. induction values as [|w values IH]; intros seen; cbn [unique]; [trivial|].
  destruct (existsb (same_value w) seen).
  - intros H. right. exact (IH _ H).
  - intros [<- | H]; [left; reflexivity | right; exact (IH _ H)].
Qed.

Lemma cell_eqb_CInt (n : Z) (c : cell) : cell_eqb (CInt n) c = true -> c = CInt n.
Proof.
  destruct c as [m| |]; cbn; try discriminate.
  intros H. apply Z.eqb_eq in H. congruence.
Qed.

Lemma existsb_cell_eqb (n : Z) (available : list cell) :
  existsb (cell_eqb (CInt n)) available = true <-> In (CInt n) available.
Proof.
  rewrite existsb_exists. split.
  - intros (c & Hin & Heq). rewrite (cell_eqb_CInt n c Heq) in Hin. exact Hin.
  - intros Hin. exists (CInt n). split; [exact Hin|]. cbn. apply Z.eqb_refl.
Qed.

(** The sensor types chosen when some were requested: the requested ones
    that the study has. *)
Lemma in_chosen_sensors (sid : Z) (requested : list Z) (available : list cell) (c : cell) :
  In c (chosen_sensors (Some (sid :: requested)) available)
  <-> exists n, c = CInt n /\ In n (sid :: requested) /\ In (CInt n) available.
Proof.
  unfold chosen_sensors. rewrite in_map_iff. split.
  - intros (n & <- & Hn). apply filter_In in Hn. destruct Hn as [Hin Hav].
    exists n. apply existsb_cell_eqb in Hav. auto.
  - intros (n & -> & Hin & Hav). exists n. split; [reflexivity|].
    apply filter_In. split; [exact Hin|]. apply existsb_cell_eqb, Hav.
Qed.

Lemma chosen_sensors_available (sensor_types : option (list Z)) (available : list cell)
      (c : cell) :
  In c (chosen_sensors sensor_types available) ->
  In c available
  /\ forall requested, sensor_types = Some requested -> requested <> [] ->
                       exists n, c = CInt n /\ In n requested.
Proof.
  destruct sensor_types as [[|sid requested]|].
  - cbn. intros H. split; [exact H|]. intros ? [= <-] Hne. contradiction.
  - intros H. apply in_chosen_sensors in H. destruct H as (n & -> & Hin & Hav).
    split; [exact Hav|]. intros ? [= <-] _. exists n. auto.
  - cbn. intros H. split; [exact H|]. intros ? [=].
Qed.

(** ** What a run asks for *)

(** X3.  Every request of a run is the study request, the sensor-type
    request, with the metadata switched on one of the three table
    requests, or the event request for a sensor type that the fetched
    sensor table lists (one of the requested types, when some were
    requested) with the two normalized time bounds; each as it is or
    followed by the license token.  Nothing else is ever asked for. *)
Theorem fetch_asks_only_for (env : Env) (study_id : Z) (sensor_types : option (list Z))
        (timestamp_start timestamp_end : option string) (fetch_metadata : bool)
        (q : params) :
  In (Request q) (fst (fetch_all_study_data env study_id sensor_types
                         timestamp_start timestamp_end fetch_metadata)) ->
  with_license (study_params study_id) q
  \/ with_license (sensor_params study_id) q
  \/ (fetch_metadata = true
      /\ (with_license (individual_params study_id) q
          \/ with_license (tag_params study_id) q
          \/ with_license (deployment_params study_id) q))
  \/ exists (ts_start ts_end : option string) (table : DataFrame) (ids : list cell)
            (sensor_id : cell),
       convert_bound env timestamp_start = Ok ts_start
       /\ convert_bound env timestamp_end = Ok ts_end
       /\ snd (get_sensor_types env study_id) = Ok (Some table)
       /\ column "sensor_type_id" table = Ok ids
       /\ In sensor_id ids
       /\ (forall requested, sensor_types = Some requested -> requested <> [] ->
                             exists n, sensor_id = CInt n /\ In n requested)
       /\ with_license (event_params study_id sensor_id ts_start ts_end) q.
Proof.
  intros H. apply in_fetch_all_study_data_inv in H.
  destruct H as [(q' & [= <-] & Hq) | [(r & [=]) | [(info & [=]) | [[Hmeta H] | H]]]].
  - tauto.
  - apply in_fetch_metadata_tables_inv in H.
    destruct H as [(q' & [= <-] & Hq) | [(r & [=]) | (f & d & [=] & _)]]. auto.
  - destruct H as (ts_start & ts_end & table & Hs & He & Hsen & H).
    apply in_fetch_sensor_events_inv in H.
    destruct H as [[=] | [(r & [=]) | (ids & sensor_id & Hcol & Hin & H)]].
    apply in_fetch_events_inv in H.
    destruct H as [(q' & [= <-] & Hq) | [(r & [=]) | (df & [=] & _)]].
    destruct (chosen_sensors_available _ _ _ Hin) as [Hav Hreq].
    right. right. right. exists ts_start, ts_end, table, ids, sensor_id.
    repeat (split; [assumption|]). split; [exact (in_unique _ _ _ Hav)|]. auto.
Qed.

(** ** What a run writes *)

(** X4.  Every file of a run is [study_info.csv], [sensors.csv], with the
    metadata switched on one of the three table files, or the events file
    of a sensor type, and then with at least one row: an empty events
    table is never written. *)
Theorem fetch_writes_only (env : Env) (study_id : Z) (sensor_types : option (list Z))
        (timestamp_start timestamp_end : option string) (fetch_metadata : bool)
        (filename : string) (df : DataFrame) :
  In (To_csv filename df) (fst (fetch_all_study_data env study_id sensor_types
                                  timestamp_start timestamp_end fetch_metadata)) ->
  filename = "study_info.csv"
  \/ filename = "sensors.csv"
  \/ (fetch_metadata = true
      /\ In filename ["individuals.csv"; "tags.csv"; "deployments.csv"])
  \/ exists sensor_id : cell,
       filename = events_file sensor_id /\ (0 < len_df df)%nat.
Proof.
  intros H. apply in_fetch_all_study_data_inv in H.
  destruct H as [(q' & [=] & _) | [(r & [=]) | [(info & [= -> _]) | [[Hmeta H] | H]]]].
  - auto.
  - apply in_fetch_metadata_tables_inv in H.
    destruct H as [(q' & [=] & _) | [(r & [=]) | (f & d & [= -> _] & Hf)]]. auto.
  - destruct H as (ts_start & ts_end & table & _ & _ & _ & H).
    apply in_fetch_sensor_events_inv in H.
    destruct H as [[= -> _] | [(r & [=]) | (ids & sensor_id & _ & _ & H)]]; [auto|].
    apply in_fetch_events_inv in H.
    destruct H as [(q' & [=] & _) | [(r & [=]) | (d & [= -> ->] & Hlen)]].
    right. right. right. exists sensor_id. auto.
Qed.

Lemma fetch_asks_only_for_witness :
  exists (ts_start ts_end : option string) (table : DataFrame) (ids : list cell)
         (sensor_id : cell),
    convert_bound patchy (Some "2024-01-01") = Ok ts_start
    /\ convert_bound patchy None = Ok ts_end
    /\ snd (get_sensor_types patchy 3445611111) = Ok (Some table)
    /\ column "sensor_type_id" table = Ok ids
    /\ In sensor_id ids
    /\ (forall requested, Some [2365683; 99] = Some requested -> requested <> [] ->
                          exists n, sensor_id = CInt n /\ In n requested)
    /\ with_license (event_params 3445611111 sensor_id ts_start ts_end)
                    (event_params 3445611111 (CInt 2365683)
                                  (Some "20240101000000000") None).
Proof.
  assert (Hin : In (Request (event_params 3445611111 (CInt 2365683)
                                          (Some "20240101000000000") None))
                   (fst (fetch_all_study_data patchy 3445611111 (Some [2365683; 99])
                           (Some "2024-01-01") None false))).
  { vm_compute. repeat (first [left; reflexivity | right]). }
  destruct (fetch_asks_only_for patchy 3445611111 (Some [2365683; 99])
              (Some "2024-01-01") None false _ Hin)
    as [[H | (h & H)] | [[H | (h & H)] | [[H _] | H]]];
    try discriminate H.
  exact H.
Defined.

Lemma fetch_writes_only_witness :
  "events_acceleration.csv" = "study_info.csv"
  \/ "events_acceleration.csv" = "sensors.csv"
  \/ (true = true
      /\ In "events_acceleration.csv" ["individuals.csv"; "tags.csv"; "deployments.csv"])
  \/ exists sensor_id : cell,
       "events_acceleration.csv" = events_file sensor_id
       /\ (0 < len_df [("timestamp", [CStr "2024-01-01 00:00:00.000"])])%nat.
Proof.
  apply (fetch_writes_only patchy 3445611111 None (Some "2024-01-01") None true).
  vm_compute. repeat (first [left; reflexivity | right]).
Defined.

(** ** Requested sensor types *)

Lemma filter_length_all {A} (f : A -> bool) (l : list A) :
  List.length (filter f l) = List.length l <-> forall x, In x l -> f x = true.
Proof.
  induction l as [|a l IH]; cbn [filter List.length In].
  - split; [intros _ x [] | reflexivity].
  - destruct (f a) eqn:Hfa; cbn [List.length].
    + split.
      * intros H x [<- | Hx]; [exact Hfa|]. apply IH; [lia | exact Hx].
      * intros H. f_equal. apply IH. intros x Hx. apply H. right. exact Hx.
    + split.
      * intros H. pose proof (filter_length_le f l). lia.
      * intros H. specialize (H a (or_introl eq_refl)). congruence.
Qed.

(** X5.  When sensor types are requested, the ones fetched are the requested
    ones that the study's sensor table lists; the warning is printed
    exactly when some requested type is not listed, and it names exactly
    those. *)
Theorem requested_sensors_chosen (sid : Z) (others : list Z) (available : list cell) :
  (forall c : cell,
      In c (chosen_sensors (Some (sid :: others)) available)
      <-> exists n, c = CInt n /\ In n (sid :: others) /\ In (CInt n) available)
  /\ ((forall n, In n (sid :: others) -> In (CInt n) available)
      -> warn_missing (Some (sid :: others)) available = ret tt)
  /\ ((exists n, In n (sid :: others) /\ ~ In (CInt n) available)
      -> exists missing : list Z,
           warn_missing (Some (sid :: others)) available
           = emit (Report (Sensor_types_not_found missing))
           /\ forall n, In n missing
                        <-> In n (sid :: others) /\ ~ In (CInt n) available).
Proof.
  split; [intros c; apply in_chosen_sensors|].
  unfold warn_missing, chosen_sensors. rewrite length_map.
  split.
  - intros Hall.
    destruct (Nat.eqb_spec
                (List.length (filter (fun n => existsb (cell_eqb (CInt n)) available)
                                     (sid :: others)))
                (List.length (sid :: others))) as [_|Hne]; [reflexivity|].
    exfalso. apply Hne. apply filter_length_all.
    intros n Hn. apply existsb_cell_eqb, Hall, Hn.
  - intros (n & Hn & Hmiss).
    destruct (Nat.eqb_spec
                (List.length (filter (fun n => existsb (cell_eqb (CInt n)) available)
                                     (sid :: others)))
                (List.length (sid :: others))) as [Heq|_].
    + exfalso. apply Hmiss. apply existsb_cell_eqb.
      exact (proj1 (filter_length_all _ _) Heq n Hn).
    + eexists. split; [reflexivity|].
      intros m. rewrite filter_In, negb_true_iff, <- not_true_iff_false,
                  existsb_cell_eqb. reflexivity.
Qed.

Lemma requested_sensors_chosen_witness :
  chosen_sensors (Some [653; 99; 397]) [CInt 397; CInt 2365683; CInt 653]
  = [CInt 653; CInt 397]
  /\ (forall c : cell,
        In c (chosen_sensors (Some [653; 99; 397]) [CInt 397; CInt 2365683; CInt 653])
        <-> exists n, c = CInt n /\ In n [653; 99; 397]
                      /\ In (CInt n) [CInt 397; CInt 2365683; CInt 653])
  /\ warn_missing (Some [653; 99; 397]) [CInt 397; CInt 2365683; CInt 653]
     = emit (Report (Sensor_types_not_found [99])).
Proof.
  split; [reflexivity|].
  split; [|reflexivity].
  exact (proj1 (requested_sensors_chosen 653 [99; 397]
                  [CInt 397; CInt 2365683; CInt 653])).
Defined.

(** ** A failure that is not an answer *)

(** X6.  The event loop catches what an event fetch raises; the fetches of the
    tables have no such handler.  When the fetch of the individuals
    raises (the connection fails, or the answer cannot be read as a
    table) the run ends there with that exception: tags, deployments,
    sensor types and events are never asked for. *)
Theorem metadata_exception_ends_fetch (env : Env) (study_id : Z)
        (sensor_types : option (list Z)) (timestamp_start timestamp_end : option string)
        (info : DataFrame) (e : exn) :
  snd (get_study_info env study_id) = Ok (Some info) ->
  study_name info = Ok tt ->
  snd (get_individuals env study_id) = Raise e ->
  fetch_all_study_data env study_id sensor_types timestamp_start timestamp_end true
  = ((fst (get_study_info env study_id) ++ [To_csv "study_info.csv" info]
      ++ fst (get_individuals env study_id))%list, Raise e).
Proof.
  intros Hinfo Hname Hraise. unfold fetch_all_study_data.
  destruct (convert_bound_returns env timestamp_start) as [ts_start Hs].
  destruct (convert_bound_returns env timestamp_end) as [ts_end He].
  rewrite (bindM_ok (lift (convert_bound env timestamp_start)) _ ts_start Hs).
  rewrite (bindM_ok (lift (convert_bound env timestamp_end)) _ ts_end He).
  rewrite (bindM_ok (get_study_info env study_id) _ (Some info) Hinfo).
  rewrite (bindM_ok (emit (To_csv "study_info.csv" info)) _ tt eq_refl).
  rewrite (bindM_ok (lift (study_name info)) _ tt Hname).
  assert (Hmeta : fetch_metadata_tables env study_id
                  = (fst (get_individuals env study_id), Raise e))
    by (apply bindM_raise, Hraise).
  rewrite Hmeta.
  rewrite (bindM_raise (fst (get_individuals env study_id), Raise e) _ e eq_refl).
  cbn [fst snd app]. reflexivity.
Qed.

Lemma metadata_exception_ends_fetch_witness :
  fetch_all_study_data individuals_unreachable 3445611111 None None None true
  = ([Request (study_params 3445611111);
      To_csv "study_info.csv" [("study", [CInt 1])];
      Request (individual_params 3445611111)], Raise OtherException).
Proof.
  exact (metadata_exception_ends_fetch individuals_unreachable 3445611111 None None None
           [("study", [CInt 1])] OtherException eq_refl eq_refl eq_refl).
Defined.

(** ** One file per sensor type *)

Lemma append_length (a b : string) :
  String.length (a ++ b) = (String.length a + String.length b)%nat.
Proof. induction a as [|c a IH]; cbn; [|rewrite IH]; reflexivity. Qed.

Lemma append_inj_l (a b t : string) : (a ++ t = b ++ t)%string -> a = b.
Proof.
  intros H.
  assert (Hlen : String.length a = String.length b).
  { apply (f_equal String.length) in H. rewrite !append_length in H. lia. }
  revert b H Hlen. induction a as [|c a IH]; intros [|d b] H Hlen;
    try discriminate Hlen; [reflexivity|].
  cbn [append] in H. injection H as -> H. f_equal. apply IH; [exact H|].
  cbn in Hlen. lia.
Qed.

Lemma append_inj_r (p a b : string) : (p ++ a = p ++ b)%string -> a = b.
Proof.
  induction p as [|c p IH]; cbn [append]; [trivial|].
  intros H. apply IH. congruence.
Qed.

Lemma string_of_int_inj (a b : Z) :
  NilZero.string_of_int (Z.to_int a) = NilZero.string_of_int (Z.to_int b) -> a = b.
Proof.
  intros H. apply DecimalZ.to_int_inj.
  assert (Hnz : forall n : Z, Z.to_int n <> Decimal.Pos Decimal.Nil
                              /\ Z.to_int n <> Decimal.Neg Decimal.Nil).
  { intros [|p|p]; cbn; split; try discriminate;
      intros [= Hp]; exact (DecimalPos.Unsigned.to_uint_nonnil p Hp). }
  pose proof (NilZero.isi (Z.to_int a) (proj1 (Hnz a)) (proj2 (Hnz a))) as Ha.
  pose proof (NilZero.isi (Z.to_int b) (proj1 (Hnz b)) (proj2 (Hnz b))) as Hb.
  rewrite H in Ha. congruence.
Qed.

(** The name of a sensor type: the one the table gives it, or
    [sensor_<id>]. *)
Lemma sensor_name_cases (n : Z) :
  (exists kv, In kv sensor_names /\ fst kv = n /\ sensor_name (CInt n) = snd kv)
  \/ sensor_name (CInt n)
     = ("sensor_" ++ NilZero.string_of_int (Z.to_int n))%string.
Proof.
  unfold sensor_name, str_of_cell.
  destruct (find (fun kv => fst kv =? n) sensor_names) as [kv|] eqn:Hfind; [|auto].
  left. exists kv. apply find_some in Hfind. destruct Hfind as [Hin Heq].
  apply Z.eqb_eq in Heq. auto.
Qed.

Lemma sensor_names_distinct (kv1 kv2 : Z * string) :
  In kv1 sensor_names -> In kv2 sensor_names -> snd kv1 = snd kv2 -> fst kv1 = fst kv2.
Proof.
  intros H1 H2 Heq.
  assert (Hall : forallb (fun a => forallb (fun b =>
                    implb (String.eqb (snd a) (snd b)) (fst a =? fst b))
                    sensor_names) sensor_names = true) by (vm_compute; reflexivity).
  rewrite forallb_forall in Hall. specialize (Hall kv1 H1).
  rewrite forallb_forall in Hall. specialize (Hall kv2 H2).
  rewrite Heq, String.eqb_refl in Hall. apply Z.eqb_eq. exact Hall.
Qed.

Lemma sensor_names_not_numbered (kv : Z * string) (rest : string) :
  In kv sensor_names -> snd kv <> ("sensor_" ++ rest)%string.
Proof.
  intros Hin Heq.
  assert (Hall : forallb (fun a => match snd a with
                                   | String "s" (String "e" (String "n" (String "s"
                                       (String "o" (String "r" (String "_" _)))))) => false
                                   | _ => true
                                   end) sensor_names = true) by (vm_compute; reflexivity).
  rewrite forallb_forall in Hall. specialize (Hall kv Hin).
  cbv beta in Hall. rewrite Heq in Hall. discriminate Hall.
Qed.

Lemma events_file_inj (a b : Z) :
  events_file (CInt a) = events_file (CInt b) -> a = b.
Proof.
  unfold events_file. intros H.
  apply append_inj_r, append_inj_l in H.
  destruct (sensor_name_cases a) as [(kva & Hina & <- & Ha) | Ha],
           (sensor_name_cases b) as [(kvb & Hinb & <- & Hb) | Hb];
    rewrite Ha, Hb in H.
  - exact (sensor_names_distinct kva kvb Hina Hinb H).
  - exfalso. exact (sensor_names_not_numbered kva _ Hina H).
  - exfalso. exact (sensor_names_not_numbered kvb _ Hinb (eq_sym H)).
  - apply append_inj_r in H. exact (string_of_int_inj a b H).
Qed.

(** X7.  Two different sensor type numbers never share an events file, be
    they in the table of names or not: no sensor type overwrites the
    events of another. *)
Theorem events_files_distinct (a b : Z) :
  a <> b -> events_file (CInt a) <> events_file (CInt b).
Proof. intros Hne H. exact (Hne (events_file_inj a b H)). Qed.

Lemma events_files_distinct_witness :
  events_file (CInt 653) = "events_gps.csv"
  /\ events_file (CInt 12) = "events_sensor_12.csv"
  /\ events_file (CInt 653) <> events_file (CInt 2365683)
  /\ events_file (CInt 12) <> events_file (CInt 13).
Proof.
  split; [reflexivity|]. split; [reflexivity|].
  split; apply events_files_distinct; discriminate.
Defined.

End TraceProps.
(* ================================================================== *)
(** * Credentials and the command line: properties *)
(* ================================================================== *)

Module CliProps.
Import Py Fetcher Trace Cli.
#[local] Open Scope main_scope.

(** ** Credentials *)

Lemma truthy_str_Some (v : option string) :
  truthy_str v = true -> exists s, v = Some s /\ s <> "".
Proof.
  destruct v as [s|]; cbn; [|discriminate].
  intros H. exists s. split; [reflexivity|].
  intros ->. discriminate H.
Qed.

Lemma or_else_truthy (a b : option string) :
  truthy_str a = true -> or_else a b = a.
Proof. unfold or_else. intros ->. reflexivity. Qed.

Lemma or_else_falsy (a b : option string) :
  truthy_str a = false -> or_else a b = b.
Proof. unfold or_else. intros ->. reflexivity. Qed.

(** What [__init__] checks before it returns. *)
Lemma init_checks (username password : option string) (environ : Environ)
      (import_config : result Config) (c : Credentials) :
  __init__ username password environ import_config = Ok c ->
  exists found,
    (if negb (truthy_str (or_else username (mbus environ)))
        || negb (truthy_str (or_else password (mbpw environ)))
     then from_config import_config (or_else username (mbus environ))
                      (or_else password (mbpw environ))
     else Ok (or_else username (mbus environ), or_else password (mbpw environ)))
    = Ok found
    /\ found = (Some (Cli.username c), Some (Cli.password c))
    /\ Cli.username c <> "" /\ Cli.password c <> ""
    /\ Cli.username c <> "your_username" /\ Cli.password c <> "your_password".
Proof.
  unfold __init__. cbv zeta.
  match goal with
  | |- bind ?m _ = _ -> _ => destruct m as [[[u|] [p|]]|e]; cbn [bind]; try discriminate
  end.
  destruct (String.eqb_spec u ""), (String.eqb_spec p ""); cbn [orb]; try discriminate.
  destruct (String.eqb_spec u "your_username"), (String.eqb_spec p "your_password");
    cbn [orb]; try discriminate.
  intros [= <-]. eexists. split; [reflexivity|]. cbn. auto 7.
Qed.

Lemma from_config_keeps (import_config : result Config) (u p u' p' : option string) :
  from_config import_config u p = Ok (u', p') ->
  (truthy_str u = true -> u' = u)
  /\ (truthy_str p = true -> p' = p)
  /\ (truthy_str u = false -> truthy_str u' = true ->
      exists config, import_config = Ok config /\ MOVEBANK_USERNAME config = Some u')
  /\ (truthy_str p = false -> truthy_str p' = true ->
      exists config, import_config = Ok config /\ MOVEBANK_PASSWORD config = Some p').
Proof.
  unfold from_config.
  destruct import_config as [config|e].
  - destruct (truthy_str u) eqn:Hu, (truthy_str p) eqn:Hp.
    + intros [= <- <-]. repeat split; congruence.
    + destruct (MOVEBANK_PASSWORD config) as [vp|] eqn:Hvp; intros [= <- <-];
        repeat split; try congruence.
      intros _ _. exists config. auto.
    + destruct (MOVEBANK_USERNAME config) as [vu|] eqn:Hvu; intros [= <- <-];
        repeat split; try congruence.
      intros _ _. exists config. auto.
    + destruct (MOVEBANK_USERNAME config) as [vu|] eqn:Hvu.
      * destruct (MOVEBANK_PASSWORD config) as [vp|] eqn:Hvp; intros [= <- <-];
          repeat split; try congruence; intros _ _; exists config; auto.
      * intros [= <- <-]. repeat split; congruence.
  - destruct e; try discriminate. intros [= <- <-]. repeat split; congruence.
Qed.

(** X1.  The credentials [__init__] accepts are layered: a parameter that is
    set wins, then the environment variable, and only then the attribute
    of [config]; both are non-empty and neither is the placeholder. *)
Theorem credentials_layered (username password : option string) (environ : Environ)
        (import_config : result Config) (c : Credentials) :
  __init__ username password environ import_config = Ok c ->
  Cli.username c <> "" /\ Cli.password c <> ""
  /\ Cli.username c <> "your_username" /\ Cli.password c <> "your_password"
  /\ (truthy_str username = true -> username = Some (Cli.username c))
  /\ (truthy_str password = true -> password = Some (Cli.password c))
  /\ (truthy_str username = false -> truthy_str (mbus environ) = true ->
      mbus environ = Some (Cli.username c))
  /\ (truthy_str password = false -> truthy_str (mbpw environ) = true ->
      mbpw environ = Some (Cli.password c))
  /\ (truthy_str username = false -> truthy_str (mbus environ) = false ->
      exists config, import_config = Ok config
                     /\ MOVEBANK_USERNAME config = Some (Some (Cli.username c)))
  /\ (truthy_str password = false -> truthy_str (mbpw environ) = false ->
      exists config, import_config = Ok config
                     /\ MOVEBANK_PASSWORD config = Some (Some (Cli.password c))).
Proof.
  intros Hinit.
  destruct (init_checks _ _ _ _ _ Hinit) as (found & Hfound & -> & Hu & Hp & Hu' & Hp').
  repeat (split; [assumption|]).
  assert (Htu : truthy_str (Some (Cli.username c)) = true).
  { cbn. destruct (String.eqb_spec (Cli.username c) ""); [contradiction | reflexivity]. }
  assert (Htp : truthy_str (Some (Cli.password c)) = true).
  { cbn. destruct (String.eqb_spec (Cli.password c) ""); [contradiction | reflexivity]. }
  assert (Hkeep :
            (truthy_str (or_else username (mbus environ)) = true ->
             Some (Cli.username c) = or_else username (mbus environ))
            /\ (truthy_str (or_else password (mbpw environ)) = true ->
                Some (Cli.password c) = or_else password (mbpw environ))
            /\ (truthy_str (or_else username (mbus environ)) = false ->
                exists config, import_config = Ok config
                               /\ MOVEBANK_USERNAME config = Some (Some (Cli.username c)))
            /\ (truthy_str (or_else password (mbpw environ)) = false ->
                exists config, import_config = Ok config
                               /\ MOVEBANK_PASSWORD config = Some (Some (Cli.password c)))).
  { destruct (negb (truthy_str (or_else username (mbus environ)))
              || negb (truthy_str (or_else password (mbpw environ)))) eqn:Hneed.
    - destruct (from_config_keeps _ _ _ _ _ Hfound) as (K1 & K2 & K3 & K4). auto 6.
    - injection Hfound as E1 E2. rewrite E1, E2.
      apply orb_false_elim in Hneed. destruct Hneed as [N1 N2].
      apply negb_false_iff in N1, N2. rewrite E1 in N1. rewrite E2 in N2.
      repeat split; congruence. }
  destruct Hkeep as (K1 & K2 & K3 & K4).
  split; [|split; [|split; [|split; [|split]]]].
  - intros H. rewrite (or_else_truthy _ _ H) in K1. symmetry. exact (K1 H).
  - intros H. rewrite (or_else_truthy _ _ H) in K2. symmetry. exact (K2 H).
  - intros H H'. rewrite (or_else_falsy _ _ H) in K1. symmetry. exact (K1 H').
  - intros H H'. rewrite (or_else_falsy _ _ H) in K2. symmetry. exact (K2 H').
  - intros H H'. rewrite (or_else_falsy _ _ H) in K3. exact (K3 H').
  - intros H H'. rewrite (or_else_falsy _ _ H) in K4. exact (K4 H').
Qed.

Lemma credentials_layered_witness :
  let c := mkCredentials "user" "hunter2" in
  __init__ None (Some "hunter2") (mkEnviron (Some "user") (Some "other"))
           config_template = Ok c
  /\ Cli.username c <> "" /\ Cli.password c <> ""
  /\ Cli.username c <> "your_username" /\ Cli.password c <> "your_password"
  /\ (truthy_str None = true -> None = Some (Cli.username c))
  /\ (truthy_str (Some "hunter2") = true -> Some "hunter2" = Some (Cli.password c)).
Proof.
  intros c. split; [reflexivity|].
  destruct (credentials_layered None (Some "hunter2")
              (mkEnviron (Some "user") (Some "other")) config_template c eq_refl)
    as (H1 & H2 & H3 & H4 & H5 & H6 & _).
  auto 7.
Defined.

(** ** Sensor arguments *)

Lemma sensor_type_In (name : string) (id : Z) :
  sensor_type name = Some id -> In (name, id) SENSOR_TYPES.
Proof.
  unfold sensor_type.
  destruct (find (fun kv => String.eqb (fst kv) name) SENSOR_TYPES) as [[k v]|] eqn:Hfind;
    [|discriminate].
  intros [= <-]. apply find_some in Hfind. destruct Hfind as [Hin Heq].
  apply String.eqb_eq in Heq. cbn in Heq. subst k. exact Hin.
Qed.

(** The three tables agree: every number a name stands for on the
    command line has a name in the fetcher's table, that name is itself
    accepted and stands for the same number, and the listing knows the
    number. *)
Lemma sensor_tables_agree (kv : string * Z) :
  In kv SENSOR_TYPES ->
  exists name,
    In (snd kv, name) sensor_names
    /\ sensor_name (CInt (snd kv)) = name
    /\ sensor_type name = Some (snd kv)
    /\ display_name (CInt (snd kv)) <> "Unknown".
Proof.
  intros Hin.
  repeat (destruct Hin as [<- | Hin];
          [eexists; split;
           [cbn; repeat (first [left; reflexivity | right])
           | split; [reflexivity | split; [reflexivity | discriminate]]]|]).
  destruct Hin.
Qed.

(** X12.  A sensor named on the command line, by its name or by an alias and
    in any letter case, is fetched under the number the name stands for,
    and its events go to the file named after the sensor's name in the
    fetcher's table, which is itself an accepted name for that number. *)
Theorem named_sensor_parsed (int_max_str_digits : option nat) (sensor : string) (id : Z) :
  sensor_type (lower sensor) = Some id ->
  parse_sensor int_max_str_digits sensor = ret [id]
  /\ exists name : string,
       In (id, name) sensor_names
       /\ events_file (CInt id) = ("events_" ++ name ++ ".csv")%string
       /\ sensor_type name = Some id.
Proof.
  intros Hname. split.
  - unfold parse_sensor. rewrite Hname. reflexivity.
  - destruct (sensor_tables_agree _ (sensor_type_In _ _ Hname))
      as (name & Hin & Hfile & Hback & _).
    cbn [snd] in *. exists name. unfold events_file. rewrite Hfile. auto.
Qed.

Lemma named_sensor_parsed_witness :
  parse_sensor (Some 4300%nat) "Acc" = ret [2365683]
  /\ exists name : string,
       In (2365683, name) sensor_names
       /\ events_file (CInt 2365683) = ("events_" ++ name ++ ".csv")%string
       /\ sensor_type name = Some 2365683.
Proof. apply (named_sensor_parsed (Some 4300%nat) "Acc" 2365683). reflexivity. Defined.

Lemma lower_decimal (s : string) : all_chars is_decimal s = true -> lower s = s.
Proof.
  induction s as [|c s IH]; cbn [all_chars lower]; [reflexivity|].
  intros H. apply andb_prop in H. destruct H as [Hc Hs]. rewrite (IH Hs).
  f_equal. NormalizerProps.each_digit Hc; reflexivity.
Qed.

Lemma sensor_type_number (c : ascii) (s : string) :
  is_decimal c = true -> sensor_type (String c s) = None.
Proof. intros Hc. NormalizerProps.each_digit Hc; reflexivity. Qed.

(** X13.  A sensor given as a decimal number is fetched under that number. *)
Theorem numbered_sensor_parsed (int_max_str_digits : option nat) (sensor : string) :
  sensor <> "" ->
  all_chars is_decimal sensor = true ->
  (forall limit, int_max_str_digits = Some limit -> (String.length sensor <= limit)%nat) ->
  parse_sensor int_max_str_digits sensor = ret [int_of_str sensor].
Proof.
  intros Hne Hdec Hlen. unfold parse_sensor.
  rewrite (lower_decimal sensor Hdec).
  destruct sensor as [|c s]; [contradiction|].
  cbn [all_chars] in Hdec. apply andb_prop in Hdec as Hdec'. destruct Hdec' as [Hc Hs].
  rewrite (sensor_type_number c s Hc).
  assert (Hdigit : isdigit (String c s) = true).
  { apply FormatsProps.isdigit_of_decimal; [exact Hdec | cbn; lia]. }
  rewrite Hdigit. unfold int_of_digits. cbn [all_chars]. rewrite Hdec. cbn [negb].
  destruct int_max_str_digits as [limit|]; [|reflexivity].
  specialize (Hlen limit eq_refl).
  destruct (Nat.ltb_spec limit (String.length (String c s))); [lia | reflexivity].
Qed.

Lemma numbered_sensor_parsed_witness :
  parse_sensor (Some 4300%nat) "653" = ret [653]
  /\ parse_sensor None "0000012" = ret [12].
Proof.
  split.
  - apply (numbered_sensor_parsed (Some 4300%nat) "653"); [discriminate | reflexivity|].
    intros limit [= <-]. cbn. lia.
  - apply (numbered_sensor_parsed None "0000012"); [discriminate | reflexivity|].
    intros limit [=].
Defined.

(** ** [main] *)

Section Main.
Variable int_max_str_digits : option nat.
Variable environ : Environ.
Variable import_config : result Config.
Variable env : Env.

Lemma bindMain_ok {A B} (m : Main A) (k : A -> Main B) (a : A) :
  snd m = Ok a -> bindMain m k = ((fst m ++ fst (k a))%list, snd (k a)).
Proof. unfold bindMain. intros ->. reflexivity. Qed.

Lemma bindMain_raise {A B} (m : Main A) (k : A -> Main B) (e : exn) :
  snd m = Raise e -> bindMain m k = (fst m, Raise e).
Proof. unfold bindMain. intros ->. reflexivity. Qed.

Lemma in_bindMain_inv {A B} (m : Main A) (k : A -> Main B) (x : main_io) :
  In x (fst (bindMain m k)) ->
  In x (fst m) \/ exists a, snd m = Ok a /\ In x (fst (k a)).
Proof.
  unfold bindMain. destruct (snd m) as [a|e]; cbn [fst]; [|auto].
  intros H. apply in_app_or in H. destruct H as [H|H]; [auto|].
  right. exists a. auto.
Qed.

(** X14.  Without credentials [main] stops before anything is asked of the
    data service, whatever the command line: it prints the error and the
    help on setting credentials, and ends normally. *)
Theorem main_without_credentials (args : Args) :
  __init__ None None environ import_config = Raise ValueError ->
  main int_max_str_digits environ import_config env args
  = ([Credentials_help ValueError], Ok tt).
Proof.
  intros Hinit. unfold main, main_body. cbv zeta.
  rewrite (bindMain_raise (lift (__init__ None None environ import_config)) _
             ValueError Hinit).
  reflexivity.
Qed.

Lemma in_main_inv (args : Args) (x : main_io) :
  In x (fst (main int_max_str_digits environ import_config env args)) ->
  In x (fst (main_body int_max_str_digits environ import_config env args))
  \/ (exists e, x = Credentials_help e) \/ (exists e, x = Unexpected_error e).
Proof.
  unfold main. cbv zeta.
  destruct (snd (main_body int_max_str_digits environ import_config env args)) as [u|e];
    [auto|].
  assert (Hprinted : forall line : main_io,
             In x (fst ((fst (main_body int_max_str_digits environ import_config env args)
                         ++ [line])%list, Ok (A := unit) tt)) ->
             In x (fst (main_body int_max_str_digits environ import_config env args))
             \/ x = line).
  { intros line H. cbn [fst] in H. apply in_app_or in H.
    destruct H as [H | [<- | []]]; auto. }
  destruct e; cbn [is_Exception]; auto;
    intros H; apply Hprinted in H; destruct H as [H | ->]; eauto.
Qed.

Lemma in_fetch_inv {A} (m : M A) (x : main_io) :
  In x (fst (fetch m)) -> exists y, x = Fetch y /\ In y (fst m).
Proof.
  unfold fetch. cbn [fst]. rewrite in_map_iff. intros (y & <- & Hy). eauto.
Qed.

Lemma print_sensor_lines_run (ids : list cell) :
  print_sensor_lines ids
  = (map (fun sensor_id => Sensor_line (display_name sensor_id) sensor_id) ids, Ok tt).
Proof.
  induction ids as [|sensor_id ids IH]; cbn [print_sensor_lines map]; [reflexivity|].
  rewrite IH. reflexivity.
Qed.

(** X15.  [--list-sensors] asks the data service for the sensor types of the
    study and for nothing else, and writes no file, whatever else the
    command line says; when the table comes back with rows, one line is
    printed for each row, in order. *)
Theorem main_list_sensors (args : Args) :
  list_sensors args = true ->
  (forall x : io,
      In (Fetch x) (fst (main int_max_str_digits environ import_config env args)) ->
      (exists q, x = Request q /\ with_license (sensor_params (study_id args)) q)
      \/ exists r, x = Report r)
  /\ (forall (c : Credentials) (table : DataFrame) (ids : list cell),
        __init__ None None environ import_config = Ok c ->
        snd (get_sensor_types env (study_id args)) = Ok (Some table) ->
        (0 < len_df table)%nat ->
        column "sensor_type_id" table = Ok ids ->
        main int_max_str_digits environ import_config env args
        = ((map Fetch (fst (get_sensor_types env (study_id args)))
            ++ map (fun sensor_id => Sensor_line (display_name sensor_id) sensor_id) ids)%list,
           Ok tt)).
Proof.
  intros Hlist. split.
  - intros x H. apply in_main_inv in H.
    destruct H as [H | [(e & [=]) | (e & [=])]].
    unfold main_body in H. rewrite Hlist in H.
    apply in_bindMain_inv in H. destruct H as [[] | (c & _ & H)].
    apply in_bindMain_inv in H. destruct H as [H | (sensors & _ & H)].
    + apply in_fetch_inv in H. destruct H as (y & [= <-] & Hy).
      exact (TraceProps.in_read_result_inv env _ x Hy).
    + exfalso. destruct sensors as [table|].
      * destruct (0 <? len_df table)%nat.
        -- apply in_bindMain_inv in H. destruct H as [[] | (ids & _ & H)].
           rewrite print_sensor_lines_run in H. cbn [fst] in H.
           apply in_map_iff in H. destruct H as (sid & [=] & _).
        -- destruct H as [[=] | []].
      * destruct H as [[=] | []].
  - intros c table ids Hinit Hsen Hrows Hcol.
    unfold main, main_body. cbv zeta. rewrite Hlist.
    rewrite (bindMain_ok (lift (__init__ None None environ import_config)) _ c Hinit).
    rewrite (bindMain_ok (fetch (get_sensor_types env (study_id args))) _ (Some table))
      by exact Hsen.
    apply Nat.ltb_lt in Hrows. rewrite Hrows.
    rewrite (bindMain_ok (lift (column "sensor_type_id" table)) _ ids Hcol).
    rewrite print_sensor_lines_run. reflexivity.
Qed.

(** *** Sensor arguments that are no sensors *)

Lemma parse_sensors_unknown (sensors : list string) :
  (forall s, In s sensors -> sensor_type (lower s) = None /\ isdigit s = false) ->
  parse_sensors int_max_str_digits sensors = (map Unknown_sensor sensors, Ok []).
Proof.
  induction sensors as [|s sensors IH]; intros Hall; cbn [parse_sensors map];
    [reflexivity|].
  destruct (Hall s (or_introl eq_refl)) as [Hname Hdigit].
  rewrite IH by (intros t Ht; apply Hall; right; exact Ht).
  unfold parse_sensor. rewrite Hname, Hdigit.
  unfold bindMain, print, ret. cbn [fst snd app]. rewrite app_nil_r. reflexivity.
Qed.

Lemma main_prefixed (args args' : Args) (printed : list main_io) :
  main_body int_max_str_digits environ import_config env args
  = ((printed ++ fst (main_body int_max_str_digits environ import_config env args'))%list,
     snd (main_body int_max_str_digits environ import_config env args')) ->
  fst (main int_max_str_digits environ import_config env args)
  = (printed ++ fst (main int_max_str_digits environ import_config env args'))%list
  /\ snd (main int_max_str_digits environ import_config env args)
     = snd (main int_max_str_digits environ import_config env args').
Proof.
  intros Hbody. unfold main. cbv zeta. rewrite Hbody. cbn [fst snd].
  destruct (snd (main_body int_max_str_digits environ import_config env args'))
    as [u|e] eqn:Hsnd; [cbn [fst snd]; rewrite Hsnd; auto|].
  destruct e; cbn [is_Exception fst snd]; rewrite <- ?app_assoc, ?Hsnd; auto.
Qed.

(** X16.  When none of the sensor arguments is a sensor name or a number, each
    is reported as unknown, and then the run goes on as if no sensor had
    been named: the events of every sensor type of the study are
    fetched, not of none. *)
Theorem main_unknown_sensors_fetch_all (args : Args) (c : Credentials)
        (sensor : string) (others : list string) :
  __init__ None None environ import_config = Ok c ->
  list_sensors args = false ->
  sensors args = Some (sensor :: others) ->
  (forall s, In s (sensor :: others) -> sensor_type (lower s) = None /\ isdigit s = false) ->
  fst (main int_max_str_digits environ import_config env args)
  = (map Unknown_sensor (sensor :: others)
     ++ fst (main int_max_str_digits environ import_config env (without_sensors args)))%list
  /\ snd (main int_max_str_digits environ import_config env args)
     = snd (main int_max_str_digits environ import_config env (without_sensors args)).
Proof.
  intros Hinit Hlist Hsensors Hunknown. apply main_prefixed.
  unfold main_body, without_sensors. cbn [list_sensors sensors study_id start end_ no_metadata].
  rewrite Hlist, Hsensors.
  rewrite !(bindMain_ok (lift (__init__ None None environ import_config)) _ c Hinit).
  rewrite (parse_sensors_unknown _ Hunknown).
  cbn [lift fst snd app]. unfold bindMain. cbn [fst snd ret app].
  rewrite app_nil_r. reflexivity.
Qed.

(** *** A number that [int] refuses *)

Lemma parse_sensors_trace (sensors : list string) :
  exists unknown : list string,
    fst (parse_sensors int_max_str_digits sensors) = map Unknown_sensor unknown
    /\ forall e, snd (parse_sensors int_max_str_digits sensors) = Raise e -> e = ValueError.
Proof.
  induction sensors as [|s sensors (unknown & Htrace & Hexn)]; cbn [parse_sensors].
  - exists []. split; [reflexivity | discriminate].
  - assert (Hone : (parse_sensor int_max_str_digits s = ([Unknown_sensor s], Ok [])
                    \/ exists ids, parse_sensor int_max_str_digits s = ([], Ok ids))
                   \/ parse_sensor int_max_str_digits s = ([], Raise ValueError)).
    { unfold parse_sensor.
      destruct (sensor_type (lower s)); [left; right; eexists; reflexivity|].
      destruct (isdigit s); [|left; left; reflexivity].
      unfold int_of_digits.
      destruct (negb (all_chars is_decimal s)); [right; reflexivity|].
      destruct int_max_str_digits as [limit|]; [|left; right; eexists; reflexivity].
      destruct (limit <? String.length s)%nat;
        [right; reflexivity | left; right; eexists; reflexivity]. }
    destruct Hone as [[Hone | (ids & Hone)] | Hone]; rewrite Hone.
    + exists (s :: unknown). unfold bindMain at 1. cbn [fst snd].
      unfold bindMain. destruct (snd (parse_sensors int_max_str_digits sensors)) eqn:Hrest;
        cbn [fst snd ret app]; rewrite ?app_nil_r, Htrace;
        (split; [reflexivity|]); [discriminate | exact Hexn].
    + exists unknown. unfold bindMain at 1. cbn [fst snd].
      unfold bindMain. destruct (snd (parse_sensors int_max_str_digits sensors)) eqn:Hrest;
        cbn [fst snd ret app]; rewrite ?app_nil_r, Htrace;
        (split; [reflexivity|]); [discriminate | exact Hexn].
    + exists []. split; [reflexivity|]. cbn. congruence.
Qed.

Lemma parse_sensors_refused (sensors : list string) (s : string) :
  In s sensors ->
  sensor_type (lower s) = None -> isdigit s = true -> all_chars is_decimal s = false ->
  snd (parse_sensors int_max_str_digits sensors) = Raise ValueError.
Proof.
  intros Hin Hname Hdigit Hdec.
  induction sensors as [|t sensors IH]; [destruct Hin|]. cbn [parse_sensors].
  destruct (snd (parse_sensor int_max_str_digits t)) as [ids|e] eqn:Hone.
  - rewrite (bindMain_ok _ _ ids Hone). cbn [snd].
    destruct Hin as [-> | Hin].
    + unfold parse_sensor in Hone. rewrite Hname, Hdigit in Hone.
      unfold int_of_digits in Hone. rewrite Hdec in Hone. discriminate Hone.
    + rewrite (bindMain_raise _ _ ValueError (IH Hin)). reflexivity.
  - rewrite (bindMain_raise _ _ e Hone). cbn [snd].
    destruct (parse_sensors_trace [t]) as (_ & _ & Hexn).
    cbn [parse_sensors] in Hexn. f_equal. apply Hexn.
    rewrite (bindMain_raise _ _ e Hone). reflexivity.
Qed.

(** X17.  [str.isdigit] accepts the superscript digits, [int] does not.  A
    sensor argument made of digits with a superscript among them ends the
    run before anything is asked of the data service, and it is the help
    on credentials that is printed, valid as the credentials are. *)
Theorem main_refused_number (args : Args) (c : Credentials)
        (given : list string) (s : string) :
  __init__ None None environ import_config = Ok c ->
  list_sensors args = false ->
  sensors args = Some given ->
  In s given ->
  sensor_type (lower s) = None -> isdigit s = true -> all_chars is_decimal s = false ->
  exists unknown : list string,
    main int_max_str_digits environ import_config env args
    = ((map Unknown_sensor unknown ++ [Credentials_help ValueError])%list, Ok tt).
Proof.
  intros Hinit Hlist Hsensors Hin Hname Hdigit Hdec.
  destruct (parse_sensors_trace given) as (unknown & Htrace & _).
  pose proof (parse_sensors_refused given s Hin Hname Hdigit Hdec) as Hraise.
  exists unknown. unfold main, main_body. cbv zeta. rewrite Hlist, Hsensors.
  rewrite (bindMain_ok (lift (__init__ None None environ import_config)) _ c Hinit).
  destruct given as [|g given]; [destruct Hin|].
  rewrite (bindMain_raise (ids <- parse_sensors int_max_str_digits (g :: given) ;;
                           ret (Some ids)) _ ValueError)
    by (rewrite (bindMain_raise _ _ ValueError Hraise); reflexivity).
  rewrite (bindMain_raise _ _ ValueError Hraise).
  cbn [lift fst snd app]. rewrite Htrace. reflexivity.
Qed.

End Main.

Lemma main_list_sensors_witness :
  main (Some 4300%nat) logged_in no_config patchy
       (mkArgs 3445611111 (Some ["gps"]) (Some "2024-01-01") None false true)
  = ([Fetch (Request (sensor_params 3445611111));
      Sensor_line "GPS" (CInt 653); Sensor_line "Bird Ring" (CInt 397);
      Sensor_line "Acceleration" (CInt 2365683); Sensor_line "GPS" (CInt 653)], Ok tt).
Proof.
  exact (proj2 (main_list_sensors (Some 4300%nat) logged_in no_config patchy
                  (mkArgs 3445611111 (Some ["gps"]) (Some "2024-01-01") None false true)
                  eq_refl)
               (mkCredentials "user" "secret")
               [("sensor_type_id", [CInt 653; CInt 397; CInt 2365683; CInt 653])]
               [CInt 653; CInt 397; CInt 2365683; CInt 653]
               eq_refl eq_refl (Nat.lt_0_succ 3) eq_refl).
Defined.

Lemma main_without_credentials_witness :
  main (Some 4300%nat) no_environ no_config patchy gps_january
  = ([Credentials_help ValueError], Ok tt)
  /\ main (Some 4300%nat) no_environ config_template patchy gps_january
     = ([Credentials_help ValueError], Ok tt)
  /\ main None (mkEnviron (Some "user") None)
          (Ok (mkConfig (Some (Some "other")) None)) patchy gps_january
     = ([Credentials_help ValueError], Ok tt).
Proof.
  split; [|split]; apply main_without_credentials; reflexivity.
Defined.

Lemma main_unknown_sensors_fetch_all_witness :
  let args := mkArgs 3445611111 (Some ["gsp"; "all"]) None None true false in
  fst (main (Some 4300%nat) logged_in no_config patchy args)
  = ([Unknown_sensor "gsp"; Unknown_sensor "all"]
     ++ fst (main (Some 4300%nat) logged_in no_config patchy
                  (mkArgs 3445611111 None None None true false)))%list
  /\ In (Fetch (Request (event_params 3445611111 (CInt 2365683) None None)))
        (fst (main (Some 4300%nat) logged_in no_config patchy args)).
Proof.
  intros args.
  assert (Hunknown : forall s, In s ["gsp"; "all"] ->
                               sensor_type (lower s) = None /\ isdigit s = false).
  { intros s [<- | [<- | []]]; split; reflexivity. }
  destruct (main_unknown_sensors_fetch_all (Some 4300%nat) logged_in no_config patchy args
              (mkCredentials "user" "secret") "gsp" ["all"] eq_refl eq_refl eq_refl Hunknown)
    as [Htrace _].
  split; [exact Htrace|].
  rewrite Htrace. vm_compute. repeat (first [left; reflexivity | right]).
Defined.

Lemma main_refused_number_witness :
  exists unknown : list string,
    main (Some 4300%nat) logged_in no_config patchy
         (mkArgs 3445611111 (Some ["foo"; String (ascii_of_nat 178) EmptyString; "gps"])
                 None None false false)
    = ((map Unknown_sensor unknown ++ [Credentials_help ValueError])%list, Ok tt).
Proof.
  exact (main_refused_number (Some 4300%nat) logged_in no_config patchy
           (mkArgs 3445611111 (Some ["foo"; String (ascii_of_nat 178) EmptyString; "gps"])
                   None None false false)
           (mkCredentials "user" "secret")
           ["foo"; String (ascii_of_nat 178) EmptyString; "gps"]
           (String (ascii_of_nat 178) EmptyString)
           eq_refl eq_refl eq_refl (or_intror (or_introl eq_refl))
           eq_refl eq_refl eq_refl).
Defined.

End CliProps.
(* ================================================================== *)
(** * The clock: properties *)
(* ================================================================== *)

Module ClockProps.
Import Py DayNight Clock DayNightProps.

Lemma astimezone_localized (t : Timestamp) :
  astimezone EAT (match tzinfo t with None => utc_localize t | Some _ => t end)
  = Ok (mkTimestamp (instant t + EAT) (Some EAT)).
Proof.
  unfold astimezone, instant, utc_localize. destruct t as [w [o|]]; cbn [tzinfo wall].
  - reflexivity.
  - replace (w - 0 + EAT) with (w + EAT) by lia. reflexivity.
Qed.

Lemma convert_to_kenyan_time_zone {coord} (env : Env coord) (t : Timestamp) :
  pytz_timezone env = Ok tt ->
  convert_to_kenyan_time env t = mkTimestamp (instant t + EAT) (Some EAT).
Proof.
  intros Htz. unfold convert_to_kenyan_time. rewrite Htz.
  cbv zeta. rewrite astimezone_localized. reflexivity.
Qed.

Lemma convert_to_kenyan_time_failed {coord} (env : Env coord) (t : Timestamp) (e : exn) :
  pytz_timezone env = Raise e -> convert_to_kenyan_time env t = t.
Proof. intros Htz. unfold convert_to_kenyan_time. rewrite Htz. reflexivity. Qed.


(** X19.  Without solar data the marker agrees with the clock of the title:
    [is_daytime] answers day exactly when the hour of
    [convert_to_kenyan_time], the time the title shows, lies from 6 to
    18, whether the zone could be looked up or not. *)
Theorem is_daytime_follows_clock {coord} (env : Env coord) (lat lon : coord)
        (t : Timestamp) :
  (pytz_timezone env = Ok tt -> forall day, solar_fails env lat lon day) ->
  is_daytime env lat lon t = Ok (hour_window (hour (convert_to_kenyan_time env t))).
Proof.
  intros Hsolar.
  destruct (pytz_timezone env) as [[]|e] eqn:Htz.
  - rewrite (is_daytime_solar_fallback env lat lon t Htz (Hsolar eq_refl)).
    rewrite (convert_to_kenyan_time_zone env t Htz).
    unfold local_hour, instant. destruct (tzinfo t); reflexivity.
  - rewrite (is_daytime_raw_fallback env lat lon t e Htz).
    rewrite (convert_to_kenyan_time_failed env t e Htz). reflexivity.
Qed.

Lemma is_daytime_follows_clock_witness :
  is_daytime env_without_astral 0 0 t_1830_EAT
  = Ok (hour_window (hour (convert_to_kenyan_time env_without_astral t_1830_EAT)))
  /\ hour (convert_to_kenyan_time env_without_astral t_1830_EAT) = 18
  /\ is_daytime env_without_pytz 0 0 t_1830_EAT
     = Ok (hour_window (hour (convert_to_kenyan_time env_without_pytz t_1830_EAT)))
  /\ hour (convert_to_kenyan_time env_without_pytz t_1830_EAT) = 15.
Proof.
  split; [apply is_daytime_follows_clock; intros _ day; reflexivity|].
  split; [reflexivity|].
  split; [apply is_daytime_follows_clock; intros H; discriminate H|].
  reflexivity.
Defined.




Lemma calculate_sunrise_sunset_sound {coord} (env : Env coord) (lat lon : coord)
      (day : Z) :
  pytz_timezone env = Ok tt ->
  solar_sound env lat lon ->
  calculate_sunrise_sunset env lat lon day = Ok (None, None)
  \/ exists sunrise sunset o1 o2,
       calculate_sunrise_sunset env lat lon day = Ok (Some sunrise, Some sunset)
       /\ tzinfo sunrise = Some o1 /\ tzinfo sunset = Some o2.
Proof.
  intros Htz [Himport Hsun]. unfold calculate_sunrise_sunset. rewrite Htz.
  destruct (import_astral env) as [[]|e] eqn:Ha; cbn [bind try_except_if].
  2: { rewrite (Himport e eq_refl). auto. }
  specialize (Hsun day).
  destruct (astral_sun env lat lon day) as [[sunrise sunset]|e];
    cbn [bind try_except_if fst snd].
  - destruct Hsun as [H1 H2].
    destruct (tzinfo sunrise) as [o1|] eqn:Ho1; [|contradiction].
    destruct (tzinfo sunset) as [o2|] eqn:Ho2; [|contradiction].
    right. exists sunrise, sunset, o1, o2. auto.
  - rewrite Hsun. auto.
Qed.

(** X21.  As long as the zone can be looked up and the solar library behaves,
    the answer of [is_daytime] depends on the instant alone, not on the
    zone it is written in: two timestamps of the same instant (one
    without zone counting as UTC) are classified alike. *)
Theorem is_daytime_by_instant {coord} (env : Env coord) (lat lon : coord)
        (t1 t2 : Timestamp) :
  pytz_timezone env = Ok tt ->
  solar_sound env lat lon ->
  instant t1 = instant t2 ->
  is_daytime env lat lon t1 = is_daytime env lat lon t2.
Proof.
  intros Htz Hsound Hsame. unfold is_daytime. rewrite Htz. cbn [bind].
  rewrite !astimezone_localized, Hsame. cbn [bind].
  destruct (calculate_sunrise_sunset_sound env lat lon
              (date (mkTimestamp (instant t2 + EAT) (Some EAT))) Htz Hsound)
    as [-> | (sunrise & sunset & o1 & o2 & -> & Ho1 & Ho2)]; cbn [bind try_except].
  - reflexivity.
  - unfold le. rewrite Ho1, Ho2. cbn [tzinfo bind].
    destruct (wall sunrise - o1 <=? _); reflexivity.
Qed.

Lemma solar_sound_with_astral : solar_sound env_with_astral 0 0.
Proof. split; [discriminate|]. intros day. split; discriminate. Qed.

Lemma is_daytime_by_instant_witness :
  let utc := mkTimestamp ((1704067200 + 15 * 3600 + 45 * 60) * 1000000000) (Some 0) in
  let cet := mkTimestamp ((1704067200 + 16 * 3600 + 45 * 60) * 1000000000)
                         (Some NS_PER_HOUR) in
  is_daytime env_with_astral 0 0 utc = is_daytime env_with_astral 0 0 cet
  /\ is_daytime env_with_astral 0 0 cet = Ok false.
Proof.
  intros utc cet.
  split; [apply is_daytime_by_instant;
          [reflexivity | exact solar_sound_with_astral | reflexivity]|].
  vm_compute. reflexivity.
Defined.

End ClockProps.
(* ================================================================== *)
(** * The distance of a track: properties *)
(* ================================================================== *)

Module DistanceProps.
Import Py Geo Distance GeoProps.
#[local] Open Scope R_scope.

(** ** One leg *)




(** ** The sum of the legs *)







(** ** The loops *)










End DistanceProps.
(* ================================================================== *)
(** * The session: properties *)
(* ================================================================== *)

Module SessionProps.
Import Py Viewer Session ViewerProps.

(** ** The frame of a cursor *)





(** ** The delay between two ticks *)

(** X26.  For every speed of the slider's range the delay is the whole part
    of [1000 / speed] but at least 10 ms; from speed 91 on, nine tenths
    of the slider, it is 10 ms whatever the speed. *)
Theorem tick_delay_floor (speed : Z) :
  1 <= speed <= 1000 ->
  tick_delay speed = Ok (Z.max 10 (1000 / speed))
  /\ (91 <= speed -> tick_delay speed = Ok 10).
Proof.
  intros Hs.
  assert (Hall : forallb (fun n => match tick_delay (Z.of_nat n) with
                                   | Ok d => d =? Z.max 10 (1000 / Z.of_nat n)
                                   | Raise _ => false
                                   end) (seq 1 1000) = true)
    by (vm_compute; reflexivity).
  rewrite forallb_forall in Hall.
  specialize (Hall (Z.to_nat speed) ltac:(apply in_seq; lia)).
  rewrite Z2Nat.id in Hall by lia.
  destruct (tick_delay speed) as [d|e]; [|discriminate].
  apply Z.eqb_eq in Hall. subst d. split; [reflexivity|].
  intros H91. f_equal.
  assert (1000 / speed < 11); [|lia].
  apply Z.div_lt_upper_bound; lia.
Qed.

Lemma tick_delay_floor_witness :
  tick_delay 100 = Ok 10 /\ tick_delay 1000 = Ok 10 /\ tick_delay 30 = Ok 33.
Proof.
  split; [exact (proj2 (tick_delay_floor 100 ltac:(lia)) ltac:(lia))|].
  split; [exact (proj2 (tick_delay_floor 1000 ltac:(lia)) ltac:(lia))|].
  exact (proj1 (tick_delay_floor 30 ltac:(lia))).
Defined.

(** ** The markers *)

Lemma every_nth_from_length {A} (step countdown : nat) (l : list A) :
  (1 <= step)%nat ->
  (List.length l <= countdown + step * List.length (every_nth_from step countdown l))%nat
  /\ ((countdown < List.length l)%nat ->
      (countdown + step * List.length (every_nth_from step countdown l) + 1
       <= List.length l + step)%nat)
  /\ ((List.length l <= countdown)%nat -> every_nth_from step countdown l = []).
Proof.
  intros Hstep. revert countdown.
  induction l as [|x l IH]; intros countdown; cbn [every_nth_from List.length].
  - split; [lia|]. split; [lia | reflexivity].
  - destruct countdown as [|c].
    + destruct (IH (step - 1)%nat) as (A1 & A2 & A3). cbn [List.length].
      split; [nia|]. split; [|lia]. intros _.
      destruct (Nat.lt_ge_cases (step - 1) (List.length l)) as [Hlt|Hge].
      * specialize (A2 Hlt). nia.
      * rewrite (A3 Hge). cbn [List.length]. nia.
    + destruct (IH c) as (A1 & A2 & A3).
      split; [lia|]. split; [intros H; specialize (A2 ltac:(lia)); lia|].
      intros H. apply A3. lia.
Qed.

Lemma every_nth_from_In {A} (step countdown : nat) (l : list A) (x : A) :
  In x (every_nth_from step countdown l) -> In x l.
Proof.
  revert countdown. induction l as [|y l IH]; intros countdown; cbn [every_nth_from];
    [trivial|].
  destruct countdown as [|c].
  - intros [<- | H]; [left; reflexivity | right; exact (IH _ H)].
  - intros H. right. exact (IH _ H).
Qed.

(** X27.  Up to 500 rows every row gets a marker.  Beyond, the markers are
    thinned out, but not down to 500: there are at least 500 and at most
    999 of them, the first row always among them, each on a row of the
    view. *)
Theorem display_data_bounds (filtered_data : list row) :
  ((List.length filtered_data <= 500)%nat -> display_data filtered_data = filtered_data)
  /\ ((500 < List.length filtered_data)%nat ->
      (500 <= List.length (display_data filtered_data) <= 999)%nat
      /\ hd_error (display_data filtered_data) = hd_error filtered_data)
  /\ forall r, In r (display_data filtered_data) -> In r filtered_data.
Proof.
  unfold display_data.
  destruct (Nat.ltb_spec 500 (List.length filtered_data)) as [Hmany|Hfew].
  - split; [lia|]. split.
    + intros _.
      set (step := (List.length filtered_data / 500)%nat).
      assert (Hstep : (1 <= step)%nat).
      { unfold step. apply Nat.div_le_lower_bound; lia. }
      assert (Hlow : (500 * step <= List.length filtered_data)%nat).
      { unfold step. apply Nat.Div0.mul_div_le. }
      assert (Hhigh : (List.length filtered_data < 500 * step + 500)%nat).
      { unfold step.
        pose proof (Nat.div_mod_eq (List.length filtered_data) 500).
        pose proof (Nat.mod_upper_bound (List.length filtered_data) 500). lia. }
      destruct (every_nth_from_length step 0 filtered_data Hstep) as (A1 & A2 & _).
      specialize (A2 ltac:(lia)). unfold every_nth.
      split; [split; nia|].
      destruct filtered_data; reflexivity.
    + intros r. apply every_nth_from_In.
  - split; [reflexivity|]. split; [lia | trivial].
Qed.

Lemma display_data_bounds_witness :
  display_data (track 500) = track 500
  /\ List.length (display_data (track 999)) = 999%nat
  /\ List.length (display_data (track 1000)) = 500%nat
  /\ (500 <= List.length (display_data (track 1499)) <= 999)%nat.
Proof.
  split; [exact (proj1 (display_data_bounds (track 500)) ltac:(vm_compute; lia))|].
  split; [vm_compute; reflexivity|]. split; [vm_compute; reflexivity|].
  exact (proj1 (proj1 (proj2 (display_data_bounds (track 1499))) ltac:(vm_compute; lia))).
Defined.

(** ** The filtered view, whatever the date fields hold *)

Lemma filter_data_loaded (pd : string -> result (option Z)) (self : GPSViewer)
      (gps : list row) :
  gps_data self = Some gps ->
  animal_var self <> "" ->
  exists dated : list row,
    filtered_data (filter_data pd self) = Some (sort_values dated)
    /\ (forall r, In r dated ->
                  In r gps /\ individual_local_identifier r = animal_var self)
    /\ (forall e, pd (start_date_var self) = Raise e
                  \/ (exists start, pd (start_date_var self) = Ok start
                                    /\ pd (end_date_var self) = Raise e) ->
                  dated = filter (fun r => String.eqb (individual_local_identifier r)
                                                      (animal_var self)) gps).
Proof.
  intros Hgps Hanimal. unfold filter_data. rewrite Hgps.
  destruct (String.eqb_spec (animal_var self) ""); [contradiction|].
  set (mine := filter (fun r => String.eqb (individual_local_identifier r)
                                           (animal_var self)) gps).
  assert (Hmine : forall r, In r mine ->
                            In r gps /\ individual_local_identifier r = animal_var self).
  { intros r Hr. apply filter_In in Hr. destruct Hr as [Hin Heq].
    apply String.eqb_eq in Heq. auto. }
  destruct (pd (start_date_var self)) as [start|e1] eqn:Hstart; cbn [bind].
  - destruct (pd (end_date_var self)) as [end_|e2] eqn:Hend; cbn [bind].
    + eexists. split; [reflexivity|]. split.
      * intros r Hr. apply filter_In in Hr. apply Hmine. exact (proj1 Hr).
      * intros e [H | (s & _ & H)]; discriminate H.
    + exists mine. split; [reflexivity|]. split; [exact Hmine | reflexivity].
  - exists mine. split; [reflexivity|]. split; [exact Hmine | reflexivity].
Qed.

(** X28.  Whatever the date fields hold, the filtered view is made of rows of
    the table that belong to the selected subject, in ascending order of
    timestamp with the rows without timestamp last.  And when a date
    field cannot be read as a date, the dates are not applied at all: the
    view then holds every row of the subject. *)
Theorem filter_data_view (pd : string -> result (option Z)) (self : GPSViewer)
        (gps : list row) :
  gps_data self = Some gps ->
  animal_var self <> "" ->
  exists view : list row,
    filtered_data (filter_data pd self) = Some view
    /\ (forall r, In r view ->
                  In r gps /\ individual_local_identifier r = animal_var self)
    /\ ts_sorted view
    /\ (forall e, pd (start_date_var self) = Raise e
                  \/ (exists start, pd (start_date_var self) = Ok start
                                    /\ pd (end_date_var self) = Raise e) ->
                  Permutation
                    (filter (fun r => String.eqb (individual_local_identifier r)
                                                 (animal_var self)) gps) view).
Proof.
  intros Hgps Hanimal.
  destruct (filter_data_loaded pd self gps Hgps Hanimal) as (dated & Hview & Hrows & Hall).
  exists (sort_values dated). split; [exact Hview|]. split; [|split].
  - intros r Hr. apply Hrows.
    exact (Permutation_in r (Permutation_sym (RowSort.Permuted_sort dated)) Hr).
  - apply RowSort.StronglySorted_sort, ts_leb_transitive.
  - intros e He. rewrite <- (Hall e He). apply RowSort.Permuted_sort.
Qed.

Lemma filter_data_view_witness :
  exists view : list row,
    filtered_data (filter_data pd_dates
                     (set_start_date_var "yesterday" (viewer_on five_fixes))) = Some view
    /\ ts_sorted view
    /\ Permutation (filter (fun r => String.eqb (individual_local_identifier r) "T1")
                           five_fixes) view.
Proof.
  destruct (filter_data_view pd_dates (set_start_date_var "yesterday" (viewer_on five_fixes))
              five_fixes eq_refl ltac:(discriminate))
    as (view & Hview & _ & Hsorted & Hall).
  exists view. split; [exact Hview|]. split; [exact Hsorted|].
  exact (Hall ValueError (or_introl eq_refl)).
Defined.

(** ** Selecting a subject *)

Lemma ts_min_None (l : list (option Z)) :
  fold_right ts_min None l = None -> forall x, In x l -> x = None.
Proof.
  induction l as [|y l IH]; cbn [fold_right]; intros H x Hin; [destruct Hin|].
  destruct y as [v|]; cbn [ts_min] in H.
  - destruct (fold_right ts_min None l); discriminate H.
  - destruct Hin as [<- | Hin]; [reflexivity | exact (IH H x Hin)].
Qed.

Lemma ts_max_None (l : list (option Z)) :
  fold_right ts_max None l = None -> forall x, In x l -> x = None.
Proof.
  induction l as [|y l IH]; cbn [fold_right]; intros H x Hin; [destruct Hin|].
  destruct y as [v|]; cbn [ts_max] in H.
  - destruct (fold_right ts_max None l); discriminate H.
  - destruct Hin as [<- | Hin]; [reflexivity | exact (IH H x Hin)].
Qed.

Lemma ts_min_le (l : list (option Z)) (t lo : Z) :
  In (Some t) l -> fold_right ts_min None l = Some lo -> lo <= t.
Proof.
  revert lo. induction l as [|y l IH]; intros lo Hin Hmin; [destruct Hin|].
  cbn [fold_right] in Hmin.
  destruct (fold_right ts_min None l) as [m|] eqn:Hrest.
  - destruct Hin as [-> | Hin].
    + cbn [ts_min] in Hmin. injection Hmin as <-. lia.
    + specialize (IH m Hin eq_refl).
      destruct y; cbn [ts_min] in Hmin; injection Hmin as <-; lia.
  - destruct Hin as [-> | Hin].
    + cbn [ts_min] in Hmin. injection Hmin as <-. lia.
    + discriminate (ts_min_None l Hrest _ Hin).
Qed.

Lemma ts_max_ge (l : list (option Z)) (t hi : Z) :
  In (Some t) l -> fold_right ts_max None l = Some hi -> t <= hi.
Proof.
  revert hi. induction l as [|y l IH]; intros hi Hin Hmax; [destruct Hin|].
  cbn [fold_right] in Hmax.
  destruct (fold_right ts_max None l) as [m|] eqn:Hrest.
  - destruct Hin as [-> | Hin].
    + cbn [ts_max] in Hmax. injection Hmax as <-. lia.
    + specialize (IH m Hin eq_refl).
      destruct y; cbn [ts_max] in Hmax; injection Hmax as <-; lia.
  - destruct Hin as [-> | Hin].
    + cbn [ts_max] in Hmax. injection Hmax as <-. lia.
    + discriminate (ts_max_None l Hrest _ Hin).
Qed.

Lemma min_timestamp_le (data : list row) (r : row) (t lo : Z) :
  In r data -> timestamp r = Some t -> min_timestamp data = Some lo -> lo <= t.
Proof.
  intros Hin Ht. apply ts_min_le. rewrite <- Ht. apply in_map, Hin.
Qed.

Lemma max_timestamp_ge (data : list row) (r : row) (t hi : Z) :
  In r data -> timestamp r = Some t -> max_timestamp data = Some hi -> t <= hi.
Proof.
  intros Hin Ht. apply ts_max_ge. rewrite <- Ht. apply in_map, Hin.
Qed.

(** X29.  Selecting a subject fills the two date fields with the days of its
    first and of its last fix and filters by them.  When the date that
    [strftime] prints reads back as the midnight of that day, no fix is
    lost to the dates: the view holds every row of the subject that has a
    timestamp, in ascending order. *)
Theorem on_animal_selected_keeps_track
        (pd : string -> result (option Z)) (sf : option Z -> result string)
        (self : GPSViewer) (gps : list row) (lo hi : Z) (start_text end_text : string) :
  gps_data self = Some gps ->
  animal_var self <> "" ->
  min_timestamp (filter (fun r => String.eqb (individual_local_identifier r)
                                             (animal_var self)) gps) = Some lo ->
  max_timestamp (filter (fun r => String.eqb (individual_local_identifier r)
                                             (animal_var self)) gps) = Some hi ->
  sf (Some lo) = Ok start_text -> sf (Some hi) = Ok end_text ->
  pd start_text = Ok (Some (day_floor lo)) ->
  pd end_text = Ok (Some (day_floor hi)) ->
  exists view : list row,
    filtered_data (on_animal_selected pd sf self) = Some view
    /\ start_date_var (on_animal_selected pd sf self) = start_text
    /\ end_date_var (on_animal_selected pd sf self) = end_text
    /\ Permutation (filter (dated_row_of (animal_var self)) gps) view
    /\ StronglySorted row_le view.
Proof.
  intros Hgps Hanimal Hmin Hmax Hsf1 Hsf2 Hpd1 Hpd2.
  set (mine := filter (fun r => String.eqb (individual_local_identifier r)
                                           (animal_var self)) gps) in *.
  unfold on_animal_selected. rewrite Hgps.
  destruct (String.eqb_spec (animal_var self) ""); [contradiction|].
  fold mine. destruct mine as [|r0 mine'] eqn:Hmine; [discriminate Hmin|].
  rewrite <- Hmine in *. cbv zeta. rewrite Hmin, Hsf1, Hmax, Hsf2.
  set (self' := set_end_date_var end_text (set_start_date_var start_text self)).
  assert (Hsel : filter (selected (animal_var self) (day_floor lo) (day_floor hi)) gps
                 = filter (dated_row_of (animal_var self)) gps).
  { apply filter_ext_in. intros r Hr. unfold dated_row_of.
    destruct (String.eqb_spec (individual_local_identifier r) (animal_var self))
      as [Hid|Hid].
    - destruct (timestamp r) as [t|] eqn:Ht.
      + assert (Hin : In r mine).
        { unfold mine. apply filter_In. split; [exact Hr|]. apply String.eqb_eq, Hid. }
        apply (own_range_selects _ lo hi t r Hid Ht). split.
        * exact (min_timestamp_le mine r t lo Hin Ht Hmin).
        * exact (max_timestamp_ge mine r t hi Hin Ht Hmax).
      + unfold selected. rewrite Ht. apply andb_false_r.
    - unfold selected.
      destruct (String.eqb_spec (individual_local_identifier r) (animal_var self));
        [contradiction | reflexivity]. }
  pose proof (filter_data_parsed pd self' gps (day_floor lo) (day_floor hi)
                Hgps Hanimal Hpd1 Hpd2) as Hview.
  change (animal_var self') with (animal_var self) in Hview. rewrite Hsel in Hview.
  exists (sort_values (filter (dated_row_of (animal_var self)) gps)).
  split; [exact Hview|].
  assert (Hvars : forall v, start_date_var (set_filtered_data v self') = start_text
                            /\ end_date_var (set_filtered_data v self') = end_text)
    by (intros v; split; reflexivity).
  assert (Hfd : filter_data pd self'
                = set_filtered_data (filtered_data (filter_data pd self')) self').
  { unfold filter_data. change (gps_data self') with (gps_data self). rewrite Hgps.
    change (animal_var self') with (animal_var self).
    destruct (String.eqb_spec (animal_var self) ""); [contradiction | reflexivity]. }
  rewrite Hfd. split; [apply Hvars|]. split; [apply Hvars|].
  split; [apply RowSort.Permuted_sort|].
  apply StronglySorted_present.
  - apply RowSort.StronglySorted_sort, ts_leb_transitive.
  - apply Forall_forall. intros r Hr.
    apply (Permutation_in r (Permutation_sym (RowSort.Permuted_sort _))) in Hr.
    apply filter_In in Hr. destruct Hr as [_ Hr]. unfold dated_row_of in Hr.
    destruct (timestamp r); [discriminate|]. rewrite andb_false_r in Hr. discriminate Hr.
Qed.

Lemma on_animal_selected_keeps_track_witness :
  exists view : list row,
    filtered_data (on_animal_selected pd_three_days strftime_dates (viewer_on five_fixes))
    = Some view
    /\ start_date_var (on_animal_selected pd_three_days strftime_dates (viewer_on five_fixes))
       = "2024-01-01"
    /\ end_date_var (on_animal_selected pd_three_days strftime_dates (viewer_on five_fixes))
       = "2024-01-03"
    /\ Permutation (filter (dated_row_of "T1") five_fixes) view
    /\ StronglySorted row_le view.
Proof.
  exact (on_animal_selected_keeps_track pd_three_days strftime_dates (viewer_on five_fixes)
           five_fixes 1704067200000000000 1704240000000000000 "2024-01-01" "2024-01-03"
           eq_refl ltac:(discriminate) eq_refl eq_refl eq_refl eq_refl eq_refl eq_refl).
Defined.

(** ** Playback while the view changes *)


















End SessionProps.
